(** * PointCloud-to-Mesh-Convertor: the geometric core, embedded and verified

    The repository drives Open3D and numpy from a handful of Python
    functions (src/point_cloud_processor/utils.py, src/creator.py,
    src/pyramid_pc.py).  Each of these functions is translated below into a
    Rocq definition of the same name.

    Conventions of the embedding
    - a Python float (IEEE double) is idealised as a real number of [R]:
      the arithmetic is exact, and where numpy divides by zero (nan) the
      model says so explicitly instead of relying on [x / 0] in [R].
      Exact arithmetic and binary64 agree up to rounding only where
      nothing overflows, underflows or cancels; the statements about
      the arithmetic therefore carry the range of inputs as a hypothesis
      ([Preprocessor.well_conditioned], [Reconstruction.in_range]), and
      module [Binary64] repeats the same steps on primitive floats to
      show what the code computes outside that range;
    - a numpy array of points is a [list vec3]; an Open3D [PointCloud]
      or [TriangleMesh] is a record; a cloud that is mutated through a
      Python reference lives in a [heap] and is named by a [ref];
    - a Python exception is a value of [exn]; code that can raise returns
      a [result];
    - calls into Open3D whose algorithm is not part of the repository
      (plane fitting, Poisson solve, ball pivoting, PCD parsing) are
      [Variable]s of the section that uses them. *)

From Stdlib Require Import Reals Lra Lia List String Ascii ZArith Bool.
From Stdlib Require Floats.
From stdpp Require Import base list gmap strings.
Import ListNotations.

Open Scope R_scope.

(** ** Points, vectors and Python results *)

Definition vec3 : Type := R * R * R.

Definition vx (p : vec3) : R := fst (fst p).
Definition vy (p : vec3) : R := snd (fst p).
Definition vz (p : vec3) : R := snd p.

Definition vzero : vec3 := (0, 0, 0).
Definition vadd (p q : vec3) : vec3 := (vx p + vx q, vy p + vy q, vz p + vz q).
Definition vsub (p q : vec3) : vec3 := (vx p - vx q, vy p - vy q, vz p - vz q).
Definition vscale (s : R) (p : vec3) : vec3 := (s * vx p, s * vy p, s * vz p).
Definition vdiv (p : vec3) (s : R) : vec3 := (vx p / s, vy p / s, vz p / s).

(** [np.linalg.norm] of one row. *)
Definition vnorm (p : vec3) : R := sqrt (vx p * vx p + vy p * vy p + vz p * vz p).

(** Python exceptions: the classes that occur in the source or are raised
    by the library calls it makes, with their message. *)
Inductive exn : Type :=
| FileNotFoundError (msg : string)
| ValueError (msg : string)
| RuntimeError (msg : string)
| OtherError (class msg : string).  (* any other exception class, by name *)

Inductive result (A : Type) : Type :=
| Return (a : A)
| Raise (e : exn).
Arguments Return {A} a.
Arguments Raise {A} e.

#[global] Instance result_ret : MRet result := fun A a => Return a.
#[global] Instance result_bind : MBind result := fun A B k m =>
  match m with
  | Return a => k a
  | Raise e => Raise e
  end.

(** An Open3D [PointCloud]: the point array and the parallel normal array
    ([normals = []] when normals were never estimated). *)
Record cloud : Type := mkCloud { points : list vec3; normals : list vec3 }.

(** [PointCloud.has_points] and [PointCloud.has_normals] of Open3D. *)
Definition has_points (c : cloud) : bool := negb (Nat.eqb (length (points c)) 0).
Definition has_normals (c : cloud) : bool :=
  has_points c && Nat.eqb (length (normals c)) (length (points c)).

(** An Open3D [TriangleMesh]. *)
Record mesh : Type := mkMesh {
  vertices : list vec3;
  triangles : list (nat * nat * nat);
  vertex_normals : list vec3
}.

(** [TriangleMesh.has_triangles] of Open3D: vertices and triangles, both
    non-empty. *)
Definition has_triangles (m : mesh) : bool :=
  negb (Nat.eqb (length (vertices m)) 0) && negb (Nat.eqb (length (triangles m)) 0).

(** ** PointSource: the tetrahedron generator
    (utils.py 23-52, pyramid_pc.py 5-53) *)

Module Tetrahedron.

Definition tetra_vertices : list vec3 :=
  [(0, 0, 0); (1, 0, 0); (0, 1, 0); (1/2, 1/2, 1)].

Definition faces : list (nat * nat * nat) :=
  [(0, 1, 3); (1, 2, 3); (2, 0, 3); (0, 2, 1)]%nat.

Definition vertex (i : nat) : vec3 := nth i tetra_vertices vzero.

(** [np.random.uniform(0, 1, m)]: the generator is the sequence [draws]
    of the values it will hand out and the position reached in it; a
    call consumes [m] of them. *)
Definition uniform (draws : nat -> R) (pos m : nat) : list R * nat :=
  (map draws (seq pos m), (pos + m)%nat).

(** [mask = u + v > 1], elementwise. *)
Definition mask_of (u v : list R) : list bool :=
  zip_with (fun a b => if Rgt_dec (a + b) 1 then true else false) u v.

(** [a[mask] = 1 - a[mask]]. *)
Definition reflect (mask : list bool) (a : list R) : list R :=
  zip_with (fun (m : bool) x => if m then 1 - x else x) mask a.

(** [v0 * w[:, np.newaxis] + v1 * u[:, np.newaxis] + v2 * v[:, np.newaxis]] *)
Definition weighted (v0 v1 v2 : vec3) (w u v : list R) : list vec3 :=
  zip_with (fun c uv => vadd (vadd (vscale c v0) (vscale (fst uv) v1))
                             (vscale (snd uv) v2))
           w (zip_with pair u v).

(** The body of the loop over the faces, for one face. *)
Definition face_points (f : nat * nat * nat) (u v : list R) : list vec3 :=
  let '(i0, i1, i2) := f in
  let mask := mask_of u v in
  let u' := reflect mask u in
  let v' := reflect mask v in
  let w := zip_with (fun a b => 1 - a - b) u' v' in
  weighted (vertex i0) (vertex i1) (vertex i2) w u' v'.

(** The loop over the faces; the generator position is threaded through. *)
Fixpoint sample_faces (draws : nat -> R) (points_per_face : nat)
         (fs : list (nat * nat * nat)) (pos : nat) : list (list vec3) :=
  match fs with
  | [] => []
  | f :: fs' =>
      let '(u, pos1) := uniform draws pos points_per_face in
      let '(v, pos2) := uniform draws pos1 points_per_face in
      face_points f u v :: sample_faces draws points_per_face fs' pos2
  end.

(** [generate_tetrahedron_point_cloud(num_points)]; the result is the
    point array handed to the fresh [PointCloud]. *)
Definition generate_tetrahedron_point_cloud
           (draws : nat -> R) (num_points : nat) : list vec3 :=
  let points_per_face := (num_points / 4)%nat in
  let all_points := sample_faces draws points_per_face faces 0 in
  let points := concat all_points in
  if (num_points <? length points)%nat then take num_points points
  else if (length points <? num_points)%nat then
    let extra := (num_points - length points)%nat in
    points ++ take extra points
  else points.

(** The convex hull of the four vertices. *)
Definition in_hull (p : vec3) : Prop :=
  exists a b c d : R,
    0 <= a /\ 0 <= b /\ 0 <= c /\ 0 <= d /\ a + b + c + d = 1 /\
    p = vadd (vadd (vscale a (vertex 0)) (vscale b (vertex 1)))
             (vadd (vscale c (vertex 2)) (vscale d (vertex 3))).

(** What one sample of a face is, after the reflection. *)
Definition sample (f : nat * nat * nat) (uv : R * R) : vec3 :=
  let '(i0, i1, i2) := f in
  let '(u, v) := uv in
  let u' := if Rgt_dec (u + v) 1 then 1 - u else u in
  let v' := if Rgt_dec (u + v) 1 then 1 - v else v in
  vadd (vadd (vscale (1 - u' - v') (vertex i0)) (vscale u' (vertex i1)))
       (vscale v' (vertex i2)).

End Tetrahedron.

(** ** PointSource: the file loader (utils.py 55-69, creator.py 6-21) *)

Module Loader.

Local Open Scope string_scope.

(** *** Python string operations used by the loader and by numpy *)

(** [s.split(d)] for a one-character separator. *)
Fixpoint split_on (d : ascii) (s : string) : list string :=
  match s with
  | EmptyString => [EmptyString]
  | String c s' =>
      if Ascii.eqb c d then EmptyString :: split_on d s'
      else match split_on d s' with
           | [] => [String c EmptyString]
           | w :: ws => String c w :: ws
           end
  end.

(** [s.endswith(suffix)] *)
Definition endswith (s suffix : string) : bool :=
  let n := String.length s in
  let m := String.length suffix in
  (m <=? n)%nat && String.eqb (substring (n - m) m s) suffix.

Definition is_crlf (c : ascii) : bool :=
  Ascii.eqb c "010"%char || Ascii.eqb c "013"%char.

Fixpoint lstrip_crlf (s : string) : string :=
  match s with
  | EmptyString => EmptyString
  | String c s' => if is_crlf c then lstrip_crlf s' else s
  end.

Fixpoint rstrip_crlf (s : string) : string :=
  match s with
  | EmptyString => EmptyString
  | String c s' =>
      let r := rstrip_crlf s' in
      if is_crlf c && String.eqb r EmptyString then EmptyString else String c r
  end.

(** [line.strip('\r\n')] *)
Definition strip_crlf (s : string) : string := rstrip_crlf (lstrip_crlf s).

(** *** numpy: [np.loadtxt(fname, delimiter=' ')]

    numpy is not part of the repository; [loadtxt] follows its
    documented behaviour with the default arguments the source leaves
    in place ([comments='#'], [ndmin=0]): every line is cut at the
    first [#] and stripped of line ends, empty lines are skipped, the
    others are split at the delimiter and every field is converted by
    [float]; rows of unequal length and fields that are not floats raise
    [ValueError]; the array is squeezed before it is returned. *)

(** A numpy array of floats of dimension 0, 1 or 2. *)
Inductive ndarray : Type :=
| Array0 (x : R)
| Array1 (v : list R)
| Array2 (rows : list (list R)).

Definition ndim (a : ndarray) : nat :=
  match a with Array0 _ => 0 | Array1 _ => 1 | Array2 _ => 2 end.

(** [np.squeeze] of the array of the rows read (all rows have the same,
    non-zero length): axes of length one are dropped; no row at all is
    the empty one-dimensional array. *)
Definition squeeze (rows : list (list R)) : ndarray :=
  match rows with
  | [] => Array1 []
  | [[x]] => Array0 x
  | [row] => Array1 row
  | _ => if forallb (fun r => Nat.eqb (length r) 1) rows
         then Array1 (concat rows) else Array2 rows
  end.

(** The lines of a file opened in text mode.  Python's universal
    newlines end a line at a line feed, at a carriage return, and at
    the two in a row; the empty line that the two leave between them
    here is skipped by [loadtxt] like every empty line. *)
Definition text_lines (content : string) : list string :=
  concat (map (split_on "013"%char) (split_on "010"%char content)).

Definition split_line (line : string) : list string :=
  let line := strip_crlf (hd EmptyString (split_on "#" line)) in
  if String.eqb line EmptyString then [] else split_on " " line.

Section Loadtxt.

(** Python's [float(s)]: [None] when it raises [ValueError]. *)
Variable float_of_string : string -> option R.

Fixpoint convert_row (words : list string) : result (list R) :=
  match words with
  | [] => Return []
  | w :: ws =>
      match float_of_string w with
      | None => Raise (ValueError ("could not convert string to float: " ++ w))
      | Some x => xs ← convert_row ws; Return (x :: xs)
      end
  end.

(** The rows of the file; [ncols] is the width fixed by the first row. *)
Fixpoint read_rows (lines : list string) (ncols : option nat)
  : result (list (list R)) :=
  match lines with
  | [] => Return []
  | l :: ls =>
      match split_line l with
      | [] => read_rows ls ncols
      | words =>
          let n := length words in
          if match ncols with Some m => negb (Nat.eqb n m) | None => false end
          then Raise (ValueError "Wrong number of columns")
          else row ← convert_row words;
               rest ← read_rows ls (Some n);
               Return (row :: rest)
      end
  end.

Definition loadtxt (content : string) : result ndarray :=
  rows ← read_rows (text_lines content) None;
  Return (squeeze rows).

(** *** Open3D: [o3d.utility.Vector3dVector(array)]

    The constructor converts a float array of shape (n, 3); for any
    other dimension or width the binding throws a cast error, which
    reaches Python as a [RuntimeError]. *)
Definition cast_error : exn :=
  RuntimeError "Unable to cast Python instance to C++ type".

Definition row_to_vec3 (r : list R) : vec3 :=
  (nth 0 r 0%R, nth 1 r 0%R, nth 2 r 0%R).

Definition Vector3dVector (a : ndarray) : result (list vec3) :=
  match a with
  | Array2 rows =>
      if forallb (fun r => Nat.eqb (length r) 3) rows
      then Return (map row_to_vec3 rows)
      else Raise cast_error
  | _ => Raise cast_error
  end.

(** [o3d.io.read_point_cloud] applied to the bytes of a [.pcd] file: the
    parser is Open3D's; on a file it cannot read it returns a cloud
    without points. *)
Variable read_point_cloud : string -> cloud.

(** The file system, as far as it holds regular files that can be read:
    the content of every path that exists.  Directories and files that
    may not be opened are in [LoaderOS] below. *)
Definition filesystem : Type := string -> option string.

Definition load_point_cloud (fs : filesystem) (file_path : string)
  : result cloud :=
  match fs file_path with
  | None => Raise (FileNotFoundError ("File " ++ file_path ++ " does not exist!"))
  | Some content =>
      if endswith file_path ".xyz" then
        point_cloud ← loadtxt content;
        pts ← Vector3dVector point_cloud;
        Return (mkCloud pts [])
      else if endswith file_path ".pcd" then
        let pcd := read_point_cloud content in
        if negb (has_points pcd)
        then Raise (ValueError ("Failed to load " ++ file_path
                                ++ ": no points found!"))
        else Return pcd
      else Raise (ValueError "Unsupported file format. Use .xyz or .pcd")
  end.

End Loadtxt.

(** The plain decimal literals among the strings [float] accepts: an
    optional sign, digits, and optionally a point followed by digits. *)
Definition digit_of (c : ascii) : option Z :=
  let n := nat_of_ascii c in
  if (48 <=? n)%nat && (n <=? 57)%nat then Some (Z.of_nat (n - 48)) else None.

Fixpoint digits_value (acc : Z) (s : string) : option Z :=
  match s with
  | EmptyString => Some acc
  | String c s' =>
      match digit_of c with
      | Some d => digits_value (10 * acc + d) s'
      | None => None
      end
  end.

Definition unsigned_decimal (s : string) : option R :=
  match split_on "." s with
  | [i] =>
      if String.eqb i EmptyString then None
      else z ← digits_value 0 i; Some (IZR z)
  | [i; f] =>
      if String.eqb i EmptyString then None
      else z ← digits_value 0 i;
           y ← digits_value 0 f;
           Some (IZR z + IZR y / 10 ^ String.length f)%R
  | _ => None
  end.

Definition decimal_float (s : string) : option R :=
  match s with
  | String "-" s' => x ← unsigned_decimal s'; Some (- x)%R
  | String "+" s' => unsigned_decimal s'
  | _ => unsigned_decimal s
  end.

(** *** Fields and lines of a flat-text file, for the statements below *)

Fixpoint all_chars (ok : ascii -> bool) (s : string) : bool :=
  match s with
  | EmptyString => true
  | String c s' => ok c && all_chars ok s'
  end.

Definition free_of (d : ascii) (s : string) : bool :=
  all_chars (fun c => negb (Ascii.eqb c d)) s.

(** A field of a flat-text line: not empty, and free of blanks, line
    ends and the comment sign. *)
Definition field (s : string) : bool :=
  negb (String.eqb s EmptyString)
  && all_chars (fun c => negb (Ascii.eqb c " ") && negb (Ascii.eqb c "#")
                         && negb (is_crlf c)) s.

(** The one line [x y z]. *)
Definition xyz_line (x y z : string) : string :=
  x ++ String " " (y ++ String " " z).

(** Three files. *)
Definition example_fs : filesystem := fun path =>
  if String.eqb path "one.xyz" then Some ("1 2 3" ++ String "010" "")
  else if String.eqb path "empty.xyz" then Some ""
  else if String.eqb path "two.xyz"
       then Some ("0 0 0" ++ String "010" ("1.5 -2 3" ++ String "010" ""))
  else None.

End Loader.

(** ** The loader on paths of any kind (utils.py 55-69)

    [Loader.filesystem] gives every existing path a content that can be
    read.  For the operating system a path that exists may also be a
    directory or a file that may not be read; what the three calls of
    the loader make of those is followed here. *)

Module LoaderOS.
Import Loader.
Local Open Scope string_scope.

(** What a path names. *)
Inductive path_entry : Type :=
| Absent                        (* [os.path.exists] is false *)
| RegularFile (content : string)
| Unopenable (e : exn).         (* [open] raises [e]: a directory
                                   ([IsADirectoryError]), a file without
                                   read permission ([PermissionError]) *)

Definition os_filesystem : Type := string -> path_entry.

Section Library.

Variable float_of_string : string -> option R.
Variable read_point_cloud : string -> cloud.

(** [open(fname)] inside [np.loadtxt], whose exception is passed on. *)
Definition open_text (entry : path_entry) (file_path : string) : result string :=
  match entry with
  | RegularFile content => Return content
  | Unopenable e => Raise e
  | Absent => Raise (FileNotFoundError (file_path ++ " not found."))
  end.

(** [o3d.io.read_point_cloud(file_path)]: a file that cannot be opened
    is reported as a warning and gives a cloud without points. *)
Definition read_point_cloud_at (entry : path_entry) : cloud :=
  match entry with
  | RegularFile content => read_point_cloud content
  | _ => mkCloud [] []
  end.

Definition load_point_cloud (os : os_filesystem) (file_path : string)
  : result cloud :=
  match os file_path with
  | Absent => Raise (FileNotFoundError ("File " ++ file_path ++ " does not exist!"))
  | entry =>
      if endswith file_path ".xyz" then
        content ← open_text entry file_path;
        point_cloud ← loadtxt float_of_string content;
        pts ← Vector3dVector point_cloud;
        Return (mkCloud pts [])
      else if endswith file_path ".pcd" then
        let pcd := read_point_cloud_at entry in
        if negb (has_points pcd)
        then Raise (ValueError ("Failed to load " ++ file_path
                                ++ ": no points found!"))
        else Return pcd
      else Raise (ValueError "Unsupported file format. Use .xyz or .pcd")
  end.

End Library.

(** A file system of regular files only, as an [os_filesystem]. *)
Definition regular (fs : filesystem) : os_filesystem := fun path =>
  match fs path with
  | Some content => RegularFile content
  | None => Absent
  end.

(** The files of [example_fs] and a directory named [points.xyz]. *)
Definition example_os : os_filesystem := fun path =>
  if String.eqb path "points.xyz"
  then Unopenable (OtherError "IsADirectoryError"
                              "[Errno 21] Is a directory: 'points.xyz'")
  else regular example_fs path.

End LoaderOS.

(** ** Clouds behind Python references

    [preprocess_point_cloud] and [orient_normals] receive a reference to a
    [PointCloud] object and work on that object; the heap maps a
    reference to the current state of its object. *)

Module Store.

Abbreviation ref := nat (only parsing).
Abbreviation heap := (list cloud) (only parsing).

#[global] Instance cloud_inhabited : Inhabited cloud := populate (mkCloud [] []).

Definition deref (h : heap) (r : ref) : cloud := h !!! r.

(** A new object: [o3d.geometry.PointCloud()] or the value a library
    call returns. *)
Definition alloc (h : heap) (c : cloud) : heap * ref := (h ++ [c], length h).

(** Writing the point array, respectively the normal array, of an
    existing object. *)
Definition set_points (h : heap) (r : ref) (ps : list vec3) : heap :=
  <[r := mkCloud ps (normals (deref h r))]> h.
Definition set_normals (h : heap) (r : ref) (ns : list vec3) : heap :=
  <[r := mkCloud (points (deref h r)) ns]> h.

End Store.

(** ** Preprocessor (creator.py 23-32) *)

Module Preprocessor.
Import Store.

Definition vsum (ps : list vec3) : vec3 := foldr vadd vzero ps.

(** [points.mean(axis=0)] *)
Definition mean_axis0 (ps : list vec3) : vec3 := vdiv (vsum ps) (INR (length ps)).

(** [np.max] of a one-dimensional array; numpy raises [ValueError] on an
    array of size zero. *)
Definition np_max (l : list R) : result R :=
  match l with
  | [] => Raise (ValueError "zero-size array to reduction operation maximum which has no identity")
  | x :: l' => Return (foldl Rmax x l')
  end.

(** [points -= center] *)
Definition subtract_center (ps : list vec3) (center : vec3) : list vec3 :=
  map (fun p => vsub p center) ps.

(** [points /= scale], for [scale <> 0] *)
Definition divide_scale (ps : list vec3) (scale : R) : list vec3 :=
  map (fun p => vdiv p scale) ps.

(** Lines 24-28 on the point array alone: the centring and scaling that
    the specification calls normalize.  [Return None] stands for an
    array of nan: when [scale] is 0 every centred coordinate is 0, and
    numpy's [0 / 0] is nan (a warning, not an exception). *)
Definition normalize (ps : list vec3) : result (option (list vec3)) :=
  let center := mean_axis0 ps in
  let ps1 := subtract_center ps center in
  scale ← np_max (map vnorm ps1);
  if Req_dec_T scale 0 then Return None
  else Return (Some (divide_scale ps1 scale)).

(** The clouds on which the binary64 arithmetic of lines 24-28 stays
    within rounding of the exact arithmetic of [normalize]: at most
    [2^16] points, no coordinate beyond [2^500] in magnitude, and two
    points that are at least [2^-500] apart and not closer to each
    other than a [2^10]-th of the bound on the coordinates.  On such a
    cloud no sum or square overflows, the largest norm does not
    underflow, and the subtraction of the centroid cancels at most
    eleven of the 53 bits of a double. *)
Definition bounded (M : R) (p : vec3) : Prop :=
  Rabs (vx p) <= M /\ Rabs (vy p) <= M /\ Rabs (vz p) <= M.

Definition well_conditioned (ps : list vec3) : Prop :=
  INR (length ps) <= 2 ^ 16 /\
  exists (M : R) (p q : vec3),
    Forall (bounded M) ps /\ M <= 2 ^ 500 /\
    In p ps /\ In q ps /\
    / 2 ^ 500 <= vnorm (vsub p q) /\ M <= 2 ^ 10 * vnorm (vsub p q).

(** The tolerance of the specification, taken as [10^-6]: the rounding
    of binary64 on a well-conditioned cloud stays below it. *)
Definition tolerance : R := / 10 ^ 6.

(** How a call on the heap ends. *)
Inductive outcome (A : Type) : Type :=
| Returned (h : heap) (a : A)
| Raised (h : heap) (e : exn)
| NanPoints.  (* the division wrote nan into every coordinate of the cloud
                 passed in; what the library makes of it is not modelled *)
Arguments Returned {A} h a.
Arguments Raised {A} h e.
Arguments NanPoints {A}.

Section Preprocess.

(** Open3D's [PointCloud.voxel_down_sample(voxel_size)]: a library call
    that builds a new cloud and leaves its receiver as it is. *)
Variable voxel_down_sample : cloud -> R -> cloud.

(** [np.asarray(pcd.points)] is a view of the cloud's own buffer, so
    the two in-place updates write into the object [pcd] refers to;
    line 29 assigns the same array again and line 30 rebinds the
    local name [pcd] to a new object. *)
Definition preprocess_point_cloud (h : heap) (pcd : ref) : outcome ref :=
  let center := mean_axis0 (points (deref h pcd)) in
  let h1 := set_points h pcd (subtract_center (points (deref h pcd)) center) in
  match np_max (map vnorm (points (deref h1 pcd))) with
  | Raise e => Raised h1 e
  | Return scale =>
      if Req_dec_T scale 0 then NanPoints
      else
        let h2 := set_points h1 pcd (divide_scale (points (deref h1 pcd)) scale) in
        let h3 := set_points h2 pcd (points (deref h2 pcd)) in
        let '(h4, pcd') := alloc h3 (voxel_down_sample (deref h3 pcd) (1/100)) in
        Returned h4 pcd'
  end.

End Preprocess.

(** *** Voxel down-sampling *)

#[global] Instance Z3_eq_dec : EqDecision (Z * Z * Z).
Proof. solve_decision. Defined.

(** The grid cell of a point, for cells of edge [v]. *)
Definition cell (v : R) (p : vec3) : Z * Z * Z :=
  (Int_part (vx p / v), Int_part (vy p / v), Int_part (vz p / v)).

(** The points of [ps] that lie in cell [c]. *)
Definition in_cell (v : R) (c : Z * Z * Z) (ps : list vec3) : list vec3 :=
  filter (fun p => cell v p = c) ps.

(** The occupied cells, each once, in the order of first occurrence. *)
Fixpoint occupied (cs : list (Z * Z * Z)) : list (Z * Z * Z) :=
  match cs with
  | [] => []
  | c :: cs' => c :: filter (fun d => d <> c) (occupied cs')
  end.

(** Modelled from the spec: [voxel_down_sample] is a method of Open3D's
    [PointCloud] and its body is not in the repository.  The
    specification (4.2) describes it: space is partitioned into a
    uniform grid of edge [voxelSize], and each occupied cell is replaced
    by the centroid of the points it contains. *)
Definition downsample (ps : list vec3) (voxelSize : R) : list vec3 :=
  map (fun c => mean_axis0 (in_cell voxelSize c ps))
      (occupied (map (cell voxelSize) ps)).

End Preprocessor.

(** ** NormalEstimator (utils.py 72-76, creator.py 34-38) *)

Module NormalEstimator.
Import Store.

Section Library.

(** Open3D's [PointCloud.estimate_normals] with
    [KDTreeSearchParamHybrid(radius, max_nn)]: from the points, the
    radius and the neighbour bound it computes one normal per point
    and stores them in the cloud, or raises. *)
Variable estimate_normals : list vec3 -> R -> nat -> result (list vec3).

(** Open3D's [PointCloud.orient_normals_consistent_tangent_plane(k)]:
    from the points and their normals it computes the re-oriented
    normals and stores them in the cloud, or raises. *)
Variable orient_normals_consistent_tangent_plane :
  list vec3 -> list vec3 -> nat -> result (list vec3).

(** [orient_normals(pcd, k)]: both library calls are methods of the
    object [pcd] refers to; the reference passed in is returned.  An
    exception of a library call is not caught. *)
Definition orient_normals (h : heap) (pcd : ref) (k : nat)
  : heap * result ref :=
  match estimate_normals (points (deref h pcd)) (1/10) k with
  | Raise e => (h, Raise e)
  | Return ns =>
      let h1 := set_normals h pcd ns in
      match orient_normals_consistent_tangent_plane
              (points (deref h1 pcd)) (normals (deref h1 pcd)) k with
      | Raise e => (h1, Raise e)
      | Return ns' => (set_normals h1 pcd ns', Return pcd)
      end
  end.

(** What the caller learns about point [i] from a call: its normal in
    the cloud returned, or the exception that ended the call. *)
Definition point_report (o : heap * result ref) (i : nat) : result vec3 :=
  match snd o with
  | Return r => Return (nth i (normals (deref (fst o) r)) vzero)
  | Raise e => Raise e
  end.

End Library.

(** The hybrid neighbourhood of a query point: the points of the cloud
    within [radius] of it (the query itself among them), at most
    [max_nn] of them. *)
Definition dist2 (p q : vec3) : R :=
  (vx q - vx p) * (vx q - vx p) + (vy q - vy p) * (vy q - vy p)
  + (vz q - vz p) * (vz q - vz p).

#[global] Instance Rle_decision (x y : R) : Decision (x <= y) := Rle_dec x y.

Definition usable_neighbors (radius : R) (max_nn : nat)
           (ps : list vec3) (p : vec3) : nat :=
  Nat.min max_nn (length (filter (fun q => dist2 p q <= radius * radius) ps)).

(** The error kind of the specification (no class of this name exists
    in the source). *)
Definition DegenerateNeighborhoodError : exn :=
  OtherError "DegenerateNeighborhoodError" "".

End NormalEstimator.

(** ** Reconstruction (utils.py 79-93, creator.py 41-60 and 98-112) *)

Module Reconstruction.

(** [np.mean] of a one-dimensional array: nan ([None]) on an array of
    size zero (a warning, not an exception). *)
Definition np_mean (l : list R) : option R :=
  match l with
  | [] => None
  | _ => Some (foldr Rplus 0 l / INR (length l))
  end.

(** Open3D's [PointCloud.compute_nearest_neighbor_distance]: for every
    point the distance to the nearest other point of the cloud, and 0
    for every point when the cloud has fewer than two. *)
Definition dist (p q : vec3) : R := vnorm (vsub p q).

Definition nearest (p : vec3) (others : list vec3) : R :=
  match others with
  | [] => 0
  | q :: qs => foldl Rmin (dist p q) (map (dist p) qs)
  end.

Definition compute_nearest_neighbor_distance (ps : list vec3) : list R :=
  imap (fun i p => nearest p (delete i ps)) ps.

Section Library.

(** The ball-pivoting algorithm of Open3D, on a cloud with normals
    and the absolute radii (a radius may be nan). *)
Variable ball_pivoting : cloud -> list (option R) -> result mesh.

(** The Poisson solver and surface extraction of Open3D, on a cloud
    with normals; the density array it also returns is dropped by
    the source. *)
Variable poisson : cloud -> nat -> result mesh.

(** The per-vertex normals that [compute_vertex_normals] derives. *)
Variable vertex_normals_of : mesh -> list vec3.

(** [TriangleMesh.create_from_point_cloud_ball_pivoting]: Open3D
    checks [HasNormals] first and reports an error (in Python a
    [RuntimeError]) for a cloud without normals. *)
Definition create_from_point_cloud_ball_pivoting
           (pcd : cloud) (radii : list (option R)) : result mesh :=
  if has_normals pcd then ball_pivoting pcd radii
  else Raise (RuntimeError "ReconstructBallPivoting requires normals").

(** [TriangleMesh.create_from_point_cloud_poisson]: the same check. *)
Definition create_from_point_cloud_poisson
           (pcd : cloud) (depth : nat) : result mesh :=
  if has_normals pcd then poisson pcd depth
  else Raise (RuntimeError "Point cloud has no normals").

(** [mesh.compute_vertex_normals()] leaves vertices and triangles. *)
Definition compute_vertex_normals (m : mesh) : mesh :=
  mkMesh (vertices m) (triangles m) (vertex_normals_of m).

Definition poisson_reconstruction (pcd : cloud) (depth : nat) : result mesh :=
  mesh ← create_from_point_cloud_poisson pcd depth;
  Return (compute_vertex_normals mesh).

(** [radii = [r * avg_dist for r in radii]] *)
Definition scale_radii (avg_dist : option R) (radii : list R) : list (option R) :=
  map (fun r => Rmult r <$> avg_dist) radii.

Definition ball_pivoting_reconstruction (pcd : cloud) (radii : list R)
  : result mesh :=
  let distances := compute_nearest_neighbor_distance (points pcd) in
  let avg_dist := np_mean distances in
  let radii := scale_radii avg_dist radii in
  mesh ← create_from_point_cloud_ball_pivoting pcd radii;
  Return (compute_vertex_normals mesh).

(** The part of [main] (creator.py 98-104) that uses the Poisson
    mesh, as the list of its effects. *)
Inductive event : Type :=
| WriteTriangleMesh (path : string) (m : mesh)
| Print (text : string)
| Visualize (name : string).


End Library.


(** Uniform scaling of a cloud about the origin: positions are
    multiplied, normals keep their direction. *)
Definition scale_cloud (s : R) (c : cloud) : cloud :=
  mkCloud (map (vscale s) (points c)) (normals c).

(** Equal number of triangles, for two runs that may also raise. *)
Definition same_triangle_count (a b : result mesh) : Prop :=
  match a, b with
  | Return m1, Return m2 => length (triangles m1) = length (triangles m2)
  | Raise _, Raise _ => True
  | _, _ => False
  end.

(** Any two points of the cloud, at different places of the array, are
    at least [d] apart. *)
Definition separated (d : R) (ps : list vec3) : Prop :=
  forall i j p q, i <> j -> ps !! i = Some p -> ps !! j = Some q -> d <= dist p q.

(** The clouds and relative radii on which the binary64 computation of
    the absolute radii stays within rounding of the exact one: at most
    [2^16] points, no coordinate beyond [2^500] in magnitude, any two
    points at least [2^-500] apart and not closer than a [2^10]-th of
    the bound on the coordinates, and relative radii between [2^-500]
    and [2^500].  There no squared distance overflows or underflows
    and no product of a radius and a distance does. *)
Definition in_range (ps : list vec3) (radii : list R) : Prop :=
  INR (length ps) <= 2 ^ 16 /\
  (exists M d : R,
      Forall (Preprocessor.bounded M) ps /\ M <= 2 ^ 500 /\
      / 2 ^ 500 <= d /\ M <= 2 ^ 10 * d /\ separated d ps) /\
  Forall (fun r => / 2 ^ 500 <= r <= 2 ^ 500) radii.

End Reconstruction.

(** ** The arithmetic of the source in binary64

    The centring and scaling of [preprocess_point_cloud] (creator.py
    24-28) and the radii of [ball_pivoting_reconstruction] (utils.py
    88-91), step by step as above, on the doubles Python computes with:
    sums are taken in the order numpy and Open3D take them on arrays
    of fewer than eight elements, one after the other from the left,
    and nan is a value like any other. *)

Module Binary64.
Import PrimFloat.
Local Open Scope float_scope.

Definition vec3 : Type := float * float * float.

Definition vadd (p q : vec3) : vec3 :=
  let '(x, y, z) := p in let '(a, b, c) := q in (x + a, y + b, z + c).
Definition vsub (p q : vec3) : vec3 :=
  let '(x, y, z) := p in let '(a, b, c) := q in (x - a, y - b, z - c).
Definition vscale (s : float) (p : vec3) : vec3 :=
  let '(x, y, z) := p in (s * x, s * y, s * z).
Definition vdiv (p : vec3) (s : float) : vec3 :=
  let '(x, y, z) := p in (x / s, y / s, z / s).

(** [np.linalg.norm] of one row: the root of the sum of the squares. *)
Definition vnorm (p : vec3) : float :=
  let '(x, y, z) := p in sqrt (x * x + y * y + z * z).

(** The length of an array as a double, exact below [2^53]. *)
Fixpoint float_of_nat (n : nat) : float :=
  match n with
  | O => 0
  | S n' => float_of_nat n' + 1
  end.

(** [points.mean(axis=0)]: the rows are added one after the other and
    the sum is divided by their number; nan on an array without rows. *)
Definition vsum (ps : list vec3) : vec3 :=
  match ps with
  | [] => (0, 0, 0)
  | p :: ps' => foldl vadd p ps'
  end.
Definition mean_axis0 (ps : list vec3) : vec3 :=
  vdiv (vsum ps) (float_of_nat (length ps)).

(** [np.maximum] and [np.minimum]: a nan operand is the result. *)
Definition maximum (a b : float) : float :=
  if is_nan a then a else if is_nan b then b else if ltb a b then b else a.
Definition minimum (a b : float) : float :=
  if is_nan a then a else if is_nan b then b else if ltb b a then b else a.

Definition np_max (l : list float) : result float :=
  match l with
  | [] => Raise (ValueError "zero-size array to reduction operation maximum which has no identity")
  | x :: l' => Return (foldl maximum x l')
  end.

(** creator.py 24-28 on the point array. *)
Definition normalize (ps : list vec3) : result (list vec3) :=
  let center := mean_axis0 ps in
  let ps1 := map (fun p => vsub p center) ps in
  scale ← np_max (map vnorm ps1);
  Return (map (fun p => vdiv p scale) ps1).

(** Clouds and meshes of doubles. *)
Record cloud : Type := mkCloud { points : list vec3; normals : list vec3 }.
Record mesh : Type := mkMesh {
  vertices : list vec3;
  triangles : list (nat * nat * nat);
  vertex_normals : list vec3
}.

Definition has_normals (c : cloud) : bool :=
  negb (Nat.eqb (length (points c)) 0)
  && Nat.eqb (length (normals c)) (length (points c)).

(** Open3D's [compute_nearest_neighbor_distance]: the root of the
    smallest squared distance to another point, 0 where there is no
    other point. *)
Definition dist2 (p q : vec3) : float :=
  let '(x, y, z) := vsub p q in x * x + y * y + z * z.

Definition nearest2 (p : vec3) (others : list vec3) : float :=
  match others with
  | [] => 0
  | q :: qs => foldl minimum (dist2 p q) (map (dist2 p) qs)
  end.

Definition compute_nearest_neighbor_distance (ps : list vec3) : list float :=
  imap (fun i p => sqrt (nearest2 p (delete i ps))) ps.

(** [np.mean] of a one-dimensional array; nan on an empty one. *)
Definition np_mean (l : list float) : float :=
  match l with
  | [] => nan
  | x :: l' => foldl add x l' / float_of_nat (length l)
  end.

(** [radii = [r * avg_dist for r in radii]] *)
Definition scale_radii (avg_dist : float) (radii : list float) : list float :=
  map (fun r => r * avg_dist) radii.

Section Library.

(** The ball-pivoting algorithm of Open3D, on a cloud with normals and
    positive radii. *)
Variable ball_pivoting : cloud -> list float -> result mesh.
Variable vertex_normals_of : mesh -> list vec3.

(** [TriangleMesh.create_from_point_cloud_ball_pivoting]: Open3D reports
    an error (in Python a [RuntimeError]) for a cloud without normals
    and for a radius that is not positive. *)
Definition create_from_point_cloud_ball_pivoting
           (pcd : cloud) (radii : list float) : result mesh :=
  if negb (has_normals pcd)
  then Raise (RuntimeError "ReconstructBallPivoting requires normals")
  else if existsb (fun r => leb r 0) radii
  then Raise (RuntimeError "got an invalid, negative radius as parameter")
  else ball_pivoting pcd radii.

Definition compute_vertex_normals (m : mesh) : mesh :=
  mkMesh (vertices m) (triangles m) (vertex_normals_of m).

(** utils.py 86-93 *)
Definition ball_pivoting_reconstruction (pcd : cloud) (radii : list float)
  : result mesh :=
  let distances := compute_nearest_neighbor_distance (points pcd) in
  let avg_dist := np_mean distances in
  let radii := scale_radii avg_dist radii in
  mesh ← create_from_point_cloud_ball_pivoting pcd radii;
  Return (compute_vertex_normals mesh).

End Library.

(** Uniform scaling of a cloud about the origin. *)
Definition scale_cloud (s : float) (c : cloud) : cloud :=
  mkCloud (map (vscale s) (points c)) (normals c).

(** Equal number of triangles, for two runs that may also raise. *)
Definition same_triangle_count (a b : result mesh) : Prop :=
  match a, b with
  | Return m1, Return m2 => length (triangles m1) = length (triangles m2)
  | Raise _, Raise _ => True
  | _, _ => False
  end.


End Binary64.

(** ** PointSource: the sphere generator (utils.py 10-20) *)

Module Sphere.

(** [np.stack((x, y, z), axis=1)] of three arrays of one length. *)
Definition stack3 (x y z : list R) : list vec3 :=
  zip_with (fun a bc => (a, fst bc, snd bc)) x (zip_with pair y z).

(** [generate_sphere_point_cloud(radius, num_points)]: the generator is,
    as for the tetrahedron, the sequence of the values it hands out; the
    first call takes [num_points] of them for the azimuth (values of
    [uniform(0, 2 * np.pi)]), the second [num_points] for the cosine of
    the polar angle (values of [uniform(-1, 1)]). *)
Definition generate_sphere_point_cloud
           (draws : nat -> R) (radius : R) (num_points : nat) : list vec3 :=
  let '(phi, pos1) := Tetrahedron.uniform draws 0 num_points in
  let '(c, pos2) := Tetrahedron.uniform draws pos1 num_points in
  let theta := map acos c in
  let x := zip_with (fun t p => radius * sin t * cos p) theta phi in
  let y := zip_with (fun t p => radius * sin t * sin p) theta phi in
  let z := map (fun t => radius * cos t) theta in
  stack3 x y z.

End Sphere.

(** ** The faces of the tetrahedron, for the statements below *)

Module TetrahedronFaces.
Import Tetrahedron.

(** The triangle spanned by the three vertices of a face. *)
Definition on_face (f : nat * nat * nat) (p : vec3) : Prop :=
  let '(i0, i1, i2) := f in
  exists a b c : R,
    0 <= a /\ 0 <= b /\ 0 <= c /\ a + b + c = 1 /\
    p = vadd (vadd (vscale a (vertex i0)) (vscale b (vertex i1)))
             (vscale c (vertex i2)).

Definition face (k : nat) : nat * nat * nat := nth k faces (0, 0, 0)%nat.

End TetrahedronFaces.

(** ** Flat-text files of several rows, for the statements below *)

Module XyzFiles.
Import Loader.

(** The content of the file that holds one line [x y z] per row, each
    ended by a line feed. *)
Fixpoint xyz_content (rows : list (string * string * string)) : string :=
  match rows with
  | [] => EmptyString
  | (x, y, z) :: rows' =>
      (xyz_line x y z ++ String "010" (xyz_content rows'))%string
  end.

(** A row of three fields that [float_of_string] reads as the point [p]. *)
Definition reads_as (float_of_string : string -> option R)
           (row : string * string * string) (p : vec3) : Prop :=
  let '(x, y, z) := row in
  field x = true /\ field y = true /\ field z = true /\
  float_of_string x = Some (vx p) /\ float_of_string y = Some (vy p) /\
  float_of_string z = Some (vz p).

End XyzFiles.

(** ** Hand-off to the viewer: [o3d_to_pyvista] (utils.py 96-118) *)

Module PyVista.

(** What the function is given: an Open3D point cloud, here with the
    colour array that [cloud] does not carry, or a triangle mesh (the
    [isinstance] test). *)
Inductive geometry : Type :=
| PointCloudGeometry (pcd : cloud) (colors : list vec3)
| TriangleMeshGeometry (m : mesh).

(** [PointCloud.has_colors] and [TriangleMesh.has_vertex_normals] of
    Open3D. *)
Definition has_colors (pcd : cloud) (colors : list vec3) : bool :=
  has_points pcd && Nat.eqb (length colors) (length (points pcd)).
Definition has_vertex_normals (m : mesh) : bool :=
  negb (Nat.eqb (length (vertices m)) 0)
  && Nat.eqb (length (vertex_normals m)) (length (vertices m)).

(** A [pv.PolyData]: the points, the flat cell array (empty when none
    was given) and the dictionary of per-point arrays. *)
Record PolyData : Type := mkPolyData {
  pv_points : list vec3;
  pv_faces : list Z;
  point_data : gmap string (list vec3)
}.

(** [mesh.point_data[name] = array]: PyVista accepts an array with one
    row per point and raises [ValueError] for any other length. *)
Definition set_point_data (name : string) (array : list vec3) (mesh : PolyData)
  : result PolyData :=
  if Nat.eqb (length array) (length (pv_points mesh))
  then Return (mkPolyData (pv_points mesh) (pv_faces mesh)
                          (<[name := array]> (point_data mesh)))
  else Raise (ValueError "data length does not match the number of points").

(** [faces_pv = np.zeros((len(faces), 4)); faces_pv[:, 0] = 3;
    faces_pv[:, 1:4] = faces; faces_pv.flatten()] *)
Definition zeros4 (n : nat) : list (list Z) := repeat [0; 0; 0; 0]%Z n.
Definition set_column0 (x : Z) (rows : list (list Z)) : list (list Z) :=
  map (fun row => x :: drop 1 row) rows.
Definition set_columns123 (faces : list (nat * nat * nat)) (rows : list (list Z))
  : list (list Z) :=
  zip_with (fun row '(a, b, c) =>
              take 1 row ++ [Z.of_nat a; Z.of_nat b; Z.of_nat c])
           rows faces.
Definition flatten (rows : list (list Z)) : list Z := concat rows.

Definition faces_pv (faces : list (nat * nat * nat)) : list Z :=
  let rows := zeros4 (length faces) in
  let rows := set_column0 3 rows in
  let rows := set_columns123 faces rows in
  flatten rows.

(** [o3d_to_pyvista(o3d_mesh)]; a colour array of Open3D always has
    three columns, which is what [colors.shape[1] == 3] tests. *)
Definition o3d_to_pyvista (o3d_mesh : geometry) : result PolyData :=
  match o3d_mesh with
  | PointCloudGeometry pcd colors =>
      let vertices := points pcd in
      let mesh := mkPolyData vertices [] ∅ in
      mesh ← (if has_normals pcd
              then set_point_data "Normals" (normals pcd) mesh
              else Return mesh);
      if has_colors pcd colors
      then set_point_data "Colors" (map (vscale 255) colors) mesh
      else Return mesh
  | TriangleMeshGeometry m =>
      let vertices := vertices m in
      let faces := triangles m in
      let mesh := mkPolyData vertices (faces_pv faces) ∅ in
      if has_vertex_normals m
      then set_point_data "Normals" (vertex_normals m) mesh
      else Return mesh
  end.

(** How the cell array is read back: cell after cell, the number of its
    points and then their indices; here for an array of triangles. *)
Fixpoint read_triangles (cells : list Z) : option (list (nat * nat * nat)) :=
  match cells with
  | [] => Some []
  | k :: a :: b :: c :: rest =>
      if (Z.eqb k 3 && Z.leb 0 a && Z.leb 0 b && Z.leb 0 c)%bool
      then ts ← read_triangles rest;
           Some ((Z.to_nat a, Z.to_nat b, Z.to_nat c) :: ts)
      else None
  | _ => None
  end.

End PyVista.

(** ** The command-line pipeline: creator.py *)

Module Creator.
Import Store.

(** What a run shows and writes.  A message is kept as the parts of its
    f-string: texts, counts, floats (possibly nan), exceptions. *)
Inductive part : Type :=
| Str (s : string)
| Num (n : nat)
| Flt (x : option R)
| Flts (xs : list (option R))
| Exc (e : exn).

Inductive event : Type :=
| Print (message : list part)
| ShowWindow (name : string) (g : PyVista.geometry)
| WriteTriangleMesh (path : string) (m : mesh).

(** A computation that leaves a trace of events and returns or raises. *)
Definition prog (A : Type) : Type := list event * result A.

Definition ret {A} (a : A) : prog A := ([], Return a).
Definition seq_prog {A B} (m : prog A) (k : A -> prog B) : prog B :=
  match m with
  | (evs, Return a) => let '(evs', r) := k a in (evs ++ evs', r)
  | (evs, Raise e) => (evs, Raise e)
  end.
Definition print (message : list part) : prog unit := ([Print message], Return tt).
Definition lift {A} (r : result A) : prog A := ([], r).

Section Library.

Variable float_of_string : string -> option R.
Variable read_point_cloud : string -> cloud.
Variable estimate_normals : list vec3 -> R -> nat -> result (list vec3).
Variable orient_normals_consistent_tangent_plane :
  list vec3 -> list vec3 -> nat -> result (list vec3).
Variable ball_pivoting : cloud -> list (option R) -> result mesh.
Variable poisson : cloud -> nat -> result mesh.
Variable vertex_normals_of : mesh -> list vec3.

(** The calls of Open3D's visualizer in [visualize_geometry]: creating
    the window, adding the geometry and setting the view (creator.py
    64-74), and running the window until the user closes it (77-78).
    Either may raise: where no window can be created
    [get_render_option()] is [None] and line 68 raises
    [AttributeError]. *)
Variable setup_window : string -> PyVista.geometry -> result unit.
Variable run_window : string -> PyVista.geometry -> result unit.

(** creator.py 6-21: the loader of utils.py between two prints. *)
Definition load_point_cloud (fs : Loader.filesystem) (file_path : string)
  : prog cloud :=
  seq_prog (print [Str "Attempting to load file: "; Str file_path]) (fun _ =>
  seq_prog (lift (Loader.load_point_cloud float_of_string read_point_cloud
                                          fs file_path)) (fun pcd =>
  seq_prog (print [Str "Loaded point cloud with "; Num (length (points pcd));
                   Str " points"]) (fun _ =>
  ret pcd))).

(** creator.py 34-38: [orient_normals] with [k = 30], on the one object
    the pipeline works on. *)
Definition orient_normals (pcd : cloud) : prog cloud :=
  match NormalEstimator.orient_normals
          estimate_normals orient_normals_consistent_tangent_plane [pcd] 0 30 with
  | (h, Return r) => ([Print [Str "Normals oriented."]], Return (deref h r))
  | (h, Raise e) => ([], Raise e)
  end.

(** creator.py 41-48; the blue vertex colours it sets are not part of
    [mesh]. *)
Definition poisson_reconstruction (pcd : cloud) (depth : nat) : prog mesh :=
  seq_prog (print [Str "Running Poisson reconstruction with depth="; Num depth])
           (fun _ =>
  seq_prog (lift (Reconstruction.poisson_reconstruction
                    poisson vertex_normals_of pcd depth)) (fun mesh =>
  seq_prog (print [Str "Poisson mesh has "; Num (length (triangles mesh));
                   Str " triangles"]) (fun _ =>
  ret mesh))).

(** creator.py 51-60 *)
Definition default_radii : list R := [1/10; 2/10; 5/10; 1; 2; 4].

Definition ball_pivoting_reconstruction (pcd : cloud) (radii : list R) : prog mesh :=
  let distances := Reconstruction.compute_nearest_neighbor_distance (points pcd) in
  let avg_dist := Reconstruction.np_mean distances in
  seq_prog (print [Str "Average nearest neighbor distance: "; Flt avg_dist])
           (fun _ =>
  let radii := Reconstruction.scale_radii avg_dist radii in
  seq_prog (print [Str "Using radii: "; Flts radii]) (fun _ =>
  seq_prog (lift (Reconstruction.create_from_point_cloud_ball_pivoting
                    ball_pivoting pcd radii)) (fun mesh =>
  let mesh := Reconstruction.compute_vertex_normals vertex_normals_of mesh in
  seq_prog (print [Str "Ball Pivoting mesh has "; Num (length (triangles mesh));
                   Str " triangles"]) (fun _ =>
  ret mesh)))).

(** creator.py 63-78: the set-up of the window, the two prints, and the
    window itself, which the user closes.  An exception of the
    visualizer is not caught. *)
Definition visualize_geometry (g : PyVista.geometry) (name : string) : prog unit :=
  seq_prog (lift (setup_window name g)) (fun _ =>
  seq_prog (print [Str "Displaying "; Str name;
                   Str ". Close the window to continue..."]) (fun _ =>
  seq_prog (print [Str "Shortcuts: W (wireframe), S (solid), L (toggle light), +/- (size), Q (quit)"])
           (fun _ =>
  ([ShowWindow name g], run_window name g)))).

Definition show_cloud (pcd : cloud) (name : string) : prog unit :=
  visualize_geometry (PyVista.PointCloudGeometry pcd []) name.
Definition show_mesh (m : mesh) (name : string) : prog unit :=
  visualize_geometry (PyVista.TriangleMeshGeometry m) name.

(** creator.py 81-112 *)
Definition file_path : string := "/Users/srujanraj/Downloads/sphere.pcd".

Definition after_loading (pcd : cloud) : prog unit :=
  seq_prog (print [Str "Visualizing raw point cloud..."]) (fun _ =>
  seq_prog (show_cloud pcd "Raw Point Cloud") (fun _ =>
  seq_prog (orient_normals pcd) (fun pcd =>
  seq_prog (print [Str "Visualizing point cloud with normals..."]) (fun _ =>
  seq_prog (show_cloud pcd "Point Cloud with Normals") (fun _ =>
  seq_prog (poisson_reconstruction pcd 8) (fun poisson_mesh =>
  seq_prog (if has_triangles poisson_mesh then
              seq_prog ([WriteTriangleMesh "poisson_mesh.ply" poisson_mesh;
                         Print [Str "Saved poisson_mesh.ply"]], Return tt) (fun _ =>
              show_mesh poisson_mesh "Poisson Mesh")
            else print [Str "Poisson reconstruction failed: no triangles generated."])
           (fun _ =>
  seq_prog (ball_pivoting_reconstruction pcd default_radii) (fun ball_pivot_mesh =>
  if has_triangles ball_pivot_mesh then
    seq_prog ([WriteTriangleMesh "ball_pivot_mesh.ply" ball_pivot_mesh;
               Print [Str "Saved ball_pivot_mesh.ply"]], Return tt) (fun _ =>
    show_mesh ball_pivot_mesh "Ball Pivoting Mesh")
  else print [Str "Ball Pivoting reconstruction failed: no triangles generated."])))))))).

Definition main (fs : Loader.filesystem) : prog unit :=
  seq_prog (print [Str "Starting with file: "; Str file_path]) (fun _ =>
  match load_point_cloud fs file_path with
  | (evs, Raise e) =>
      (evs ++ [Print [Str "Error loading point cloud: "; Exc e]], Return tt)
  | (evs, Return pcd) => seq_prog (evs, Return tt) (fun _ => after_loading pcd)
  end).

End Library.

(** An event that is not the writing of a mesh, or writes a mesh that
    has triangles to one of the two files of the pipeline. *)
Definition writes_triangles_only (ev : event) : Prop :=
  match ev with
  | WriteTriangleMesh path m =>
      has_triangles m = true
      /\ (path = "poisson_mesh.ply" \/ path = "ball_pivot_mesh.ply")
  | _ => True
  end.

End Creator.

(** ** The window: [process_point_cloud] and [save_results]
    (main.py 335-394 and 485-508) *)

Module Gui.
Import Store Creator.

(** The attributes of the window that the two methods read and write. *)
Record window : Type := mkWindow {
  point_cloud : option cloud;
  poisson_mesh : option mesh;
  ball_pivot_mesh : option mesh;
  save_enabled : bool
}.

(** The state of the controls when the button is pressed. *)
Record controls : Type := mkControls {
  source : string;            (* source_combo.currentText() *)
  points_value : nat;         (* points_spin.value() *)
  file_tooltip : string;      (* file_path_label.toolTip() *)
  normal_checked : bool;
  normal_k : nat;
  poisson_checked : bool;
  poisson_depth : nat;
  ball_pivot_checked : bool;
  ball_radii_text : string
}.

Inductive event : Type :=
| StatusMessage (message : list part)
| MessageBoxCritical (message : list part)
| VisualizeInput (pcd : cloud)
| VisualizeNormals (pcd : cloud) (k : nat)
| VisualizePoisson (m : option mesh) (depth : nat)
| VisualizeBallPivot (m : option mesh) (radii : list R)
| WritePointCloud (dir name : string) (pcd : cloud)
| WriteTriangleMesh (dir name : string) (m : mesh).

(** A method of the window: from the window before, the events, the
    window after, and the value returned or the exception raised. *)
Definition gui (A : Type) : Type := window -> list event * window * result A.

#[global] Instance gui_ret : MRet gui := fun A a w => ([], w, Return a).
#[global] Instance gui_bind : MBind gui := fun A B k m w =>
  match m w with
  | (evs, w', Return a) => let '(evs', w'', r) := k a w' in (evs ++ evs', w'', r)
  | (evs, w', Raise e) => (evs, w', Raise e)
  end.

Definition emit (ev : event) : gui unit := fun w => ([ev], w, Return tt).
Definition raise_gui {A} (r : result A) : gui A := fun w => ([], w, r).
Definition read {A} (f : window -> A) : gui A := fun w => ([], w, Return (f w)).
Definition write (f : window -> window) : gui unit := fun w => ([], f w, Return tt).

(** [try: body except Exception as e: handler(e)] *)
Definition try_except {A} (body : gui A) (handler : exn -> gui A) : gui A := fun w =>
  match body w with
  | (evs, w', Raise e) => let '(evs', w'', r) := handler e w' in (evs ++ evs', w'', r)
  | returned => returned
  end.

Definition set_point_cloud (pcd : cloud) : gui unit :=
  write (fun w => mkWindow (Some pcd) (poisson_mesh w) (ball_pivot_mesh w) (save_enabled w)).
Definition set_poisson_mesh (m : mesh) : gui unit :=
  write (fun w => mkWindow (point_cloud w) (Some m) (ball_pivot_mesh w) (save_enabled w)).
Definition set_ball_pivot_mesh (m : mesh) : gui unit :=
  write (fun w => mkWindow (point_cloud w) (poisson_mesh w) (Some m) (save_enabled w)).
Definition enable_save : gui unit :=
  write (fun w => mkWindow (point_cloud w) (poisson_mesh w) (ball_pivot_mesh w) true).

(** main.py 514-519 *)
Definition show_info (message : list part) : gui unit := emit (StatusMessage message).
Definition show_error (message : list part) : gui unit :=
  _ ← emit (MessageBoxCritical message);
  emit (StatusMessage [Str "Error occurred"]).

(** Reading [self.point_cloud] where the code uses it as a cloud: on
    [None] the attribute access raises. *)
Definition the_point_cloud : gui cloud := fun w =>
  match point_cloud w with
  | Some pcd => ([], w, Return pcd)
  | None => ([], w, Raise (OtherError "AttributeError"
                                      "'NoneType' object has no attribute 'points'"))
  end.

(** The four [visualize_...] methods, each as the one event of what it
    displays. *)
Definition visualize_input : gui unit :=
  pcd ← the_point_cloud; emit (VisualizeInput pcd).
Definition visualize_normals (k : nat) : gui unit :=
  pcd ← the_point_cloud; emit (VisualizeNormals pcd k).
Definition visualize_poisson (depth : nat) : gui unit :=
  m ← read poisson_mesh; emit (VisualizePoisson m depth).
Definition visualize_ball_pivot (radii : list R) : gui unit :=
  m ← read ball_pivot_mesh; emit (VisualizeBallPivot m radii).

(** [s.strip()]: Python's white space. *)
Definition is_space (c : ascii) : bool :=
  let n := nat_of_ascii c in
  ((9 <=? n) && (n <=? 13) || (28 <=? n) && (n <=? 32))%nat.

Fixpoint lstrip (s : string) : string :=
  match s with
  | EmptyString => EmptyString
  | String c s' => if is_space c then lstrip s' else s
  end.

Fixpoint rstrip (s : string) : string :=
  match s with
  | EmptyString => EmptyString
  | String c s' =>
      let r := rstrip s' in
      if is_space c && String.eqb r EmptyString then EmptyString else String c r
  end.

Definition strip (s : string) : string := rstrip (lstrip s).

(** The occurrences of a character in a string, for the statements
    about the text of radii. *)
Fixpoint count_char (d : ascii) (s : string) : nat :=
  match s with
  | EmptyString => 0
  | String c s' => (if Ascii.eqb c d then 1 else 0) + count_char d s'
  end.

Section Library.

Variable draws : nat -> R.
Variable float_of_string : string -> option R.
Variable read_point_cloud : string -> cloud.
Variable estimate_normals : list vec3 -> R -> nat -> result (list vec3).
Variable orient_normals_consistent_tangent_plane :
  list vec3 -> list vec3 -> nat -> result (list vec3).
Variable ball_pivoting : cloud -> list (option R) -> result mesh.
Variable poisson : cloud -> nat -> result mesh.
Variable vertex_normals_of : mesh -> list vec3.
Variable fs : Loader.filesystem.

(** [[float(r.strip()) for r in text.split(",")]] *)
Fixpoint floats (words : list string) : result (list R) :=
  match words with
  | [] => Return []
  | w :: ws =>
      match float_of_string (strip w) with
      | None => Raise (ValueError ("could not convert string to float: " ++ strip w))
      | Some x => xs ← floats ws; Return (x :: xs)
      end
  end.

Definition parse_radii (text : string) : result (list R) :=
  floats (Loader.split_on "," text).

(** [self.point_cloud = orient_normals(self.point_cloud, k=normal_k)]:
    utils.py's function works on the object the window holds, so what it
    has written into the cloud is there also when it raises. *)
Definition orient_point_cloud (k : nat) : gui unit :=
  pcd ← the_point_cloud;
  let '(h, r) := NormalEstimator.orient_normals
                   estimate_normals orient_normals_consistent_tangent_plane
                   [pcd] 0 k in
  _ ← set_point_cloud (deref h 0);
  match r with
  | Return pcd' => set_point_cloud (deref h pcd')
  | Raise e => raise_gui (Raise e)
  end.

(** The part of [process_point_cloud] after the cloud was generated or
    loaded (main.py 364-391). *)
Definition process_stages (c : controls) : gui unit :=
  _ ← visualize_input;
  _ ← (if normal_checked c then
         _ ← orient_point_cloud (normal_k c);
         visualize_normals (normal_k c)
       else mret tt);
  _ ← (if poisson_checked c then
         pcd ← the_point_cloud;
         m ← raise_gui (Reconstruction.poisson_reconstruction
                          poisson vertex_normals_of pcd (poisson_depth c));
         _ ← set_poisson_mesh m;
         visualize_poisson (poisson_depth c)
       else mret tt);
  _ ← (if ball_pivot_checked c then
         try_except
           (ball_radii ← raise_gui (parse_radii (ball_radii_text c));
            pcd ← the_point_cloud;
            m ← raise_gui (Reconstruction.ball_pivoting_reconstruction
                             ball_pivoting vertex_normals_of pcd ball_radii);
            _ ← set_ball_pivot_mesh m;
            visualize_ball_pivot ball_radii)
           (fun e => show_error [Str "Ball Pivoting failed: "; Exc e])
       else mret tt);
  _ ← enable_save;
  emit (StatusMessage [Str "Processing complete"]).

(** [process_point_cloud] (main.py 335-394); a [return] inside the
    [try] ends the method where it stands. *)
Definition process_point_cloud (c : controls) : gui unit :=
  try_except
    (_ ← emit (StatusMessage [Str "Processing..."]);
     if String.eqb (source c) "Generate Sphere" then
       let pcd := mkCloud (Sphere.generate_sphere_point_cloud draws 1 (points_value c)) [] in
       _ ← set_point_cloud pcd;
       _ ← show_info [Str "Generated sphere with "; Num (length (points pcd)); Str " points"];
       process_stages c
     else if String.eqb (source c) "Generate Pyramid" then
       let pcd := mkCloud (Tetrahedron.generate_tetrahedron_point_cloud
                             draws (points_value c)) [] in
       _ ← set_point_cloud pcd;
       _ ← show_info [Str "Generated pyramid with "; Num (length (points pcd)); Str " points"];
       process_stages c
     else
       let file_path := file_tooltip c in
       if String.eqb file_path "" then show_error [Str "Please select a file first"]
       else fun w =>
         match Loader.load_point_cloud float_of_string read_point_cloud fs file_path with
         | Raise e => show_error [Str "Error loading file: "; Exc e] w
         | Return pcd =>
             (_ ← set_point_cloud pcd;
              _ ← show_info [Str "Loaded point cloud with ";
                             Num (length (points pcd)); Str " points"];
              process_stages c) w
         end)
    (fun e => show_error [Str "Processing error: "; Exc e]).

(** [save_results] (main.py 485-508); [save_dir] is what the directory
    dialog returns, empty when it was cancelled. *)
Definition save_results (save_dir : string) : gui unit := fun w =>
  match point_cloud w with
  | None => show_error [Str "No point cloud to save"] w
  | Some pcd =>
      if String.eqb save_dir "" then ([], w, Return tt)
      else
        try_except
          (_ ← emit (WritePointCloud save_dir "point_cloud.pcd" pcd);
           _ ← (match poisson_mesh w with
                | Some m => if has_triangles m
                            then emit (WriteTriangleMesh save_dir "poisson_mesh.obj" m)
                            else mret tt
                | None => mret tt
                end);
           _ ← (match ball_pivot_mesh w with
                | Some m => if has_triangles m
                            then emit (WriteTriangleMesh save_dir "ball_pivot_mesh.obj" m)
                            else mret tt
                | None => mret tt
                end);
           show_info [Str "Results saved to "; Str save_dir])
          (fun e => show_error [Str "Error saving results: "; Exc e]) w
  end.

End Library.

(** The events, the window and the outcome of a run. *)
Definition events_of {A} (r : list event * window * result A) : list event := fst (fst r).
Definition window_of {A} (r : list event * window * result A) : window := snd (fst r).
Definition outcome_of {A} (r : list event * window * result A) : result A := snd r.

End Gui.

(** ** Clouds and stand-ins for the library calls, for the examples *)

Module Examples.
Import Preprocessor Reconstruction.

(** Five points: four within a hundredth of each other and one far
    away. *)
Definition five_points : list vec3 :=
  [(0, 0, 0); (1/100, 0, 0); (0, 1/100, 0); (0, 0, 1/100); (10, 10, 10)].

Definition five_heap : list cloud := [mkCloud five_points []].

(** Two points. *)
Definition two_points : list vec3 := [(0, 0, 0); (2, 0, 0)].
Definition two_heap : list cloud := [mkCloud two_points []].

(** The library, for the examples: every normal is the z axis, the
    orientation pass changes nothing, down-sampling is the one of the
    specification. *)
Definition z_normals (ps : list vec3) (radius : R) (k : nat) : result (list vec3) :=
  Return (map (fun _ => (0, 0, 1)) ps).
Definition keep_normals (ps ns : list vec3) (k : nat) : result (list vec3) :=
  Return ns.
Definition grid_down_sample (c : cloud) (voxel_size : R) : cloud :=
  mkCloud (downsample (points c) voxel_size) [].

(** A stand-in for the pivoting algorithm: one
    triangle on the first three points when the first two are within
    the diameter of the first ball. *)
Definition seed_only (c : cloud) (radii : list (option R)) : result mesh :=
  match points c, radii with
  | p0 :: p1 :: _ :: _, Some r :: _ =>
      if Rle_dec (dist p0 p1) (2 * r)
      then Return (mkMesh (points c) [(0, 1, 2)%nat] [])
      else Return (mkMesh (points c) [] [])
  | _, _ => Return (mkMesh (points c) [] [])
  end.

End Examples.

(** ** Stand-ins for the library calls, files and windows, for the
    examples of the two pipelines *)

Module Runs.
Import Gui.

Definition raising_estimate (ps : list vec3) (radius : R) (k : nat)
  : result (list vec3) :=
  Raise (RuntimeError "estimate_normals failed").
Definition raising_orientation (ps ns : list vec3) (k : nat)
  : result (list vec3) :=
  Raise (RuntimeError "orientation failed").
Definition no_triangles (c : cloud) (depth : nat) : result mesh :=
  Return (mkMesh (points c) [] []).
Definition no_vertex_normals (m : mesh) : list vec3 := [].
Definition empty_reader (content : string) : cloud := mkCloud [] [].
Definition two_points_reader (content : string) : cloud :=
  mkCloud Examples.two_points [].
Definition zero_draws (i : nat) : R := 0.

(** The visualizer with a display, and without one. *)
Definition window_closed (name : string) (g : PyVista.geometry) : result unit :=
  Return tt.
Definition no_display (name : string) (g : PyVista.geometry) : result unit :=
  Raise (OtherError "AttributeError"
                    "'NoneType' object has no attribute 'mesh_show_back_face'").

(** A file system that holds the file of creator.py and nothing else. *)
Definition sphere_fs : Loader.filesystem := fun path =>
  if String.eqb path Creator.file_path then Some "sphere" else None.

(** The window as [__init__] leaves it, and a window after a run. *)
Definition fresh_window : window := mkWindow None None None false.
Definition one_triangle : mesh :=
  mkMesh [(0, 0, 0); (1, 0, 0); (0, 1, 0)] [(0, 1, 2)%nat] [].
Definition no_triangle : mesh := mkMesh [(0, 0, 0); (1, 0, 0); (0, 1, 0)] [] [].
Definition used_window : window :=
  mkWindow (Some (mkCloud Examples.two_points [])) (Some one_triangle)
           (Some no_triangle) true.

(** The controls: upload selected and no file chosen; upload of
    [two.xyz] with no step ticked. *)
Definition upload_nothing : controls :=
  mkControls "Upload File" 1000 "" true 30 true 8 true "1.0,2.0,4.0,8.0,16.0".
Definition upload_two : controls :=
  mkControls "Upload File" 1000 "two.xyz" false 30 false 8 false
             "1.0,2.0,4.0,8.0,16.0".

End Runs.

(** * Properties *)

(** Equality of two points, coordinate by coordinate, by linear
    arithmetic. *)
Ltac vec3_eq :=
  unfold vadd, vsub, vscale, vdiv, vzero, vx, vy, vz; simpl;
  f_equal; [f_equal|]; lra.

(** ** The tetrahedron generator *)

Section TetrahedronFacts.
Import Tetrahedron.

Lemma face_points_sample (f : nat * nat * nat) (u v : list R) :
  face_points f u v = map (sample f) (zip_with pair u v).
Proof.
  destruct f as [[i0 i1] i2]. unfold face_points, weighted, reflect, mask_of.
  revert v. induction u as [|a u IH]; intros [|b v]; simpl; try reflexivity.
  f_equal; [|apply IH].
  destruct (Rgt_dec (a + b) 1); reflexivity.
Qed.

Lemma length_face_points (f : nat * nat * nat) (u v : list R) :
  length (face_points f u v) = Nat.min (length u) (length v).
Proof.
  rewrite face_points_sample, length_map. apply length_zip_with.
Qed.

Lemma length_sample_faces draws m fs pos :
  length (concat (sample_faces draws m fs pos)) = (length fs * m)%nat.
Proof.
  revert pos. induction fs as [|f fs IH]; intros pos; simpl; [reflexivity|].
  rewrite length_app, IH, length_face_points, !length_map, !length_seq. lia.
Qed.

(** The number of points returned, for every requested count. *)
Lemma length_generate draws (n : nat) :
  length (generate_tetrahedron_point_cloud draws n)
  = if (n <? 4)%nat then 0%nat else n.
Proof.
  unfold generate_tetrahedron_point_cloud.
  pose proof (length_sample_faces draws (n / 4) faces 0) as HL.
  change (length faces) with 4%nat in HL.
  set (pts := concat _) in *.
  pose proof (Nat.div_mod_eq n 4) as Hdm.
  pose proof (Nat.mod_upper_bound n 4 ltac:(lia)) as Hm.
  destruct (Nat.ltb_spec n (length pts)); [lia|].
  destruct (Nat.ltb_spec (length pts) n).
  - rewrite length_app, length_take.
    destruct (Nat.ltb_spec n 4); [|lia].
    assert (n / 4 = 0)%nat as Hz by (apply Nat.div_small; lia). lia.
  - destruct (Nat.ltb_spec n 4); [|lia].
    assert (n / 4 = 0)%nat as Hz by (apply Nat.div_small; lia). lia.
Qed.

(** From four points on, the count is exact. *)
Lemma length_generate_ge4 draws (n : nat) :
  (4 <= n)%nat -> length (generate_tetrahedron_point_cloud draws n) = n.
Proof.
  intros Hn. rewrite length_generate.
  destruct (Nat.ltb_spec n 4); [lia|reflexivity].
Qed.

(** Every sample of a face lies in the hull when the two draws lie in
    the unit interval. *)
Lemma sample_in_hull (f : nat * nat * nat) (u v : R) :
  In f faces -> 0 <= u <= 1 -> 0 <= v <= 1 -> in_hull (sample f (u, v)).
Proof.
  intros Hf Hu Hv. unfold sample.
  assert (exists u' v', 0 <= u' /\ 0 <= v' /\ u' + v' <= 1 /\
            (if Rgt_dec (u + v) 1 then 1 - u else u) = u' /\
            (if Rgt_dec (u + v) 1 then 1 - v else v) = v') as (u' & v' & H0 & H1 & H2 & -> & ->).
  { destruct (Rgt_dec (u + v) 1).
    - exists (1 - u), (1 - v). repeat split; lra.
    - exists u, v. repeat split; lra. }
  unfold in_hull, vertex.
  simpl in Hf.
  destruct Hf as [<-|[<-|[<-|[<-|[]]]]]; simpl.
  - exists (1 - u' - v'), u', 0, v'. repeat split; try lra.
    vec3_eq.
  - exists 0, (1 - u' - v'), u', v'. repeat split; try lra.
    vec3_eq.
  - exists u', 0, (1 - u' - v'), v'. repeat split; try lra.
    vec3_eq.
  - exists (1 - u' - v'), v', u', 0. repeat split; try lra.
    vec3_eq.
Qed.

Lemma sample_faces_in_hull draws m fs pos :
  (forall i, 0 <= draws i <= 1) ->
  (forall f, In f fs -> In f faces) ->
  Forall in_hull (concat (sample_faces draws m fs pos)).
Proof.
  intros Hd. revert pos. induction fs as [|f fs IH]; intros pos Hfs; simpl.
  - constructor.
  - apply Forall_app. split; [|apply IH; intros; apply Hfs; now right].
    rewrite face_points_sample. apply Forall_forall. intros p Hp.
    apply list_elem_of_In, in_map_iff in Hp. destruct Hp as ([u v] & <- & Huv).
    apply sample_in_hull; [apply Hfs; now left| |].
    + apply list_elem_of_In, elem_of_zip_l, list_elem_of_In, in_map_iff in Huv.
      destruct Huv as (i & <- & _). apply Hd.
    + apply list_elem_of_In, elem_of_zip_r, list_elem_of_In, in_map_iff in Huv.
      destruct Huv as (i & <- & _). apply Hd.
Qed.

(** Whatever the count, every point returned lies in the convex hull of
    the four vertices (draws of [uniform(0, 1)] lie in the unit
    interval). *)
Lemma generate_in_hull draws (n : nat) :
  (forall i, 0 <= draws i <= 1) ->
  Forall in_hull (generate_tetrahedron_point_cloud draws n).
Proof.
  intros Hd. unfold generate_tetrahedron_point_cloud.
  pose proof (sample_faces_in_hull draws (n / 4) faces 0 Hd (fun f H => H)) as HF.
  set (pts := concat _) in *.
  destruct (n <? length pts)%nat.
  - now apply Forall_take.
  - destruct (length pts <? n)%nat; [|exact HF].
    apply Forall_app. split; [exact HF|now apply Forall_take].
Qed.

(** C9 (failing input). Asked for three points, the generator samples
    zero points per face, pads the empty array with a slice of itself
    and returns no point at all, where the specification promises exactly
    three. *)
Theorem generate_tetrahedron_three_is_empty (draws : nat -> R) :
  generate_tetrahedron_point_cloud draws 3 = [].
Proof. reflexivity. Qed.

End TetrahedronFacts.

(** ** The loader *)

Section LoaderFacts.
Import Loader.
Local Open Scope string_scope.

Lemma all_chars_app ok s t :
  all_chars ok (s ++ t) = all_chars ok s && all_chars ok t.
Proof.
  induction s as [|c s IH]; simpl; [reflexivity|].
  now rewrite IH, andb_assoc.
Qed.

Lemma all_chars_weaken (ok ok' : ascii -> bool) s :
  (forall c, ok c = true -> ok' c = true) ->
  all_chars ok s = true -> all_chars ok' s = true.
Proof.
  intros Hw. induction s as [|c s IH]; simpl; [reflexivity|].
  intros [Hc Hs]%andb_prop. rewrite (Hw c Hc), (IH Hs). reflexivity.
Qed.

Lemma split_on_free d s : free_of d s = true -> split_on d s = [s].
Proof.
  induction s as [|c s IH]; simpl; [reflexivity|].
  intros [Hc Hs]%andb_prop. apply negb_true_iff in Hc. rewrite Hc.
  now rewrite (IH Hs).
Qed.

Lemma split_on_app d s t :
  free_of d s = true -> split_on d (s ++ String d t) = s :: split_on d t.
Proof.
  induction s as [|c s IH]; simpl.
  - intros _. now rewrite Ascii.eqb_refl.
  - intros [Hc Hs]%andb_prop. apply negb_true_iff in Hc. rewrite Hc.
    now rewrite (IH Hs).
Qed.

Lemma lstrip_crlf_id s :
  all_chars (fun c => negb (is_crlf c)) s = true -> lstrip_crlf s = s.
Proof.
  destruct s as [|c s]; simpl; [reflexivity|].
  intros [Hc _]%andb_prop. apply negb_true_iff in Hc. now rewrite Hc.
Qed.

Lemma rstrip_crlf_id s :
  all_chars (fun c => negb (is_crlf c)) s = true -> rstrip_crlf s = s.
Proof.
  induction s as [|c s IH]; simpl; [reflexivity|].
  intros [Hc Hs]%andb_prop. apply negb_true_iff in Hc.
  now rewrite Hc, (IH Hs).
Qed.

Ltac field_facts H :=
  let Hn := fresh "Hne" in
  let Ha := fresh "Hall" in
  apply andb_prop in H; destruct H as [Hn Ha].

Lemma field_free (d : ascii) s :
  (d = " " \/ d = "#" \/ d = "010" \/ d = "013")%char ->
  field s = true -> free_of d s = true.
Proof.
  intros Hd Hf. field_facts Hf. unfold free_of.
  revert Hall. apply all_chars_weaken. intros c Hc.
  apply andb_prop in Hc. destruct Hc as [Hc Hcr].
  apply andb_prop in Hc. destruct Hc as [Hsp Hh].
  unfold is_crlf in Hcr. apply negb_true_iff, orb_false_elim in Hcr.
  destruct Hcr as [Hlf Hcrr].
  destruct Hd as [-> | [-> | [-> | ->]]]; try assumption;
    now apply negb_true_iff.
Qed.

Lemma xyz_line_free (d : ascii) x y z :
  (d = "#" \/ d = "010" \/ d = "013")%char ->
  field x = true -> field y = true -> field z = true ->
  free_of d (xyz_line x y z) = true.
Proof.
  intros Hd Hx Hy Hz.
  assert (forall s, field s = true -> free_of d s = true) as Hfree
      by (intros s Hs; apply field_free; [tauto|exact Hs]).
  unfold xyz_line, free_of in *.
  destruct Hd as [-> | [-> | ->]];
    rewrite all_chars_app; simpl; rewrite all_chars_app; simpl;
    rewrite (Hfree x Hx), (Hfree y Hy), (Hfree z Hz); reflexivity.
Qed.

Lemma xyz_line_not_empty x y z :
  field x = true -> String.eqb (xyz_line x y z) EmptyString = false.
Proof.
  intros Hx. field_facts Hx. destruct x; [discriminate|reflexivity].
Qed.

Lemma split_line_xyz x y z :
  field x = true -> field y = true -> field z = true ->
  split_line (xyz_line x y z) = [x; y; z].
Proof.
  intros Hx Hy Hz. unfold split_line.
  rewrite (split_on_free "#"); [|apply xyz_line_free; tauto]. simpl hd.
  assert (all_chars (fun c => negb (is_crlf c)) (xyz_line x y z) = true) as Hcl.
  { pose proof (xyz_line_free "010" x y z ltac:(tauto) Hx Hy Hz) as H1.
    pose proof (xyz_line_free "013" x y z ltac:(tauto) Hx Hy Hz) as H2.
    unfold free_of in *. revert H1 H2. generalize (xyz_line x y z).
    induction s as [|c s IH]; simpl; [reflexivity|].
    intros [Ha Hb]%andb_prop [Hc Hd]%andb_prop. rewrite (IH Hb Hd), andb_true_r.
    unfold is_crlf. apply negb_true_iff in Ha, Hc. now rewrite Ha, Hc. }
  unfold strip_crlf. rewrite (lstrip_crlf_id _ Hcl), (rstrip_crlf_id _ Hcl).
  rewrite (xyz_line_not_empty x y z Hx).
  unfold xyz_line.
  rewrite split_on_app by (apply field_free; tauto).
  rewrite split_on_app by (apply field_free; tauto).
  rewrite split_on_free by (apply field_free; tauto).
  reflexivity.
Qed.

(** The lines of a file that holds the one line, with or without the
    final line end. *)
Lemma lines_of_one_line_file x y z content :
  field x = true -> field y = true -> field z = true ->
  content = xyz_line x y z \/ content = xyz_line x y z ++ String "010" "" ->
  text_lines content = [xyz_line x y z]
  \/ text_lines content = [xyz_line x y z; ""].
Proof.
  intros Hx Hy Hz [-> | ->]; unfold text_lines.
  - left. rewrite (split_on_free "010") by (apply xyz_line_free; tauto).
    cbn [map concat]. rewrite (split_on_free "013") by (apply xyz_line_free; tauto).
    reflexivity.
  - right. rewrite split_on_app by (apply xyz_line_free; tauto).
    cbn [split_on map concat].
    rewrite (split_on_free "013") by (apply xyz_line_free; tauto).
    reflexivity.
Qed.

Section WithLibrary.
Variable float_of_string : string -> option R.
Variable read_point_cloud : string -> cloud.

Lemma loadtxt_one_line x y z a b c content :
  field x = true -> field y = true -> field z = true ->
  float_of_string x = Some a -> float_of_string y = Some b ->
  float_of_string z = Some c ->
  content = xyz_line x y z \/ content = xyz_line x y z ++ String "010" "" ->
  loadtxt float_of_string content = Return (Array1 [a; b; c]).
Proof.
  intros Hx Hy Hz Ha Hb Hc Hcontent. unfold loadtxt.
  destruct (lines_of_one_line_file x y z content Hx Hy Hz Hcontent) as [-> | ->];
    simpl read_rows; rewrite (split_line_xyz x y z Hx Hy Hz); simpl;
    rewrite Ha, Hb, Hc; reflexivity.
Qed.

(** C10. A [.xyz] file that consists of exactly one line of three
    fields that [float] accepts, with or without the final line end,
    is not loaded: [np.loadtxt] squeezes the single row into a
    one-dimensional array, the constructor of the point container
    rejects it, and [load_point_cloud] raises that cast error
    instead of returning a cloud of one point. *)
Theorem load_one_line_xyz_raises
        (fs : filesystem) (file_path content x y z : string) (a b c : R) :
  fs file_path = Some content ->
  endswith file_path ".xyz" = true ->
  field x = true -> field y = true -> field z = true ->
  float_of_string x = Some a -> float_of_string y = Some b ->
  float_of_string z = Some c ->
  content = xyz_line x y z \/ content = xyz_line x y z ++ String "010" "" ->
  loadtxt float_of_string content = Return (Array1 [a; b; c])
  /\ Vector3dVector (Array1 [a; b; c]) = Raise cast_error
  /\ load_point_cloud float_of_string read_point_cloud fs file_path
     = Raise cast_error.
Proof.
  intros Hfs Hext Hx Hy Hz Ha Hb Hc Hcontent.
  pose proof (loadtxt_one_line x y z a b c content Hx Hy Hz Ha Hb Hc Hcontent) as Hl.
  split; [exact Hl|]. split; [reflexivity|].
  unfold load_point_cloud. rewrite Hfs, Hext, Hl. reflexivity.
Qed.

(** [np.loadtxt] raises nothing but [ValueError]. *)
Lemma convert_row_raises words e :
  convert_row float_of_string words = Raise e -> exists msg, e = ValueError msg.
Proof.
  induction words as [|w ws IH]; simpl; [discriminate|].
  destruct (float_of_string w); [|intros [= <-]; eauto].
  destruct (convert_row float_of_string ws); simpl; [discriminate|].
  intros [= <-]. now apply IH.
Qed.

Lemma read_rows_raises lines ncols e :
  read_rows float_of_string lines ncols = Raise e -> exists msg, e = ValueError msg.
Proof.
  revert ncols. induction lines as [|l ls IH]; intros ncols; cbn [read_rows];
    [discriminate|].
  destruct (split_line l) as [|w ws] eqn:Hl; [apply IH|].
  destruct (match ncols with Some m => _ | None => false end);
    [intros [= <-]; eauto|].
  destruct (convert_row float_of_string (w :: ws)) eqn:Hrow; simpl.
  - destruct (read_rows float_of_string ls _) eqn:Hrest; simpl; [discriminate|].
    intros [= <-]. eapply IH, Hrest.
  - intros [= <-]. eapply convert_row_raises, Hrow.
Qed.

Lemma loadtxt_raises content e :
  loadtxt float_of_string content = Raise e -> exists msg, e = ValueError msg.
Proof.
  unfold loadtxt.
  destruct (read_rows float_of_string _ None) eqn:Hrows; simpl; [discriminate|].
  intros [= <-]. eapply read_rows_raises, Hrows.
Qed.

Lemma Vector3dVector_raises a e :
  Vector3dVector a = Raise e -> e = cast_error.
Proof.
  destruct a; simpl; try (now intros [= <-]).
  destruct (forallb _ rows); [discriminate|now intros [= <-]].
Qed.

(** The parts of the loader's contract that hold on every path:
    [FileNotFoundError] exactly for a missing path ... *)
Lemma load_not_found_iff (fs : filesystem) (file_path : string) :
  (exists msg, load_point_cloud float_of_string read_point_cloud fs file_path
               = Raise (FileNotFoundError msg))
  <-> fs file_path = None.
Proof.
  unfold load_point_cloud. split.
  - intros [msg H]. destruct (fs file_path) as [content|]; [|reflexivity].
    exfalso. destruct (endswith file_path ".xyz").
    + destruct (loadtxt float_of_string content) as [arr|e] eqn:Hl; simpl in H.
      * destruct (Vector3dVector arr) as [pts|e] eqn:Hv; simpl in H; [discriminate|].
        apply Vector3dVector_raises in Hv. subst e. discriminate.
      * apply loadtxt_raises in Hl. destruct Hl as [m ->]. discriminate.
    + destruct (endswith file_path ".pcd"); [|discriminate].
      destruct (negb _); discriminate.
  - intros ->. eauto.
Qed.

(** ... [ValueError] for an extension that is neither [.xyz] nor
    [.pcd] ... *)
Lemma load_unsupported_extension (fs : filesystem) (file_path content : string) :
  fs file_path = Some content ->
  endswith file_path ".xyz" = false -> endswith file_path ".pcd" = false ->
  load_point_cloud float_of_string read_point_cloud fs file_path
  = Raise (ValueError "Unsupported file format. Use .xyz or .pcd").
Proof.
  intros Hfs Hx Hp. unfold load_point_cloud. now rewrite Hfs, Hx, Hp.
Qed.

(** ... [ValueError] for a [.xyz] file that [np.loadtxt] rejects ... *)
Lemma load_xyz_malformed (fs : filesystem) (file_path content : string) e :
  fs file_path = Some content ->
  endswith file_path ".xyz" = true ->
  loadtxt float_of_string content = Raise e ->
  exists msg, load_point_cloud float_of_string read_point_cloud fs file_path
              = Raise (ValueError msg).
Proof.
  intros Hfs Hx Hl. unfold load_point_cloud. rewrite Hfs, Hx, Hl. simpl.
  apply loadtxt_raises in Hl. destruct Hl as [m ->]. eauto.
Qed.

(** ... and, in the [.pcd] branch only, [ValueError] for a file
    without points, the cloud read otherwise. *)
Lemma load_pcd (fs : filesystem) (file_path content : string) :
  fs file_path = Some content ->
  endswith file_path ".xyz" = false -> endswith file_path ".pcd" = true ->
  load_point_cloud float_of_string read_point_cloud fs file_path
  = if has_points (read_point_cloud content)
    then Return (read_point_cloud content)
    else Raise (ValueError ("Failed to load " ++ file_path ++ ": no points found!")).
Proof.
  intros Hfs Hx Hp. unfold load_point_cloud. rewrite Hfs, Hx, Hp.
  now destruct (has_points _).
Qed.

End WithLibrary.

(** A file of two rows loads. *)
Lemma load_two_rows (read_point_cloud : string -> cloud) :
  load_point_cloud decimal_float read_point_cloud example_fs "two.xyz"
  = Return (mkCloud [(0, 0, 0); (1 + 5 / 10 ^ 1, - (2), 3)]%R []).
Proof. reflexivity. Qed.

(** C2 (failing inputs). Two existing [.xyz] files on which the loader
    does not do what the specification says: the file that holds the one line
    [1 2 3] is well formed, yet the call raises the constructor's
    [RuntimeError] instead of returning the cloud of one point; the
    empty file yields zero points, yet the call raises the same
    [RuntimeError] and not the [ValueError] that the [.pcd] branch
    raises for a cloud without points. *)
Theorem load_xyz_one_line_and_empty_raise_cast_error
        (read_point_cloud : string -> cloud) :
  load_point_cloud decimal_float read_point_cloud example_fs "one.xyz"
  = Raise cast_error
  /\ load_point_cloud decimal_float read_point_cloud example_fs "empty.xyz"
     = Raise cast_error.
Proof. split; reflexivity. Qed.

Lemma load_one_line_xyz_raises_witness :
  loadtxt decimal_float ("1 2 3" ++ String "010" "") = Return (Array1 [1; 2; 3]%R)
  /\ Vector3dVector (Array1 [1; 2; 3]%R) = Raise cast_error
  /\ load_point_cloud decimal_float (fun _ => mkCloud [] []) example_fs "one.xyz"
     = Raise cast_error.
Proof.
  apply (load_one_line_xyz_raises decimal_float (fun _ => mkCloud [] []) example_fs
           "one.xyz" ("1 2 3" ++ String "010" "") "1" "2" "3" 1%R 2%R 3%R);
    try reflexivity.
  right. reflexivity.
Defined.

End LoaderFacts.

(** ** Centring and scaling *)

Section NormalizeFacts.
Import Preprocessor.

Lemma vsum_subtract_center ps c :
  vsum (subtract_center ps c) = vsub (vsum ps) (vscale (INR (length ps)) c).
Proof.
  induction ps as [|p ps IH].
  - simpl. vec3_eq.
  - change (vsum (subtract_center (p :: ps) c))
      with (vadd (vsub p c) (vsum (subtract_center ps c))).
    rewrite IH. change (length (p :: ps)) with (S (length ps)). rewrite S_INR.
    change (vsum (p :: ps)) with (vadd p (vsum ps)).
    generalize (INR (length ps)) (vsum ps). intros n s. vec3_eq.
Qed.

Lemma vsum_divide_scale ps s :
  vsum (divide_scale ps s) = vdiv (vsum ps) s.
Proof.
  induction ps as [|p ps IH].
  - simpl. unfold vdiv, vzero, vx, vy, vz; simpl. f_equal; [f_equal|]; lra.
  - change (vsum (divide_scale (p :: ps) s))
      with (vadd (vdiv p s) (vsum (divide_scale ps s))).
    rewrite IH. change (vsum (p :: ps)) with (vadd p (vsum ps)).
    generalize (vsum ps). intros t.
    unfold vadd, vdiv, vx, vy, vz; simpl. f_equal; [f_equal|]; lra.
Qed.

(** After the subtraction the centroid is the origin. *)
Lemma mean_subtract_center ps :
  ps <> [] -> vsum (subtract_center ps (mean_axis0 ps)) = vzero.
Proof.
  intros Hne. rewrite vsum_subtract_center. unfold mean_axis0.
  assert (INR (length ps) <> 0) as Hn.
  { apply not_0_INR. destruct ps; [congruence|discriminate]. }
  generalize dependent (INR (length ps)). intros n Hn.
  generalize (vsum ps). intros s.
  unfold vsub, vscale, vdiv, vzero, vx, vy, vz; simpl.
  f_equal; [f_equal|]; field; exact Hn.
Qed.

Lemma vnorm_nonneg p : 0 <= vnorm p.
Proof. apply sqrt_pos. Qed.

Lemma vnorm_zero p : vnorm p = 0 -> p = vzero.
Proof.
  destruct p as [[x y] z]. unfold vnorm, vzero, vx, vy, vz; simpl. intros H.
  apply sqrt_eq_0 in H; [|nra].
  assert (x = 0) by nra. assert (y = 0) by nra. assert (z = 0) by nra.
  subst. reflexivity.
Qed.

Lemma vnorm_vdiv p s : 0 < s -> vnorm (vdiv p s) = vnorm p / s.
Proof.
  intros Hs. destruct p as [[x y] z]. unfold vnorm, vdiv, vx, vy, vz; simpl.
  replace (x / s * (x / s) + y / s * (y / s) + z / s * (z / s))
    with ((x * x + y * y + z * z) / (s * s)) by (field; lra).
  rewrite sqrt_div_alt by nra. rewrite sqrt_square by lra. reflexivity.
Qed.

(** The running maximum of [np.max]. *)
Lemma foldl_Rmax_ge x l : x <= foldl Rmax x l.
Proof.
  revert x. induction l as [|y l IH]; intros x; simpl; [lra|].
  eapply Rle_trans; [apply Rmax_l|apply IH].
Qed.

Lemma foldl_Rmax_upper x l y : In y l -> y <= foldl Rmax x l.
Proof.
  revert x. induction l as [|z l IH]; intros x; simpl; [tauto|].
  intros [->|Hy]; [|now apply IH].
  eapply Rle_trans; [apply Rmax_r|apply foldl_Rmax_ge].
Qed.

Lemma foldl_Rmax_div x l s :
  0 < s -> foldl Rmax (x / s) (map (fun r => r / s) l) = foldl Rmax x l / s.
Proof.
  intros Hs. revert x. induction l as [|y l IH]; intros x; simpl; [reflexivity|].
  rewrite <- IH. f_equal. unfold Rdiv.
  rewrite !(Rmult_comm _ (/ s)). apply RmaxRmult.
  left. now apply Rinv_0_lt_compat.
Qed.

Lemma np_max_upper l m y : np_max l = Return m -> In y l -> y <= m.
Proof.
  destruct l as [|x l]; simpl; [discriminate|]. intros [= <-] [->|Hy].
  - apply foldl_Rmax_ge.
  - now apply foldl_Rmax_upper.
Qed.

(** The scale is zero only when all points coincide. *)
Lemma scale_zero_coincide ps p q :
  np_max (map vnorm (subtract_center ps (mean_axis0 ps))) = Return 0 ->
  In p ps -> In q ps -> p = q.
Proof.
  intros Hmax Hp Hq.
  assert (forall r, In r ps -> r = mean_axis0 ps) as Hall.
  { intros r Hr.
    assert (vnorm (vsub r (mean_axis0 ps)) <= 0) as Hle.
    { eapply np_max_upper; [exact Hmax|].
      apply in_map. unfold subtract_center.
      apply (in_map (fun p => vsub p (mean_axis0 ps))). exact Hr. }
    pose proof (vnorm_nonneg (vsub r (mean_axis0 ps))) as Hge.
    assert (vnorm (vsub r (mean_axis0 ps)) = 0) as Hz by lra.
    apply vnorm_zero in Hz. destruct r as [[x y] z].
    destruct (mean_axis0 ps) as [[cx cy] cz].
    unfold vsub, vzero, vx, vy, vz in Hz; simpl in Hz.
    injection Hz as H1 H2 H3. f_equal; [f_equal|]; lra. }
  now rewrite (Hall p Hp), (Hall q Hq).
Qed.

Lemma np_max_nonneg_norms ps m :
  np_max (map vnorm ps) = Return m -> 0 <= m.
Proof.
  destruct ps as [|p ps]; simpl; [discriminate|]. intros [= <-].
  eapply Rle_trans; [apply (vnorm_nonneg p)|apply foldl_Rmax_ge].
Qed.

Lemma np_max_divide_scale ps s :
  0 < s -> np_max (map vnorm ps) = Return s ->
  np_max (map vnorm (divide_scale ps s)) = Return 1.
Proof.
  intros Hs. destruct ps as [|p ps]; simpl; [discriminate|]. intros [= Hmax].
  f_equal. rewrite vnorm_vdiv by exact Hs.
  replace (map vnorm (divide_scale ps s)) with (map (fun r => r / s) (map vnorm ps)).
  - rewrite foldl_Rmax_div by exact Hs. rewrite Hmax. field. lra.
  - unfold divide_scale. rewrite !map_map. apply map_ext.
    intros q. now rewrite vnorm_vdiv.
Qed.

(** In exact arithmetic: for every cloud in which two points differ,
    [normalize] returns the points translated by minus the centroid and
    divided by the largest distance from it, as many points as before,
    their centroid the origin and their largest norm 1. *)
Lemma normalize_exact (ps : list vec3) (p q : vec3) :
  In p ps -> In q ps -> p <> q ->
  exists (scale : R) (ps' : list vec3),
    0 < scale /\
    normalize ps = Return (Some ps') /\
    ps' = map (fun r => vdiv (vsub r (mean_axis0 ps)) scale) ps /\
    length ps' = length ps /\
    mean_axis0 ps' = vzero /\
    np_max (map vnorm ps') = Return 1.
Proof.
  intros Hp Hq Hpq. unfold normalize.
  destruct (np_max (map vnorm (subtract_center ps (mean_axis0 ps))))
    as [scale|e] eqn:Hmax.
  2:{ destruct ps; [contradiction|discriminate]. }
  assert (0 < scale) as Hpos.
  { pose proof (np_max_nonneg_norms _ _ Hmax) as Hge.
    destruct (Req_dec_T scale 0) as [->|Hnz]; [|lra].
    exfalso. apply Hpq. eapply scale_zero_coincide; eauto. }
  exists scale, (divide_scale (subtract_center ps (mean_axis0 ps)) scale).
  simpl. destruct (Req_dec_T scale 0) as [Hz|_]; [lra|].
  repeat split.
  - exact Hpos.
  - unfold divide_scale, subtract_center. now rewrite map_map.
  - unfold divide_scale, subtract_center. now rewrite !length_map.
  - unfold mean_axis0 at 1. rewrite vsum_divide_scale, mean_subtract_center.
    + unfold vdiv, vzero, vx, vy, vz; simpl. f_equal; [f_equal|];
        unfold Rdiv; rewrite !Rmult_0_l; reflexivity.
    + intros ->. contradiction.
  - now apply np_max_divide_scale.
Qed.

(** When all points coincide, here in the cloud of one point, the scale
    is 0 and the coordinates become nan. *)
Lemma normalize_single_point : normalize [(1, 2, 3)] = Return None.
Proof.
  unfold normalize. simpl.
  destruct (Req_dec_T _ 0) as [_|Hnz]; [reflexivity|].
  exfalso. apply Hnz.
  unfold vnorm, vsub, mean_axis0, vdiv, vsum, vadd, vzero, vx, vy, vz; simpl.
  match goal with |- sqrt ?e = 0 => replace e with 0 by field end.
  apply sqrt_0.
Qed.

(** The range of the arithmetic. *)
Lemma pow2_ge_1 (n : nat) : 1 <= 2 ^ n.
Proof. apply pow_R1_Rle. lra. Qed.

Lemma inv_pow2_pos (n : nat) : 0 < / 2 ^ n.
Proof. apply Rinv_0_lt_compat. pose proof (pow2_ge_1 n). lra. Qed.

Lemma inv_pow2_le_1 (n : nat) : / 2 ^ n <= 1.
Proof.
  pose proof (Rinv_le_contravar 1 (2 ^ n) ltac:(lra) (pow2_ge_1 n)) as H.
  now rewrite Rinv_1 in H.
Qed.

Lemma vnorm_vzero : vnorm vzero = 0.
Proof.
  unfold vnorm, vzero, vx, vy, vz; simpl.
  replace (0 * 0 + 0 * 0 + 0 * 0) with 0 by ring. apply sqrt_0.
Qed.

Lemma Rabs_vx_le_vnorm (p : vec3) : Rabs (vx p) <= vnorm p.
Proof.
  destruct p as [[x y] z]. unfold vnorm, vx, vy, vz; simpl.
  rewrite <- sqrt_Rsqr_abs. apply sqrt_le_1_alt. unfold Rsqr. nra.
Qed.

Lemma tolerance_pos : 0 < tolerance.
Proof. unfold tolerance. apply Rinv_0_lt_compat. apply pow_lt. lra. Qed.

(** On a well-conditioned cloud two points differ. *)
Lemma well_conditioned_differ (ps : list vec3) :
  well_conditioned ps -> exists p q, In p ps /\ In q ps /\ p <> q.
Proof.
  intros (_ & M & p & q & _ & _ & Hp & Hq & Hd & _).
  exists p, q. split; [exact Hp|]. split; [exact Hq|]. intros ->.
  pose proof (inv_pow2_pos 500) as Hpos.
  assert (vsub q q = vzero) as Hz by (destruct q as [[x y] z]; vec3_eq).
  rewrite Hz, vnorm_vzero in Hd. lra.
Qed.

(** A cloud is well-conditioned when its coordinates are bounded by
    [M] and two of its points differ by [d] in their first coordinate,
    for [M] and [d] in range. *)
Lemma well_conditioned_intro (ps : list vec3) (M d : R) (p q : vec3) :
  INR (length ps) <= 2 ^ 16 ->
  Forall (bounded M) ps -> M <= 2 ^ 500 ->
  In p ps -> In q ps ->
  d <= Rabs (vx p - vx q) -> / 2 ^ 500 <= d -> M <= 2 ^ 10 * d ->
  well_conditioned ps.
Proof.
  intros Hn Hb HM Hp Hq Hd Hlo Hk. split; [exact Hn|].
  exists M, p, q. repeat (split; [assumption|]).
  pose proof (Rabs_vx_le_vnorm (vsub p q)) as Hx.
  change (vx (vsub p q)) with (vx p - vx q) in Hx.
  split; [lra|]. assert (0 < 2 ^ 10) by (apply pow_lt; lra). nra.
Qed.

(** C6 (as amended). For every well-conditioned cloud [normalize]
    returns the points translated by minus the centroid and divided by
    the largest distance from it, one positive scale for the whole
    cloud: as many points as before, their centroid within the
    tolerance of the origin and their largest norm within the tolerance
    of 1; the result is a function of the input alone. *)
Theorem normalize_centred_unit (ps : list vec3) :
  well_conditioned ps ->
  exists (scale : R) (ps' : list vec3),
    0 < scale /\
    normalize ps = Return (Some ps') /\
    ps' = map (fun r => vdiv (vsub r (mean_axis0 ps)) scale) ps /\
    length ps' = length ps /\
    vnorm (mean_axis0 ps') <= tolerance /\
    exists m, np_max (map vnorm ps') = Return m /\ Rabs (m - 1) <= tolerance.
Proof.
  intros Hwc. destruct (well_conditioned_differ ps Hwc) as (p & q & Hp & Hq & Hpq).
  destruct (normalize_exact ps p q Hp Hq Hpq)
    as (scale & ps' & Hpos & Hn & Hps' & Hlen & Hmean & Hmax).
  pose proof tolerance_pos as Htol.
  exists scale, ps'. repeat (split; [assumption|]). split.
  - rewrite Hmean, vnorm_vzero. lra.
  - exists 1. split; [exact Hmax|].
    replace (1 - 1) with 0 by ring. rewrite Rabs_R0. lra.
Qed.

(** In exact arithmetic too the claim fails on a cloud of one point: on
    the single point (1, 2, 3) the scale is 0 and the division produces
    nan, so there are no normalized points whose largest norm is within
    1/2 of 1. *)
Lemma normalize_single_point_fails :
  ~ (forall ps : list vec3, ps <> [] ->
       exists ps', normalize ps = Return (Some ps') /\
                   forall eps, 0 < eps ->
                     vnorm (mean_axis0 ps') <= eps /\
                     exists m, np_max (map vnorm ps') = Return m /\ Rabs (m - 1) <= eps).
Proof.
  intros H. destruct (H [(1, 2, 3)] ltac:(discriminate)) as (ps' & Hn & _).
  rewrite normalize_single_point in Hn. discriminate.
Qed.

(** The two points (0, 0, 0) and (2, 0, 0) are a well-conditioned
    cloud, also when moved by (1, 1, 1) or scaled by 3. *)
Lemma two_points_well_conditioned :
  well_conditioned [(0, 0, 0); (2, 0, 0)]
  /\ well_conditioned (map (vadd (1, 1, 1)) [(0, 0, 0); (2, 0, 0)])
  /\ well_conditioned (map (vscale 3) [(0, 0, 0); (2, 0, 0)]).
Proof.
  pose proof (pow2_ge_1 500) as H500. pose proof (inv_pow2_le_1 500) as Hi500.
  pose proof (pow2_ge_1 16) as H16.
  assert (2 ^ 10 = 1024) as H10 by (simpl; ring).
  assert (8 <= 2 ^ 500) as H8.
  { change 500%nat with (3 + 497)%nat. rewrite pow_add.
    pose proof (pow2_ge_1 497). assert (2 ^ 3 = 8) as -> by (simpl; ring). lra. }
  assert (INR 2 <= 2 ^ 16) as Hlen.
  { change 16%nat with (1 + 15)%nat. rewrite pow_add.
    pose proof (pow2_ge_1 15). simpl. lra. }
  split; [|split].
  - apply (well_conditioned_intro _ 2 2 (2, 0, 0) (0, 0, 0)); try lra.
    + exact Hlen.
    + repeat first [apply Forall_nil_2 | apply Forall_cons_2];
        (unfold bounded; unfold vx, vy, vz; simpl; repeat split; apply Rabs_le; lra).
    + right. now left.
    + now left.
    + unfold vx; simpl. apply Rle_trans with (2 - 0); [lra|apply Rle_abs].
  - apply (well_conditioned_intro _ 3 2 (vadd (1, 1, 1) (2, 0, 0))
                                  (vadd (1, 1, 1) (0, 0, 0))); try lra.
    + exact Hlen.
    + repeat first [apply Forall_nil_2 | apply Forall_cons_2];
        (unfold bounded; unfold vadd, vx, vy, vz; simpl; repeat split; apply Rabs_le; lra).
    + right. now left.
    + now left.
    + unfold vadd, vx; simpl. apply Rle_trans with (1 + 2 - (1 + 0)); [lra|apply Rle_abs].
  - apply (well_conditioned_intro _ 6 6 (vscale 3 (2, 0, 0))
                                  (vscale 3 (0, 0, 0))); try lra.
    + exact Hlen.
    + repeat first [apply Forall_nil_2 | apply Forall_cons_2];
        (unfold bounded; unfold vscale, vx, vy, vz; simpl; repeat split; apply Rabs_le; lra).
    + right. now left.
    + now left.
    + unfold vscale, vx; simpl. apply Rle_trans with (3 * 2 - 3 * 0); [lra|apply Rle_abs].
Qed.

Lemma normalize_centred_unit_witness :
  exists (scale : R) (ps' : list vec3),
    0 < scale /\
    normalize [(0, 0, 0); (2, 0, 0)] = Return (Some ps') /\
    ps' = map (fun r => vdiv (vsub r (mean_axis0 [(0, 0, 0); (2, 0, 0)])) scale)
              [(0, 0, 0); (2, 0, 0)] /\
    length ps' = 2%nat /\
    vnorm (mean_axis0 ps') <= tolerance /\
    exists m, np_max (map vnorm ps') = Return m /\ Rabs (m - 1) <= tolerance.
Proof.
  apply (normalize_centred_unit [(0, 0, 0); (2, 0, 0)]).
  apply two_points_well_conditioned.
Defined.

End NormalizeFacts.

(** ** Voxel down-sampling *)

Section DownsampleFacts.
Import Preprocessor.

Variable v : R.
Hypothesis v_pos : 0 < v.

(** *** The occupied cells *)

Lemma elem_of_occupied (cs : list (Z * Z * Z)) c : c ∈ occupied cs <-> c ∈ cs.
Proof.
  induction cs as [|d cs IH]; simpl; [reflexivity|].
  rewrite !elem_of_cons, list_elem_of_filter, IH.
  destruct (decide (c = d)); intuition.
Qed.

Lemma NoDup_occupied (cs : list (Z * Z * Z)) : NoDup (occupied cs).
Proof.
  induction cs as [|d cs IH]; simpl; constructor.
  - rewrite list_elem_of_filter. intros [H _]. now apply H.
  - now apply NoDup_filter.
Qed.

Lemma length_occupied (cs : list (Z * Z * Z)) :
  (length (occupied cs) <= length cs)%nat.
Proof.
  induction cs as [|d cs IH]; simpl; [lia|].
  pose proof (length_filter (fun e => e <> d) (occupied cs)). lia.
Qed.

Lemma filter_all_true {A} (P : A -> Prop) `{forall x, Decision (P x)} (l : list A) :
  (forall x, x ∈ l -> P x) -> filter P l = l.
Proof.
  induction l as [|x l IH]; intros Hall; [reflexivity|].
  rewrite filter_cons_True by (apply Hall; left).
  f_equal. apply IH. intros y Hy. apply Hall. now right.
Qed.

Lemma occupied_NoDup (cs : list (Z * Z * Z)) : NoDup cs -> occupied cs = cs.
Proof.
  induction 1 as [|d cs Hd Hnd IH]; simpl; [reflexivity|].
  rewrite IH. f_equal. apply filter_all_true.
  intros e He ->. contradiction.
Qed.

(** *** The centroid of the points of one cell lies in that cell *)

Section Coordinate.
Variable coord : vec3 -> R.
Hypothesis coord_vadd : forall p q, coord (vadd p q) = coord p + coord q.
Hypothesis coord_vzero : coord vzero = 0.

Lemma coord_vsum_bounds (lo hi : R) (l : list vec3) :
  l <> [] ->
  (forall p, p ∈ l -> lo <= coord p < hi) ->
  INR (length l) * lo <= coord (vsum l) < INR (length l) * hi.
Proof.
  induction l as [|p l IH]; [congruence|]. intros _ Hall.
  change (vsum (p :: l)) with (vadd p (vsum l)).
  change (length (p :: l)) with (S (length l)).
  rewrite coord_vadd, S_INR.
  pose proof (Hall p ltac:(left)) as Hp.
  destruct l as [|q l].
  - simpl. rewrite coord_vzero. lra.
  - assert (forall r, r ∈ q :: l -> lo <= coord r < hi) as Hall'
        by (intros r Hr; apply Hall; now right).
    specialize (IH ltac:(discriminate) Hall'). lra.
Qed.

Lemma Int_part_bounds (x : R) (k : Z) :
  Int_part (x / v) = k <-> IZR k * v <= x < (IZR k + 1) * v.
Proof.
  split.
  - intros <-. destruct (base_Int_part (x / v)) as [H1 H2].
    assert (x = x / v * v) as Hx by (field; lra).
    split.
    + rewrite Hx at 2. apply Rmult_le_compat_r; lra.
    + rewrite Hx at 1. apply Rmult_lt_compat_r; lra.
  - intros [H1 H2]. symmetry. apply Int_part_spec.
    assert (IZR k <= x / v).
    { apply Rmult_le_reg_r with v; [lra|].
      replace (x / v * v) with x by (field; lra). lra. }
    assert (x / v < IZR k + 1).
    { apply Rmult_lt_reg_r with v; [lra|].
      replace (x / v * v) with x by (field; lra). lra. }
    lra.
Qed.

Lemma Int_part_mean (k : Z) (l : list vec3) :
  l <> [] ->
  (forall p, p ∈ l -> Int_part (coord p / v) = k) ->
  Int_part (coord (vsum l) / INR (length l) / v) = k.
Proof.
  intros Hne Hall.
  assert (0 < INR (length l)) as Hn.
  { apply lt_0_INR. destruct l; [congruence|simpl; lia]. }
  pose proof (coord_vsum_bounds (IZR k * v) ((IZR k + 1) * v) l Hne
                (fun p Hp => proj1 (Int_part_bounds _ _) (Hall p Hp))) as [H1 H2].
  apply Int_part_bounds. split.
  - apply Rmult_le_reg_l with (INR (length l)); [lra|].
    replace (INR (length l) * (coord (vsum l) / INR (length l)))
      with (coord (vsum l)) by (field; lra). lra.
  - apply Rmult_lt_reg_l with (INR (length l)); [lra|].
    replace (INR (length l) * (coord (vsum l) / INR (length l)))
      with (coord (vsum l)) by (field; lra). lra.
Qed.

End Coordinate.

Lemma cell_mean (c : Z * Z * Z) (l : list vec3) :
  l <> [] -> (forall p, p ∈ l -> cell v p = c) -> cell v (mean_axis0 l) = c.
Proof.
  intros Hne Hall. destruct c as [[kx ky] kz].
  unfold cell, mean_axis0. unfold vdiv at 1 2 3.
  change (vx (?a, ?b, ?c)) with a. change (vy (?a, ?b, ?c)) with b.
  change (vz (?a, ?b, ?c)) with c.
  f_equal; [f_equal|].
  - apply Int_part_mean; auto; try (intros [[? ?] ?] [[? ?] ?]; reflexivity).
    intros p Hp. specialize (Hall p Hp). unfold cell in Hall. congruence.
  - apply Int_part_mean; auto; try (intros [[? ?] ?] [[? ?] ?]; reflexivity).
    intros p Hp. specialize (Hall p Hp). unfold cell in Hall. congruence.
  - apply Int_part_mean; auto; try (intros [[? ?] ?] [[? ?] ?]; reflexivity).
    intros p Hp. specialize (Hall p Hp). unfold cell in Hall. congruence.
Qed.

Lemma mean_singleton (p : vec3) : mean_axis0 [p] = p.
Proof.
  destruct p as [[x y] z]. unfold mean_axis0, vsum, vdiv, vadd, vzero, vx, vy, vz.
  simpl. f_equal; [f_equal|]; field.
Qed.

Lemma in_cell_occupied (ps : list vec3) (c : Z * Z * Z) :
  c ∈ occupied (map (cell v) ps) ->
  in_cell v c ps <> [] /\ forall p, p ∈ in_cell v c ps -> cell v p = c.
Proof.
  intros Hc. apply elem_of_occupied, list_elem_of_fmap in Hc.
  destruct Hc as (p & -> & Hp). split.
  - intros Hnil. unfold in_cell in Hnil.
    exact (filter_nil_not_elem_of (fun q => cell v q = cell v p) ps p Hnil eq_refl Hp).
  - intros q Hq. now apply list_elem_of_filter in Hq.
Qed.

(** The cells of the output are the occupied cells of the input, in the
    same order: one output point per cell. *)
Lemma cells_of_downsample (ps : list vec3) :
  map (cell v) (downsample ps v) = occupied (map (cell v) ps).
Proof.
  unfold downsample. rewrite map_map.
  rewrite <- (map_id (occupied (map (cell v) ps))) at 2.
  apply map_ext_in. intros c Hc. apply list_elem_of_In in Hc.
  destruct (in_cell_occupied ps c Hc) as [Hne Hall]. now apply cell_mean.
Qed.

Lemma in_cell_one_per_cell (g : Z * Z * Z -> vec3) (cs : list (Z * Z * Z)) c :
  NoDup cs -> (forall d, d ∈ cs -> cell v (g d) = d) -> c ∈ cs ->
  in_cell v c (map g cs) = [g c].
Proof.
  unfold in_cell. induction 1 as [|d cs Hd Hnd IH]; intros Hg Hc.
  - inversion Hc.
  - simpl. apply elem_of_cons in Hc. destruct Hc as [->|Hc].
    + rewrite filter_cons_True by (apply Hg; left). f_equal.
      assert (forall l, (forall e, e ∈ l -> e ∈ cs) ->
                filter (fun p => cell v p = d) (map g l) = []) as Hnone.
      { induction l as [|e l IHl]; intros Hsub; [reflexivity|]. simpl.
        rewrite filter_cons_False.
        - apply IHl. intros e' He'. apply Hsub. now right.
        - rewrite Hg by (right; apply Hsub; left).
          intros ->. apply Hd, Hsub. left. }
      apply Hnone. auto.
    + rewrite filter_cons_False.
      * apply IH; [|exact Hc]. intros e He. apply Hg. now right.
      * rewrite Hg by left. intros ->. contradiction.
Qed.

(** C8. For a positive voxel size, down-sampling returns at most as
    many points as it is given, and down-sampling its result again with
    the same size returns that result unchanged. *)
Theorem downsample_idempotent (ps : list vec3) :
  (length (downsample ps v) <= length ps)%nat
  /\ downsample (downsample ps v) v = downsample ps v.
Proof.
  split.
  - unfold downsample. rewrite length_map.
    etransitivity; [apply length_occupied|]. now rewrite length_map.
  - unfold downsample at 1. rewrite cells_of_downsample.
    rewrite (occupied_NoDup _ (NoDup_occupied _)).
    unfold downsample. apply map_ext_in. intros c Hc. apply list_elem_of_In in Hc.
    rewrite in_cell_one_per_cell; auto using NoDup_occupied.
    + apply mean_singleton.
    + intros d Hd. destruct (in_cell_occupied ps d Hd). now apply cell_mean.
Qed.

End DownsampleFacts.

(** ** Clouds behind references: what the two in-place stages do *)

Section StoreFacts.
Import Store.

Lemma length_set_points h r ps : length (set_points h r ps) = length h.
Proof. apply length_insert. Qed.

Lemma length_set_normals h r ns : length (set_normals h r ns) = length h.
Proof. apply length_insert. Qed.

Lemma deref_set_points_eq h r ps :
  (r < length h)%nat -> deref (set_points h r ps) r = mkCloud ps (normals (deref h r)).
Proof. intros Hr. unfold deref, set_points. now apply list_lookup_total_insert_eq. Qed.

Lemma deref_set_points_ne h r r' ps :
  r <> r' -> deref (set_points h r ps) r' = deref h r'.
Proof. intros Hr. unfold deref, set_points. now apply list_lookup_total_insert_ne. Qed.

Lemma deref_set_normals_eq h r ns :
  (r < length h)%nat -> deref (set_normals h r ns) r = mkCloud (points (deref h r)) ns.
Proof. intros Hr. unfold deref, set_normals. now apply list_lookup_total_insert_eq. Qed.

Lemma deref_set_normals_ne h r r' ns :
  r <> r' -> deref (set_normals h r ns) r' = deref h r'.
Proof. intros Hr. unfold deref, set_normals. now apply list_lookup_total_insert_ne. Qed.

Lemma deref_alloc_old h c r :
  (r < length h)%nat -> deref (fst (alloc h c)) r = deref h r.
Proof. intros Hr. unfold deref, alloc. cbn [fst]. now apply lookup_total_app_l. Qed.

Lemma deref_alloc_new h c : deref (fst (alloc h c)) (snd (alloc h c)) = c.
Proof.
  unfold deref, alloc. cbn [fst snd]. rewrite lookup_total_app_r by lia.
  now rewrite Nat.sub_diag.
Qed.

End StoreFacts.

Section InPlaceFacts.
Import Store Preprocessor NormalEstimator.

Variable voxel_down_sample : cloud -> R -> cloud.
Variable estimate_normals : list vec3 -> R -> nat -> result (list vec3).
Variable orient_normals_consistent_tangent_plane :
  list vec3 -> list vec3 -> nat -> result (list vec3).

(** [preprocess_point_cloud] on an object whose points normalize to
    [ps']: the object passed in ends up holding [ps'], and the
    reference returned is that of a new object, the down-sampled
    cloud. *)
Lemma preprocess_returns (h : heap) (pcd : ref) (ps' : list vec3) :
  (pcd < length h)%nat ->
  normalize (points (deref h pcd)) = Return (Some ps') ->
  exists h',
    preprocess_point_cloud voxel_down_sample h pcd = Returned h' (length h)
    /\ deref h' pcd = mkCloud ps' (normals (deref h pcd))
    /\ deref h' (length h)
       = voxel_down_sample (mkCloud ps' (normals (deref h pcd))) (1/100)
    /\ forall r, (r < length h)%nat -> r <> pcd -> deref h' r = deref h r.
Proof.
  intros Hr Hn. unfold normalize in Hn. unfold preprocess_point_cloud.
  rewrite deref_set_points_eq by exact Hr. cbn [points].
  destruct (np_max _) as [scale|e]; [|discriminate]. simpl in Hn.
  destruct (Req_dec_T scale 0) as [|Hnz]; [discriminate|].
  injection Hn as <-.
  set (ps1 := subtract_center _ _).
  set (h1 := set_points h pcd ps1).
  set (h2 := set_points h1 pcd (divide_scale ps1 scale)).
  assert (length h1 = length h) as Hl1 by apply length_set_points.
  assert (length h2 = length h) as Hl2
      by (unfold h2; now rewrite length_set_points).
  assert (deref h2 pcd = mkCloud (divide_scale ps1 scale) (normals (deref h pcd))) as Hd2.
  { unfold h2. rewrite deref_set_points_eq by lia.
    unfold h1. now rewrite deref_set_points_eq by lia. }
  rewrite Hd2. cbn [points].
  set (h3 := set_points h2 pcd (divide_scale ps1 scale)).
  assert (length h3 = length h) as Hl3
      by (unfold h3; now rewrite length_set_points).
  assert (deref h3 pcd = mkCloud (divide_scale ps1 scale) (normals (deref h pcd))) as Hd3.
  { unfold h3. rewrite deref_set_points_eq by lia. now rewrite Hd2. }
  rewrite Hd3.
  set (c := voxel_down_sample _ _).
  exists (fst (alloc h3 c)). unfold alloc at 1. rewrite Hl3.
  repeat split.
  - now rewrite deref_alloc_old by lia.
  - pose proof (deref_alloc_new h3 c) as Hnew. unfold alloc at 2 in Hnew.
    simpl in Hnew. now rewrite Hl3 in Hnew.
  - intros r Hrl Hne. rewrite deref_alloc_old by lia.
    unfold h3, h2, h1. now rewrite !deref_set_points_ne by congruence.
Qed.

(** [orient_normals] when both library calls return: the reference
    returned is the one passed in, its object has the points it had and
    the normals of the second call. *)
Lemma orient_normals_returns (h : heap) (pcd : ref) (k : nat) (ns ns' : list vec3) :
  (pcd < length h)%nat ->
  estimate_normals (points (deref h pcd)) (1/10) k = Return ns ->
  orient_normals_consistent_tangent_plane (points (deref h pcd)) ns k = Return ns' ->
  exists h',
    orient_normals estimate_normals orient_normals_consistent_tangent_plane h pcd k
    = (h', Return pcd)
    /\ deref h' pcd = mkCloud (points (deref h pcd)) ns'
    /\ forall r, r <> pcd -> deref h' r = deref h r.
Proof.
  intros Hr He Ho. unfold orient_normals. rewrite He.
  rewrite deref_set_normals_eq by exact Hr. cbn [points normals]. rewrite Ho.
  eexists. split; [reflexivity|]. split.
  - rewrite deref_set_normals_eq by (now rewrite length_set_normals).
    now rewrite deref_set_normals_eq by exact Hr.
  - intros r Hne. now rewrite !deref_set_normals_ne by congruence.
Qed.

(** [orient_normals] raises exactly what a library call raises. *)
Lemma orient_normals_raises (h : heap) (pcd : ref) (k : nat) (h' : heap) (e : exn) :
  orient_normals estimate_normals orient_normals_consistent_tangent_plane h pcd k
  = (h', Raise e) ->
  estimate_normals (points (deref h pcd)) (1/10) k = Raise e
  \/ exists ns,
       estimate_normals (points (deref h pcd)) (1/10) k = Return ns
       /\ orient_normals_consistent_tangent_plane
            (points (deref (set_normals h pcd ns) pcd))
            (normals (deref (set_normals h pcd ns) pcd)) k = Raise e.
Proof.
  unfold orient_normals.
  destruct (estimate_normals _ _ _) as [ns|e1]; [|intros [= _ <-]; now left].
  destruct (orient_normals_consistent_tangent_plane _ _ _) as [ns'|e2] eqn:Ho;
    [discriminate|].
  intros [= _ <-]. right. exists ns. split; [reflexivity|exact Ho].
Qed.

(** C5 (as amended). [preprocess_point_cloud] overwrites the points of
    the cloud object it is passed with the centred and scaled points
    and returns a reference to a new, distinct object, the
    down-sampled cloud; [orient_normals] returns the very reference it
    was passed, whose object keeps its points and receives the
    normals. *)
Theorem stages_work_in_place
        (h : heap) (pcd : ref) (k : nat) (ps' ns ns' : list vec3) :
  (pcd < length h)%nat ->
  normalize (points (deref h pcd)) = Return (Some ps') ->
  estimate_normals (points (deref h pcd)) (1/10) k = Return ns ->
  orient_normals_consistent_tangent_plane (points (deref h pcd)) ns k = Return ns' ->
  (exists h' pcd',
      preprocess_point_cloud voxel_down_sample h pcd = Returned h' pcd'
      /\ pcd' <> pcd
      /\ points (deref h' pcd) = ps'
      /\ deref h' pcd'
         = voxel_down_sample (mkCloud ps' (normals (deref h pcd))) (1/100))
  /\ (exists h',
         orient_normals estimate_normals orient_normals_consistent_tangent_plane
                        h pcd k = (h', Return pcd)
         /\ points (deref h' pcd) = points (deref h pcd)
         /\ normals (deref h' pcd) = ns').
Proof.
  intros Hr Hn He Ho. split.
  - destruct (preprocess_returns h pcd ps' Hr Hn) as (h' & Hp & Hin & Hout & _).
    exists h', (length h). rewrite Hin. repeat split; auto. lia.
  - destruct (orient_normals_returns h pcd k ns ns' Hr He Ho) as (h' & Hp & Hin & _).
    exists h'. rewrite Hin. auto.
Qed.

(** C1 (as amended). [orient_normals] has no error of its own and none
    per point.  Either a library call raises, and the whole call ends
    with that exception, for every point alike; or both return, and the
    call returns the cloud it was passed, in which every point, however
    few neighbours it has, carries the normal the library computed. *)
Theorem orient_normals_all_or_nothing (h : heap) (pcd : ref) (k : nat) :
  (pcd < length h)%nat ->
  let o := orient_normals estimate_normals
                          orient_normals_consistent_tangent_plane h pcd k in
  (exists e,
      snd o = Raise e
      /\ (forall i, point_report o i = Raise e)
      /\ (estimate_normals (points (deref h pcd)) (1/10) k = Raise e
          \/ exists ns,
               estimate_normals (points (deref h pcd)) (1/10) k = Return ns
               /\ orient_normals_consistent_tangent_plane
                    (points (deref h pcd)) ns k = Raise e))
  \/ (exists ns ns',
         estimate_normals (points (deref h pcd)) (1/10) k = Return ns
         /\ orient_normals_consistent_tangent_plane
              (points (deref h pcd)) ns k = Return ns'
         /\ snd o = Return pcd
         /\ points (deref (fst o) pcd) = points (deref h pcd)
         /\ forall i, point_report o i = Return (nth i ns' vzero)).
Proof.
  intros Hr o.
  destruct (estimate_normals (points (deref h pcd)) (1/10) k) as [ns|e] eqn:He.
  - destruct (orient_normals_consistent_tangent_plane (points (deref h pcd)) ns k)
      as [ns'|e] eqn:Ho.
    + right. exists ns, ns'.
      destruct (orient_normals_returns h pcd k ns ns' Hr He Ho) as (h' & Hp & Hin & _).
      subst o. unfold point_report. rewrite Hp. cbn [fst snd]. rewrite Hin.
      repeat split; auto.
    + left. exists e. subst o. unfold point_report, orient_normals. rewrite He.
      rewrite deref_set_normals_eq by exact Hr. cbn [points normals]. rewrite Ho.
      repeat split; eauto.
  - left. exists e. subst o. unfold point_report, orient_normals. rewrite He.
    repeat split; eauto.
Qed.

End InPlaceFacts.

(** *** The stages on the cloud of five points *)

Section FivePoints.
Import Store Preprocessor NormalEstimator Examples.

Ltac count_neighbors :=
  unfold usable_neighbors, five_points;
  repeat first
    [ rewrite filter_cons_True
        by (unfold dist2, vx, vy, vz; simpl; lra)
    | rewrite filter_cons_False
        by (unfold dist2, vx, vy, vz; simpl; lra) ];
  rewrite filter_nil; reflexivity.

Lemma neighbors_of_first : usable_neighbors (1/10) 30 five_points (0, 0, 0) = 4%nat.
Proof. count_neighbors. Qed.

Lemma neighbors_of_last : usable_neighbors (1/10) 30 five_points (10, 10, 10) = 1%nat.
Proof. count_neighbors. Qed.

(** C1 (counterexample). Whatever the two library calls compute, the
    call on the five points cannot report the error for the isolated
    point alone and a normal for the first point: it returns one result
    for the whole cloud or raises one exception for the whole call. *)
Lemma orient_normals_no_report_per_point :
  ~ exists (estimate_normals : list vec3 -> R -> nat -> result (list vec3))
           (orient_normals_consistent_tangent_plane :
              list vec3 -> list vec3 -> nat -> result (list vec3)),
      let o := orient_normals estimate_normals
                 orient_normals_consistent_tangent_plane five_heap 0 30 in
      forall (i : nat) (p : vec3),
        five_points !! i = Some p ->
        ((usable_neighbors (1/10) 30 five_points p < 3)%nat ->
         point_report o i = Raise DegenerateNeighborhoodError)
        /\ ((3 <= usable_neighbors (1/10) 30 five_points p)%nat ->
            exists n, point_report o i = Return n).
Proof.
  intros (est & ori & H). cbv zeta in H.
  destruct (H 0%nat (0, 0, 0) eq_refl) as [_ Hfirst].
  destruct (H 4%nat (10, 10, 10) eq_refl) as [Hlast _].
  rewrite neighbors_of_first in Hfirst. rewrite neighbors_of_last in Hlast.
  specialize (Hfirst ltac:(lia)). specialize (Hlast ltac:(lia)).
  destruct Hfirst as [n Hn]. unfold point_report in *.
  destruct (snd (orient_normals est ori five_heap 0 30)); discriminate.
Qed.

Lemma orient_normals_all_or_nothing_witness :
  let o := orient_normals z_normals keep_normals five_heap 0 30 in
  (exists e,
      snd o = Raise e
      /\ (forall i, point_report o i = Raise e)
      /\ (z_normals (points (deref five_heap 0)) (1/10) 30 = Raise e
          \/ exists ns,
               z_normals (points (deref five_heap 0)) (1/10) 30 = Return ns
               /\ keep_normals (points (deref five_heap 0)) ns 30 = Raise e))
  \/ (exists ns ns',
         z_normals (points (deref five_heap 0)) (1/10) 30 = Return ns
         /\ keep_normals (points (deref five_heap 0)) ns 30 = Return ns'
         /\ snd o = Return 0%nat
         /\ points (deref (fst o) 0) = points (deref five_heap 0)
         /\ forall i, point_report o i = Return (nth i ns' vzero)).
Proof.
  apply (orient_normals_all_or_nothing z_normals keep_normals five_heap 0 30).
  simpl. lia.
Defined.

(** C5 (counterexample). On the heap that holds the five points, the
    two stages do not leave the cloud passed in alone: the reference
    [orient_normals] returns is the one it was given. *)
Lemma stages_alias_or_mutate_input :
  ~ (forall (voxel_down_sample : cloud -> R -> cloud)
            (estimate_normals : list vec3 -> R -> nat -> result (list vec3))
            (orient_normals_consistent_tangent_plane :
               list vec3 -> list vec3 -> nat -> result (list vec3))
            (h : list cloud) (pcd k : nat),
        (pcd < length h)%nat ->
        (forall h' pcd',
            preprocess_point_cloud voxel_down_sample h pcd = Returned h' pcd' ->
            pcd' <> pcd /\ points (deref h' pcd) = points (deref h pcd))
        /\ (forall h' pcd',
               orient_normals estimate_normals
                 orient_normals_consistent_tangent_plane h pcd k = (h', Return pcd') ->
               pcd' <> pcd /\ points (deref h' pcd) = points (deref h pcd))).
Proof.
  intros H.
  destruct (H grid_down_sample z_normals keep_normals five_heap 0%nat 30%nat
              ltac:(simpl; lia)) as [_ Ho].
  destruct (Ho _ 0%nat eq_refl) as [Hne _]. now apply Hne.
Qed.

End FivePoints.

(** ** Reconstruction *)

Section ReconstructionFacts.
Import Reconstruction Examples.

(** *** Distances scale with the cloud *)

Lemma vnorm_vscale (s : R) (p : vec3) : 0 <= s -> vnorm (vscale s p) = s * vnorm p.
Proof.
  intros Hs. destruct p as [[x y] z]. unfold vnorm, vscale, vx, vy, vz; simpl.
  replace (s * x * (s * x) + s * y * (s * y) + s * z * (s * z))
    with (s * s * (x * x + y * y + z * z)) by ring.
  rewrite sqrt_mult_alt by nra. now rewrite sqrt_square.
Qed.








Lemma np_mean_not_nil (l : list R) :
  l <> [] -> np_mean l = Some (foldr Rplus 0 l / INR (length l)).
Proof. destruct l; [congruence|reflexivity]. Qed.




(** A cloud with normals has points, so its average nearest-neighbour
    distance is a number. *)
Lemma np_mean_has_normals (c : cloud) :
  has_normals c = true ->
  exists avg, np_mean (compute_nearest_neighbor_distance (points c)) = Some avg.
Proof.
  unfold has_normals, has_points. intros [Hp _]%andb_prop.
  unfold compute_nearest_neighbor_distance.
  destruct (points c) as [|p ps]; [discriminate|].
  rewrite imap_cons. simpl. eauto.
Qed.

Lemma dist_nonneg (p q : vec3) : 0 <= dist p q.
Proof. apply vnorm_nonneg. Qed.

Lemma dist_pos (p q : vec3) : p <> q -> 0 < dist p q.
Proof.
  intros Hne. destruct (dist_nonneg p q) as [H|H]; [exact H|].
  exfalso. apply Hne. symmetry in H. apply vnorm_zero in H.
  destruct p as [[x y] z], q as [[a b] c].
  unfold vsub, vzero, vx, vy, vz in H; simpl in H. injection H as H1 H2 H3.
  f_equal; [f_equal|]; lra.
Qed.

Lemma dist_same (p : vec3) : dist p p = 0.
Proof.
  destruct p as [[x y] z]. unfold dist, vnorm, vsub, vx, vy, vz; simpl.
  replace ((x - x) * (x - x) + (y - y) * (y - y) + (z - z) * (z - z)) with 0 by ring.
  apply sqrt_0.
Qed.

Lemma foldl_Rmin_In (x : R) (l : list R) : In (foldl Rmin x l) (x :: l).
Proof.
  revert x. induction l as [|y l IH]; intros x; simpl; [now left|].
  destruct (IH (Rmin x y)) as [H|H]; [|now right; right].
  rewrite <- H. unfold Rmin. destruct (Rle_dec x y); [|right]; now left.
Qed.

(** The nearest distance is 0 when there is no other point, and
    otherwise the distance to one of the other points. *)
Lemma nearest_cases (p : vec3) (others : list vec3) :
  (others = [] /\ nearest p others = 0)
  \/ exists q, In q others /\ nearest p others = dist p q.
Proof.
  destruct others as [|q qs]; [now left|]. right. unfold nearest.
  destruct (foldl_Rmin_In (dist p q) (map (dist p) qs)) as [H|H].
  - exists q. split; [now left|now symmetry].
  - apply in_map_iff in H. destruct H as (r & Hr & Hin).
    exists r. split; [now right|now symmetry].
Qed.

Lemma Forall_imap {A B} (P : B -> Prop) (f : nat -> A -> B) (l : list A) :
  (forall i x, l !! i = Some x -> P (f i x)) -> Forall P (imap f l).
Proof.
  revert f. induction l as [|x l IH]; intros f Hf; [constructor|].
  rewrite imap_cons. constructor.
  - apply (Hf 0%nat). reflexivity.
  - apply IH. intros i y Hy. apply (Hf (S i)). exact Hy.
Qed.

Lemma foldr_Rplus_pos (l : list R) :
  l <> [] -> Forall (fun x => 0 < x) l -> 0 < foldr Rplus 0 l.
Proof.
  induction l as [|x l IH]; [congruence|]. intros _ Hall.
  apply Forall_cons in Hall. destruct Hall as [Hx Hl]. simpl.
  destruct l as [|y l]; [simpl; lra|].
  specialize (IH ltac:(discriminate) Hl). lra.
Qed.

Lemma foldr_Rplus_zero (l : list R) :
  Forall (fun x => x = 0) l -> foldr Rplus 0 l = 0.
Proof.
  induction 1 as [|x l Hx _ IH]; simpl; [reflexivity|]. rewrite Hx, IH. ring.
Qed.

Lemma foldr_Rplus_lower (d : R) (l : list R) :
  Forall (fun x => d <= x) l -> INR (length l) * d <= foldr Rplus 0 l.
Proof.
  induction 1 as [|x l Hx _ IH]; [simpl; lra|].
  change (length (x :: l)) with (S (length l)). rewrite S_INR. simpl. lra.
Qed.

(** The average of numbers that are at least [d] is at least [d]. *)
Lemma np_mean_lower (d : R) (l : list R) :
  l <> [] -> Forall (fun x => d <= x) l ->
  exists avg, np_mean l = Some avg /\ d <= avg.
Proof.
  intros Hne Hall. rewrite np_mean_not_nil by exact Hne. eexists. split; [reflexivity|].
  assert (0 < INR (length l)) as Hn.
  { apply lt_0_INR. destruct l; [congruence|simpl; lia]. }
  pose proof (foldr_Rplus_lower d l Hall) as Hsum.
  apply Rmult_le_reg_l with (INR (length l)); [exact Hn|].
  replace (INR (length l) * (foldr Rplus 0 l / INR (length l)))
    with (foldr Rplus 0 l) by (field; lra).
  exact Hsum.
Qed.

(** In a cloud of two or more points that are [d] apart, every
    nearest-neighbour distance is at least [d]. *)
Lemma separated_nearest (d : R) (ps : list vec3) :
  (2 <= length ps)%nat -> separated d ps ->
  Forall (fun x => d <= x) (compute_nearest_neighbor_distance ps).
Proof.
  intros Hlen Hsep. unfold compute_nearest_neighbor_distance.
  apply Forall_imap. intros i p Hi.
  destruct (nearest_cases p (delete i ps)) as [[Hnil _]|(q & Hq & ->)].
  - exfalso. apply (f_equal length) in Hnil. rewrite length_delete in Hnil by eauto.
    simpl in Hnil. lia.
  - apply list_elem_of_In, list_elem_of_lookup_1 in Hq. destruct Hq as [j Hj].
    destruct (Nat.lt_ge_cases j i) as [Hlt|Hge].
    + rewrite list_lookup_delete_lt in Hj by exact Hlt.
      apply (Hsep i j); [lia|exact Hi|exact Hj].
    + rewrite list_lookup_delete_ge in Hj by exact Hge.
      apply (Hsep i (S j)); [lia|exact Hi|exact Hj].
Qed.

(** On a cloud in range the average nearest-neighbour distance is a
    number of at least [2^-500]. *)
Lemma np_mean_in_range (ps : list vec3) (radii : list R) :
  (2 <= length ps)%nat -> in_range ps radii ->
  exists avg,
    / 2 ^ 500 <= avg
    /\ np_mean (compute_nearest_neighbor_distance ps) = Some avg.
Proof.
  intros Hlen (_ & (M & d & _ & _ & Hd & _ & Hsep) & _).
  destruct (np_mean_lower d (compute_nearest_neighbor_distance ps)) as (avg & Havg & Hle).
  - intros Hnil. apply (f_equal length) in Hnil.
    unfold compute_nearest_neighbor_distance in Hnil. rewrite length_imap in Hnil.
    simpl in Hnil. lia.
  - now apply separated_nearest.
  - exists avg. split; [lra|exact Havg].
Qed.

(** The two points (0, 0, 0) and (2, 0, 0), and the same scaled by 2,
    are in range with the relative radii 1 and 2. *)
Lemma two_points_in_range :
  in_range two_points [1; 2] /\ in_range (map (vscale 2) two_points) [1; 2].
Proof.
  pose proof (pow2_ge_1 500) as H500. pose proof (inv_pow2_le_1 500) as Hi500.
  assert (2 ^ 10 = 1024) as H10 by (simpl; ring).
  assert (8 <= 2 ^ 500) as H8.
  { change 500%nat with (3 + 497)%nat. rewrite pow_add.
    pose proof (pow2_ge_1 497). assert (2 ^ 3 = 8) as -> by (simpl; ring). lra. }
  assert (INR 2 <= 2 ^ 16) as Hlen.
  { change 16%nat with (1 + 15)%nat. rewrite pow_add.
    pose proof (pow2_ge_1 15). simpl. lra. }
  assert (Forall (fun r => / 2 ^ 500 <= r <= 2 ^ 500) [1; 2]) as Hr
      by (repeat first [apply Forall_nil_2 | apply Forall_cons_2]; lra).
  assert (forall a (ps : list vec3),
             ps = [(0, 0, 0); (a, 0, 0)] -> 2 <= a -> separated 2 ps) as Hsep.
  { intros a ps -> Ha i j p q Hij Hi Hj.
    pose proof (Rabs_vx_le_vnorm (vsub p q)) as Hx.
    change (vnorm (vsub p q)) with (dist p q) in Hx.
    change (vx (vsub p q)) with (vx p - vx q) in Hx.
    destruct i as [|[|i]], j as [|[|j]]; try discriminate; try congruence;
      injection Hi as <-; injection Hj as <-; unfold vx in Hx; simpl in Hx.
    - rewrite Rabs_minus_sym, Rabs_right in Hx by lra. lra.
    - rewrite Rabs_right in Hx by lra. lra. }
  split.
  - split; [exact Hlen|]. split; [|exact Hr].
    exists 2, 2. split; [|split; [lra|split; [lra|split; [lra|]]]].
    + repeat first [apply Forall_nil_2 | apply Forall_cons_2];
        (unfold Preprocessor.bounded, vx, vy, vz; simpl; repeat split; apply Rabs_le; lra).
    + apply (Hsep 2); [reflexivity|lra].
  - split; [exact Hlen|]. split; [|exact Hr].
    exists 4, 2. split; [|split; [lra|split; [lra|split; [lra|]]]].
    + repeat first [apply Forall_nil_2 | apply Forall_cons_2];
        (unfold Preprocessor.bounded, vscale, vx, vy, vz; simpl; repeat split;
         apply Rabs_le; lra).
    + apply (Hsep (2 * 2)); [|lra]. unfold two_points, vscale, vx, vy, vz. simpl.
      f_equal; [|f_equal]; (f_equal; [f_equal|]); ring.
Qed.

Section WithLibrary.
Variable ball_pivoting : cloud -> list (option R) -> result mesh.
Variable poisson : cloud -> nat -> result mesh.
Variable vertex_normals_of : mesh -> list vec3.

Local Abbreviation bpr :=
  (ball_pivoting_reconstruction ball_pivoting vertex_normals_of).
Local Abbreviation psr := (poisson_reconstruction poisson vertex_normals_of).


(** C3 (as amended). On a cloud without normals, and so on the empty
    cloud, [ball_pivoting_reconstruction] raises the library's
    [RuntimeError].  On a cloud with normals the average distance is
    a number, and the call ends as the library's algorithm ends on
    the scaled radii: it raises what that raises and returns the mesh
    that returns, with its vertices and its triangles, none included,
    and with vertex normals added. *)
Theorem ball_pivoting_reconstruction_outcome (pcd : cloud) (radii : list R) :
  if has_normals pcd then
    exists avg,
      np_mean (compute_nearest_neighbor_distance (points pcd)) = Some avg
      /\ bpr pcd radii
         = match ball_pivoting pcd (map (fun r => Some (r * avg)) radii) with
           | Return m => Return (mkMesh (vertices m) (triangles m)
                                        (vertex_normals_of m))
           | Raise e => Raise e
           end
  else bpr pcd radii = Raise (RuntimeError "ReconstructBallPivoting requires normals").
Proof.
  destruct (has_normals pcd) eqn:Hn.
  - destruct (np_mean_has_normals pcd Hn) as [avg Havg]. exists avg.
    split; [exact Havg|].
    unfold ball_pivoting_reconstruction, create_from_point_cloud_ball_pivoting.
    rewrite Hn, Havg. unfold scale_radii. simpl.
    destruct (ball_pivoting pcd _); reflexivity.
  - unfold ball_pivoting_reconstruction, create_from_point_cloud_ball_pivoting.
    now rewrite Hn.
Qed.


Lemma ball_pivoting_no_normals_raises (pcd : cloud) (radii : list R) :
  has_normals pcd = false ->
  bpr pcd radii = Raise (RuntimeError "ReconstructBallPivoting requires normals").
Proof.
  intros Hn. unfold ball_pivoting_reconstruction, create_from_point_cloud_ball_pivoting.
  now rewrite Hn.
Qed.


End WithLibrary.

(** C3 (counterexample). On the empty cloud the call does not return:
    the cloud has no normals and the library raises. *)
Lemma ball_pivoting_empty_cloud_raises :
  ~ (forall (ball_pivoting : cloud -> list (option R) -> result mesh)
            (vertex_normals_of : mesh -> list vec3)
            (pcd : cloud) (radii : list R),
        exists m, ball_pivoting_reconstruction ball_pivoting vertex_normals_of
                    pcd radii = Return m).
Proof.
  intros H.
  destruct (H (fun _ _ => Return (mkMesh [] [] [])) (fun _ => [])
              (mkCloud [] []) [1; 2; 4; 8; 16]) as [m Hm].
  rewrite ball_pivoting_no_normals_raises in Hm by reflexivity. discriminate.
Qed.




End ReconstructionFacts.

(** ** The stages on a cloud of two points *)

Section TwoPoints.
Import Store Preprocessor NormalEstimator Examples.

Lemma normalize_two_points :
  normalize two_points = Return (Some [(-1, 0, 0); (1, 0, 0)]).
Proof.
  unfold normalize.
  assert (subtract_center two_points (mean_axis0 two_points)
          = [(-1, 0, 0); (1, 0, 0)]) as Hc.
  { unfold subtract_center, two_points, mean_axis0, vsum, vsub, vdiv, vadd, vzero,
      vx, vy, vz. simpl.
    f_equal; [|f_equal]; (f_equal; [f_equal|]); field. }
  rewrite Hc.
  assert (vnorm (-1, 0, 0) = 1) as H1.
  { unfold vnorm, vx, vy, vz; simpl.
    replace (-1 * -1 + 0 * 0 + 0 * 0) with 1 by ring. apply sqrt_1. }
  assert (vnorm (1, 0, 0) = 1) as H2.
  { unfold vnorm, vx, vy, vz; simpl.
    replace (1 * 1 + 0 * 0 + 0 * 0) with 1 by ring. apply sqrt_1. }
  cbn [map np_max foldl]. rewrite H1, H2, Rmax_left by lra.
  cbn [mbind result_bind].
  destruct (Req_dec_T 1 0) as [H|_]; [lra|].
  unfold divide_scale, vdiv, vx, vy, vz. simpl.
  do 2 f_equal. f_equal; [|f_equal]; (f_equal; [f_equal|]); field.
Qed.

(** After [preprocess_point_cloud] the object passed in holds the
    normalized points, not the points it held. *)
Lemma preprocess_overwrites_input :
  exists h',
    preprocess_point_cloud grid_down_sample two_heap 0 = Returned h' 1%nat
    /\ points (deref h' 0) = [(-1, 0, 0); (1, 0, 0)]
    /\ points (deref h' 0) <> points (deref two_heap 0).
Proof.
  destruct (preprocess_returns grid_down_sample two_heap 0%nat _
              ltac:(simpl; lia) normalize_two_points) as (h' & Hp & Hin & _).
  exists h'. rewrite Hin. repeat split; [exact Hp|].
  simpl. intros [= H _]. lra.
Qed.

Lemma stages_work_in_place_witness :
  (exists h' pcd',
      preprocess_point_cloud grid_down_sample two_heap 0 = Returned h' pcd'
      /\ pcd' <> 0%nat
      /\ points (deref h' 0) = [(-1, 0, 0); (1, 0, 0)]
      /\ deref h' pcd'
         = grid_down_sample
             (mkCloud [(-1, 0, 0); (1, 0, 0)] (normals (deref two_heap 0))) (1/100))
  /\ (exists h',
         orient_normals z_normals keep_normals two_heap 0 30 = (h', Return 0%nat)
         /\ points (deref h' 0) = points (deref two_heap 0)
         /\ normals (deref h' 0) = [(0, 0, 1); (0, 0, 1)]).
Proof.
  apply (stages_work_in_place grid_down_sample z_normals keep_normals two_heap
           0%nat 30%nat [(-1, 0, 0); (1, 0, 0)]
           [(0, 0, 1); (0, 0, 1)] [(0, 0, 1); (0, 0, 1)]).
  - simpl. lia.
  - exact normalize_two_points.
  - reflexivity.
  - reflexivity.
Defined.

(** Down-sampling at work: with cells of edge 1, two points of one cell
    are replaced by their centroid and a point alone in its cell stays. *)
Lemma downsample_three_points :
  downsample [(2/10, 0, 0); (4/10, 0, 0); (15/10, 0, 0)] 1
  = [(3/10, 0, 0); (15/10, 0, 0)].
Proof.
  assert (forall x k, IZR k <= x < IZR k + 1 -> cell 1 (x, 0, 0) = (k, 0, 0)%Z) as Hcell.
  { intros x k Hx. unfold cell, vx, vy, vz; simpl.
    f_equal; [f_equal|]; apply Int_part_bounds; lra. }
  pose proof (Hcell (2/10) 0%Z ltac:(lra)) as H1.
  pose proof (Hcell (4/10) 0%Z ltac:(lra)) as H2.
  pose proof (Hcell (15/10) 1%Z ltac:(lra)) as H3.
  unfold downsample, in_cell. cbn [map]. rewrite H1, H2, H3.
  change (occupied [(0, 0, 0)%Z; (0, 0, 0)%Z; (1, 0, 0)%Z])
    with [(0, 0, 0)%Z; (1, 0, 0)%Z].
  cbn [map].
  rewrite (filter_cons_True (fun p => cell 1 p = (0, 0, 0)%Z)) by exact H1.
  rewrite (filter_cons_True (fun p => cell 1 p = (0, 0, 0)%Z)) by exact H2.
  rewrite (filter_cons_False (fun p => cell 1 p = (0, 0, 0)%Z))
    by (rewrite H3; discriminate).
  rewrite (filter_cons_False (fun p => cell 1 p = (1, 0, 0)%Z))
    by (rewrite H1; discriminate).
  rewrite (filter_cons_False (fun p => cell 1 p = (1, 0, 0)%Z))
    by (rewrite H2; discriminate).
  rewrite (filter_cons_True (fun p => cell 1 p = (1, 0, 0)%Z)) by exact H3.
  rewrite !filter_nil.
  unfold mean_axis0, vsum, vadd, vdiv, vzero, vx, vy, vz. simpl.
  f_equal; [|f_equal]; (f_equal; [f_equal|]); field.
Qed.

(** The nearest-neighbour distances of the two points, and the radii
    that [ball_pivoting_reconstruction] derives from them. *)
Lemma nearest_neighbor_distance_two_points :
  Reconstruction.compute_nearest_neighbor_distance two_points = [2; 2]
  /\ Reconstruction.scale_radii
       (Reconstruction.np_mean
          (Reconstruction.compute_nearest_neighbor_distance two_points)) [1; 4]
     = [Some (1 * ((2 + (2 + 0)) / 2)); Some (4 * ((2 + (2 + 0)) / 2))].
Proof.
  assert (Reconstruction.compute_nearest_neighbor_distance two_points = [2; 2]) as Hd.
  { unfold Reconstruction.compute_nearest_neighbor_distance, two_points.
    cbn [imap delete list_delete Reconstruction.nearest map foldl compose].
    unfold Reconstruction.dist, vnorm, vsub, vx, vy, vz. cbn [fst snd].
    f_equal; [|f_equal]; apply sqrt_lem_1; lra. }
  split; [exact Hd|]. rewrite Hd. simpl. repeat f_equal; lra.
Qed.

Lemma downsample_idempotent_witness :
  (length (downsample two_points (1/100)) <= length two_points)%nat
  /\ downsample (downsample two_points (1/100)) (1/100)
     = downsample two_points (1/100).
Proof. apply (downsample_idempotent (1/100)). lra. Defined.

End TwoPoints.

(** ** Outside the range: what binary64 computes *)

Section Binary64Facts.
Import PrimFloat.

(** C6 (counterexample). On doubles the centring and scaling does not
    give every nonempty cloud a centroid near the origin and a largest
    norm near 1.  On the single point (1, 2, 3) every coordinate
    becomes nan.  On the two points (2^1000, 0, 0) and (-2^1000, 0, 0)
    the squares overflow, the scale is infinite and both points become
    zero, so the largest norm is 0.  On the two points (1, 0, 0) and
    (1 + 2^-52, 0, 0) the mean rounds to the first point, which stays
    at the origin while the other goes to (1, 0, 0): the centroid is
    (0.5, 0, 0). *)
Lemma normalize_fails_outside_range :
  Binary64.normalize [(1, 2, 3)%float] = Return [(nan, nan, nan)]
  /\ (Binary64.normalize [(0x1p1000, 0, 0); (-0x1p1000, 0, 0)]%float
      = Return [(0, 0, 0); (-0, 0, 0)]%float
      /\ Binary64.np_max (map Binary64.vnorm [(0, 0, 0); (-0, 0, 0)]%float)
         = Return 0%float)
  /\ (Binary64.normalize [(1, 0, 0); (1 + 0x1p-52, 0, 0)]%float
      = Return [(0, 0, 0); (1, 0, 0)]%float
      /\ Binary64.mean_axis0 [(0, 0, 0); (1, 0, 0)]%float = (0.5, 0, 0)%float).
Proof. repeat split; reflexivity. Qed.

(** Inside the range binary64 stays within the tolerance: the two
    points of the examples are normalized exactly, and on three points
    whose mean is not a double the centroid of the result lies within
    [2^-20] of the origin and its largest norm within [2^-20] of 1. *)
Lemma normalize_binary64_in_range :
  Binary64.normalize [(0, 0, 0); (2, 0, 0)]%float
  = Return [(-1, 0, 0); (1, 0, 0)]%float
  /\ exists ps' m,
       Binary64.normalize [(1, 2, 3); (4, 6, 8); (0.5, 7, -3)]%float = Return ps'
       /\ leb (Binary64.vnorm (Binary64.mean_axis0 ps')) 0x1p-20 = true
       /\ Binary64.np_max (map Binary64.vnorm ps') = Return m
       /\ leb (abs (m - 1)) 0x1p-20 = true.
Proof.
  split; [reflexivity|]. eexists. eexists.
  split; [reflexivity|]. split; [reflexivity|]. split; reflexivity.
Qed.


End Binary64Facts.

(** * Further properties of the code *)

(** ** The sphere generator *)

Section SphereFacts.
Import Sphere.

Lemma zip_with_map_seq {A B C} (f : A -> B -> C) (g : nat -> A) (h : nat -> B)
      (a b n : nat) :
  zip_with f (map g (seq a n)) (map h (seq b n))
  = map (fun i => f (g (a + i)%nat) (h (b + i)%nat)) (seq 0 n).
Proof.
  revert a b. induction n as [|n IH]; intros a b; [reflexivity|].
  cbn [seq map zip_with]. rewrite !Nat.add_0_r. f_equal.
  rewrite IH, <- seq_shift, map_map. apply map_ext. intros i.
  now rewrite !Nat.add_succ_r.
Qed.

Lemma map_seq_shift {A} (g : nat -> A) (a n : nat) :
  map g (seq a n) = map (fun i => g (a + i)%nat) (seq 0 n).
Proof.
  revert a. induction n as [|n IH]; intros a; [reflexivity|].
  cbn [seq map]. rewrite Nat.add_0_r. f_equal.
  rewrite IH, <- seq_shift, map_map. apply map_ext. intros i.
  now rewrite Nat.add_succ_r.
Qed.

Lemma stack3_map_seq (gx gy gz : nat -> R) (n : nat) :
  stack3 (map gx (seq 0 n)) (map gy (seq 0 n)) (map gz (seq 0 n))
  = map (fun i => (gx i, gy i, gz i)) (seq 0 n).
Proof.
  unfold stack3.
  rewrite (zip_with_map_seq pair gy gz 0 0 n).
  rewrite (zip_with_map_seq _ gx (fun i => (gy (0 + i)%nat, gz (0 + i)%nat)) 0 0 n).
  reflexivity.
Qed.

Lemma generate_sphere_as_map (draws : nat -> R) (radius : R) (n : nat) :
  generate_sphere_point_cloud draws radius n
  = map (fun i => (radius * sin (acos (draws (n + i)%nat)) * cos (draws i),
                   radius * sin (acos (draws (n + i)%nat)) * sin (draws i),
                   radius * cos (acos (draws (n + i)%nat))))
        (seq 0 n).
Proof.
  unfold generate_sphere_point_cloud, Tetrahedron.uniform.
  cbn [Nat.add]. rewrite !map_map.
  rewrite !(zip_with_map_seq _ (fun i => acos (draws i)) draws n 0 n).
  rewrite (map_seq_shift (fun i => radius * cos (acos (draws i))) n n).
  apply (stack3_map_seq
           (fun i => radius * sin (acos (draws (n + i)%nat)) * cos (draws (0 + i)%nat))
           (fun i => radius * sin (acos (draws (n + i)%nat)) * sin (draws (0 + i)%nat))).
Qed.

(** X1. For every radius, every count and whatever the generator hands
    out, [generate_sphere_point_cloud] returns exactly [num_points]
    points, and each of them lies at distance [|radius|] from the
    origin. *)
Theorem generate_sphere_count_and_radius (draws : nat -> R) (radius : R) (n : nat) :
  length (generate_sphere_point_cloud draws radius n) = n
  /\ Forall (fun p => vnorm p = Rabs radius)
            (generate_sphere_point_cloud draws radius n).
Proof.
  rewrite generate_sphere_as_map. split.
  - now rewrite length_map, length_seq.
  - apply Forall_forall. intros p Hp.
    apply list_elem_of_In, in_map_iff in Hp. destruct Hp as (i & <- & _).
    unfold vnorm, vx, vy, vz. cbn [fst snd].
    set (t := acos _). set (f := draws i).
    replace (radius * sin t * cos f * (radius * sin t * cos f)
             + radius * sin t * sin f * (radius * sin t * sin f)
             + radius * cos t * (radius * cos t))
      with (radius² * ((sin t)² * ((sin f)² + (cos f)²) + (cos t)²))
      by (unfold Rsqr; ring).
    rewrite sin2_cos2, Rmult_1_r, sin2_cos2, Rmult_1_r.
    apply sqrt_Rsqr_abs.
Qed.

(** X2. When the draws of the second call lie between -1 and 1, as the
    values of [uniform(-1, 1)] do, the height of point [i] is the radius
    times its draw [c], and the point is
    [radius * (sqrt (1 - c^2) * cos phi, sqrt (1 - c^2) * sin phi, c)]. *)
Theorem generate_sphere_point (draws : nat -> R) (radius : R) (n i : nat) :
  (i < n)%nat ->
  -1 <= draws (n + i)%nat <= 1 ->
  nth i (generate_sphere_point_cloud draws radius n) vzero
  = (radius * sqrt (1 - (draws (n + i)%nat)²) * cos (draws i),
     radius * sqrt (1 - (draws (n + i)%nat)²) * sin (draws i),
     radius * draws (n + i)%nat).
Proof.
  intros Hi Hc. rewrite generate_sphere_as_map.
  set (g := fun i : nat => _).
  rewrite (nth_indep _ vzero (g 0%nat)) by (now rewrite length_map, length_seq).
  rewrite (map_nth g), seq_nth by exact Hi. cbn [Nat.add]. unfold g.
  now rewrite sin_acos, cos_acos.
Qed.

Lemma generate_sphere_point_witness :
  nth 1 (generate_sphere_point_cloud (fun _ => 0) 2 3) vzero
  = (2 * sqrt (1 - 0²) * cos 0, 2 * sqrt (1 - 0²) * sin 0, 2 * 0).
Proof.
  apply (generate_sphere_point (fun _ => 0) 2 3 1); [lia|lra].
Defined.

End SphereFacts.

(** ** The tetrahedron generator, point by point *)

Section TetrahedronLayout.
Import Tetrahedron TetrahedronFaces.

Lemma nth_map_seq {A} (g : nat -> A) (n i : nat) (d : A) :
  (i < n)%nat -> nth i (map g (seq 0 n)) d = g i.
Proof.
  intros Hi.
  rewrite (nth_indep _ d (g 0%nat)) by (now rewrite length_map, length_seq).
  now rewrite (map_nth g), seq_nth.
Qed.

Lemma nth_take {A} (l : list A) (e k : nat) (d : A) :
  (k < e)%nat -> nth k (take e l) d = nth k l d.
Proof.
  revert e k. induction l as [|x l IH]; intros [|e] [|k] Hk; try reflexivity; try lia.
  simpl. apply IH. lia.
Qed.

(** Sample [i] of the loop over the faces belongs to face [i / m] and is
    built from two draws of the two calls made for that face. *)
Lemma nth_sample_faces (draws : nat -> R) (m : nat) fs (pos i : nat) :
  (i < length fs * m)%nat ->
  nth i (concat (sample_faces draws m fs pos)) vzero
  = sample (nth (i / m) fs (0, 0, 0)%nat)
           (draws (pos + 2 * m * (i / m) + i mod m)%nat,
            draws (pos + 2 * m * (i / m) + m + i mod m)%nat).
Proof.
  revert pos i. induction fs as [|f fs IH]; intros pos i Hi; [simpl in Hi; lia|].
  assert (0 < m)%nat as Hm by (destruct m; [simpl in Hi; lia|lia]).
  cbn [sample_faces uniform concat]. rewrite face_points_sample.
  rewrite (zip_with_map_seq pair draws draws pos (pos + m) m), map_map.
  destruct (Nat.lt_ge_cases i m) as [Hlt|Hge].
  - rewrite app_nth1 by (now rewrite length_map, length_seq).
    rewrite nth_map_seq by exact Hlt.
    rewrite Nat.div_small, Nat.mod_small by exact Hlt.
    cbn [nth]. f_equal. f_equal; f_equal; lia.
  - rewrite app_nth2 by (rewrite length_map, length_seq; exact Hge).
    rewrite length_map, length_seq.
    rewrite IH by (simpl in Hi; lia).
    assert (i = (i - m) + 1 * m)%nat as Hi' by lia.
    assert (i / m = S ((i - m) / m))%nat as Hd.
    { rewrite Hi' at 1. rewrite Nat.div_add by lia. lia. }
    assert (i mod m = (i - m) mod m)%nat as Hr.
    { rewrite Hi' at 1. now rewrite Nat.Div0.mod_add. }
    rewrite Hd, Hr. cbn [nth].
    set (q := ((i - m) / m)%nat). set (r := ((i - m) mod m)%nat).
    f_equal. f_equal; f_equal; nia.
Qed.

(** Every point returned, in closed form. *)
Lemma nth_generate (draws : nat -> R) (n i : nat) :
  (i < length (generate_tetrahedron_point_cloud draws n))%nat ->
  let m := (n / 4)%nat in
  let j := (i mod (4 * m))%nat in
  nth i (generate_tetrahedron_point_cloud draws n) vzero
  = sample (face (j / m))
           (draws (2 * m * (j / m) + j mod m)%nat,
            draws (2 * m * (j / m) + m + j mod m)%nat).
Proof.
  rewrite length_generate. destruct (Nat.ltb_spec n 4) as [|Hn]; [lia|].
  intros Hi m j.
  assert (1 <= m)%nat as Hm.
  { unfold m. change 1%nat with (4 / 4)%nat. apply Nat.Div0.div_le_mono. exact Hn. }
  pose proof (Nat.div_mod_eq n 4) as Hdm. fold m in Hdm.
  pose proof (Nat.mod_upper_bound n 4 ltac:(lia)) as Hmod.
  assert (forall k, (k < 4 * m)%nat ->
            nth k (concat (sample_faces draws m faces 0)) vzero
            = sample (face (k / m))
                     (draws (2 * m * (k / m) + k mod m)%nat,
                      draws (2 * m * (k / m) + m + k mod m)%nat)) as Hsample.
  { intros k Hk. rewrite nth_sample_faces by (change (length faces) with 4%nat; lia).
    reflexivity. }
  unfold generate_tetrahedron_point_cloud. fold m.
  pose proof (length_sample_faces draws m faces 0) as HL.
  change (length faces) with 4%nat in HL.
  set (pts := concat _) in *.
  destruct (Nat.ltb_spec n (length pts)); [lia|].
  destruct (Nat.lt_ge_cases i (4 * m)) as [Hlt|Hge].
  - assert (j = i) as -> by (unfold j; now apply Nat.mod_small).
    rewrite <- Hsample by exact Hlt.
    destruct (Nat.ltb_spec (length pts) n); [|reflexivity].
    now rewrite app_nth1 by lia.
  - destruct (Nat.ltb_spec (length pts) n); [|lia].
    rewrite app_nth2 by lia. rewrite HL.
    rewrite nth_take by lia.
    assert (j = i - 4 * m)%nat as ->.
    { unfold j. replace i with ((i - 4 * m) + 1 * (4 * m))%nat at 1 by lia.
      rewrite Nat.Div0.mod_add. apply Nat.mod_small. lia. }
    apply Hsample. lia.
Qed.

Lemma sample_on_face (f : nat * nat * nat) (u v : R) :
  0 <= u <= 1 -> 0 <= v <= 1 -> on_face f (sample f (u, v)).
Proof.
  intros Hu Hv. destruct f as [[i0 i1] i2]. unfold on_face, sample.
  destruct (Rgt_dec (u + v) 1).
  - exists (1 - (1 - u) - (1 - v)), (1 - u), (1 - v). repeat split; try lra.
  - exists (1 - u - v), u, v. repeat split; try lra.
Qed.

(** X3. Every point that [generate_tetrahedron_point_cloud] returns is
    known in closed form.  With [m = num_points // 4] samples per face,
    point [i] is the sample of face [j // m], where [j] is [i] reduced
    modulo [4 * m], built from draws [2 * m * (j // m) + j % m] and
    [... + m] of the generator: the faces come one after the other, and
    the points that pad the array up to [num_points] are copies of the
    first samples of the first face.  When the generator hands out
    values of the unit interval, the point lies on the triangle of that
    face, so on the surface of the tetrahedron. *)
Theorem generate_tetrahedron_point (draws : nat -> R) (n i : nat) :
  (i < length (generate_tetrahedron_point_cloud draws n))%nat ->
  let m := (n / 4)%nat in
  let j := (i mod (4 * m))%nat in
  nth i (generate_tetrahedron_point_cloud draws n) vzero
  = sample (face (j / m))
           (draws (2 * m * (j / m) + j mod m)%nat,
            draws (2 * m * (j / m) + m + j mod m)%nat)
  /\ ((forall k, 0 <= draws k <= 1) ->
      on_face (face (j / m))
              (nth i (generate_tetrahedron_point_cloud draws n) vzero)).
Proof.
  intros Hi m j. pose proof (nth_generate draws n i Hi) as Hnth.
  cbv zeta in Hnth. fold m in Hnth. fold j in Hnth.
  split; [exact Hnth|].
  intros Hd. rewrite Hnth. apply sample_on_face; apply Hd.
Qed.

Lemma generate_tetrahedron_point_witness :
  let m := (9 / 4)%nat in
  let j := (8 mod (4 * m))%nat in
  nth 8 (generate_tetrahedron_point_cloud (fun _ => 1/4) 9) vzero
  = sample (face (j / m)) (1/4, 1/4)
  /\ ((forall k : nat, 0 <= 1/4 <= 1) ->
      on_face (face (j / m))
              (nth 8 (generate_tetrahedron_point_cloud (fun _ => 1/4) 9) vzero)).
Proof.
  apply (generate_tetrahedron_point (fun _ => 1/4) 9 8).
  rewrite length_generate. simpl. lia.
Defined.

(** X4. The count of points for every request: none below four, and
    from four on exactly [num_points], of which the last
    [num_points % 4] repeat the first ones. *)
Theorem generate_tetrahedron_count_and_padding (draws : nat -> R) (n : nat) :
  length (generate_tetrahedron_point_cloud draws n) = (if (n <? 4)%nat then 0%nat else n)
  /\ forall t, (4 <= n)%nat -> (t < n mod 4)%nat ->
       nth (4 * (n / 4) + t) (generate_tetrahedron_point_cloud draws n) vzero
       = nth t (generate_tetrahedron_point_cloud draws n) vzero.
Proof.
  split; [apply length_generate|]. intros t Hn Ht.
  pose proof (Nat.div_mod_eq n 4) as Hdm.
  pose proof (Nat.mod_upper_bound n 4 ltac:(lia)) as Hmod.
  assert (1 <= n / 4)%nat as Hm.
  { change 1%nat with (4 / 4)%nat. now apply Nat.Div0.div_le_mono. }
  assert (length (generate_tetrahedron_point_cloud draws n) = n) as HL
      by (now apply length_generate_ge4).
  rewrite !nth_generate by lia. cbv zeta.
  replace ((4 * (n / 4) + t) mod (4 * (n / 4)))%nat with t.
  - now rewrite (Nat.mod_small t (4 * (n / 4))) by lia.
  - rewrite Nat.add_comm.
    replace (t + 4 * (n / 4))%nat with (t + 1 * (4 * (n / 4)))%nat by lia.
    rewrite Nat.Div0.mod_add. symmetry. apply Nat.mod_small. lia.
Qed.

Lemma generate_tetrahedron_count_and_padding_witness :
  length (generate_tetrahedron_point_cloud (fun _ => 0) 6) = 6%nat
  /\ nth 4 (generate_tetrahedron_point_cloud (fun _ => 0) 6) vzero
     = nth 0 (generate_tetrahedron_point_cloud (fun _ => 0) 6) vzero.
Proof.
  destruct (generate_tetrahedron_count_and_padding (fun _ => 0) 6) as [Hlen Hpad].
  split; [exact Hlen|]. apply (Hpad 0%nat); simpl; lia.
Defined.

End TetrahedronLayout.

(** ** The loader on every path *)

Section LoaderOutcomes.
Import Loader XyzFiles.
Local Open Scope string_scope.

Variable float_of_string : string -> option R.
Variable read_point_cloud : string -> cloud.

Lemma squeeze_Array2 (rows rows' : list (list R)) :
  squeeze rows = Array2 rows' -> rows' = rows /\ (2 <= length rows)%nat.
Proof.
  destruct rows as [|r1 [|r2 rows]]; simpl.
  - discriminate.
  - destruct r1 as [|x [|y r1]]; discriminate.
  - destruct r1 as [|x [|y r1]];
      (match goal with
       | |- (if ?b then _ else _) = _ -> _ => destruct b
       end; [discriminate|]; intros [= <-]; split; [reflexivity|lia]).
Qed.

Lemma Vector3dVector_returns (a : ndarray) (pts : list vec3) :
  Vector3dVector a = Return pts ->
  exists rows, a = Array2 rows /\ pts = map row_to_vec3 rows.
Proof.
  destruct a as [x|v|rows]; simpl; try discriminate.
  destruct (forallb _ rows); [|discriminate]. intros [= <-]. eauto.
Qed.

(** X5. A cloud that [load_point_cloud] returns is never empty.  From a
    [.xyz] file it has at least two points and no normals; otherwise the
    path ends in [.pcd] and the cloud is the one the library read, with
    at least one point. *)
Theorem load_returns_points (fs : filesystem) (file_path : string) (pcd : cloud) :
  load_point_cloud float_of_string read_point_cloud fs file_path = Return pcd ->
  has_points pcd = true
  /\ exists content,
       fs file_path = Some content
       /\ if endswith file_path ".xyz"
          then (2 <= length (points pcd))%nat /\ normals pcd = []
          else endswith file_path ".pcd" = true /\ pcd = read_point_cloud content.
Proof.
  unfold load_point_cloud.
  destruct (fs file_path) as [content|]; [|discriminate].
  destruct (endswith file_path ".xyz").
  - unfold loadtxt.
    destruct (read_rows float_of_string _ None) as [rows|e]; [|discriminate].
    cbn [mbind result_bind].
    destruct (Vector3dVector (squeeze rows)) as [pts|e] eqn:Hv; [|discriminate].
    cbn [mbind result_bind]. intros [= <-].
    apply Vector3dVector_returns in Hv. destruct Hv as (rows' & Hs & ->).
    apply squeeze_Array2 in Hs. destruct Hs as [-> Hlen].
    assert (2 <= length (map row_to_vec3 rows))%nat as Hl by (now rewrite length_map).
    split.
    + unfold has_points. cbn [points]. destruct (map row_to_vec3 rows); [simpl in Hl; lia|reflexivity].
    + exists content. split; [reflexivity|]. split; [exact Hl|reflexivity].
  - destruct (endswith file_path ".pcd"); [|discriminate].
    destruct (has_points (read_point_cloud content)) eqn:Hp; [|discriminate].
    cbn [negb]. intros [= <-]. split; [exact Hp|].
    exists content. auto.
Qed.

(** *** The exceptions of the loader, on paths of any kind *)

(** On regular files the loader on paths of any kind is the loader
    above. *)
Lemma load_regular_files (fs : filesystem) (file_path : string) :
  LoaderOS.load_point_cloud float_of_string read_point_cloud
                            (LoaderOS.regular fs) file_path
  = load_point_cloud float_of_string read_point_cloud fs file_path.
Proof.
  unfold LoaderOS.load_point_cloud, LoaderOS.regular, load_point_cloud.
  destruct (fs file_path) as [content|]; reflexivity.
Qed.

(** X6. The exceptions of [load_point_cloud], for a path of any kind:
    [FileNotFoundError] with the loader's message for a path that does
    not exist; for a path that exists a [ValueError] (extension, file
    content, a [.pcd] file that gives no points, which includes one that
    cannot be opened) or, in the [.xyz] branch only, the [RuntimeError]
    of the point container or the exception of [open] itself, for a
    directory or a file that may not be read.  Nothing else is
    raised. *)
Theorem load_raises_only (os : LoaderOS.os_filesystem) (file_path : string) (e : exn) :
  LoaderOS.load_point_cloud float_of_string read_point_cloud os file_path = Raise e ->
  (os file_path = LoaderOS.Absent
   /\ e = FileNotFoundError ("File " ++ file_path ++ " does not exist!"))
  \/ (os file_path <> LoaderOS.Absent
      /\ ((exists msg, e = ValueError msg)
          \/ (endswith file_path ".xyz" = true
              /\ (e = cast_error \/ os file_path = LoaderOS.Unopenable e)))).
Proof.
  unfold LoaderOS.load_point_cloud.
  destruct (os file_path) as [|content|e0] eqn:Hos.
  - intros [= <-]. now left.
  - intros H. right. split; [discriminate|].
    destruct (endswith file_path ".xyz").
    + cbn [LoaderOS.open_text mbind result_bind] in H.
      destruct (loadtxt float_of_string content) as [arr|e1] eqn:Hl;
        cbn [mbind result_bind] in H.
      * destruct (Vector3dVector arr) as [pts|e2] eqn:Hv;
          cbn [mbind result_bind] in H; [discriminate|].
        injection H as <-. apply Vector3dVector_raises in Hv. right. auto.
      * injection H as <-. apply loadtxt_raises in Hl. now left.
    + left. destruct (endswith file_path ".pcd"); [|injection H as <-; eauto].
      destruct (negb _); [injection H as <-; eauto|discriminate].
  - intros H. right. split; [discriminate|].
    destruct (endswith file_path ".xyz").
    + cbn [LoaderOS.open_text mbind result_bind] in H. injection H as <-.
      right. auto.
    + left. destruct (endswith file_path ".pcd"); [|injection H as <-; eauto].
      cbn [LoaderOS.read_point_cloud_at has_points points length Nat.eqb negb] in H.
      injection H as <-. eauto.
Qed.

(** *** Files of several rows *)

Lemma lines_of_xyz_content (rows : list (string * string * string)) pts :
  Forall2 (reads_as float_of_string) rows pts ->
  text_lines (xyz_content rows)
  = (map (fun '(x, y, z) => xyz_line x y z) rows ++ [""])%list.
Proof.
  unfold text_lines.
  induction 1 as [|[[x y] z] p rows pts Hr _ IH]; [reflexivity|].
  destruct Hr as (Hx & Hy & Hz & _).
  cbn [xyz_content map app].
  rewrite split_on_app by (apply xyz_line_free; tauto).
  cbn [map concat]. rewrite IH.
  rewrite (split_on_free "013") by (apply xyz_line_free; tauto).
  reflexivity.
Qed.

Lemma read_rows_xyz (rows : list (string * string * string)) pts ncols :
  Forall2 (reads_as float_of_string) rows pts ->
  ncols = None \/ ncols = Some 3%nat ->
  read_rows float_of_string
            (map (fun '(x, y, z) => xyz_line x y z) rows ++ [""])%list ncols
  = Return (map (fun p => [vx p; vy p; vz p]) pts).
Proof.
  intros H. revert ncols.
  induction H as [|[[x y] z] p rows pts Hr _ IH]; intros ncols Hn.
  - reflexivity.
  - destruct Hr as (Hx & Hy & Hz & Ha & Hb & Hc).
    cbn [map app read_rows]. rewrite (split_line_xyz x y z Hx Hy Hz).
    cbn [length].
    assert (match ncols with Some m => negb (Nat.eqb 3 m) | None => false end = false) as ->
        by (destruct Hn as [-> | ->]; reflexivity).
    cbn [convert_row]. rewrite Ha, Hb, Hc. cbn [mbind result_bind].
    rewrite IH by (now right). reflexivity.
Qed.

(** X7. A [.xyz] file of two or more rows, each three fields that
    [float] accepts, loads: [load_point_cloud] returns the cloud of
    exactly the points written in the file, in the order of the rows,
    without normals. *)
Theorem load_xyz_rows (fs : filesystem) (file_path : string)
        (rows : list (string * string * string)) (pts : list vec3) :
  fs file_path = Some (xyz_content rows) ->
  endswith file_path ".xyz" = true ->
  Forall2 (reads_as float_of_string) rows pts ->
  (2 <= length rows)%nat ->
  load_point_cloud float_of_string read_point_cloud fs file_path
  = Return (mkCloud pts []).
Proof.
  intros Hfs Hext Hrows Hlen. unfold load_point_cloud, loadtxt.
  rewrite Hfs, Hext, (lines_of_xyz_content rows pts Hrows).
  rewrite (read_rows_xyz rows pts None Hrows) by (now left).
  cbn [mbind result_bind].
  pose proof (Forall2_length _ _ _ Hrows) as Hl.
  destruct pts as [|p1 [|p2 pts]]; [simpl in Hl; lia..|].
  cbn [map squeeze length Nat.eqb forallb andb].
  cbn [Vector3dVector forallb length Nat.eqb andb].
  assert (forallb (fun r : list R => Nat.eqb (length r) 3)
                  (map (fun p => [vx p; vy p; vz p]) pts) = true) as ->.
  { clear. induction pts as [|p pts IH]; [reflexivity|exact IH]. }
  cbn [mbind result_bind]. do 2 f_equal.
  assert (forall l, map row_to_vec3 (map (fun p => [vx p; vy p; vz p]) l) = l) as Hid.
  { induction l as [|[[a b] c] l IH]; [reflexivity|]. cbn [map]. now rewrite IH. }
  exact (Hid (p1 :: p2 :: pts)).
Qed.

End LoaderOutcomes.

Section LoaderOutcomeExamples.
Import Loader XyzFiles.
Local Open Scope string_scope.

Lemma load_returns_points_witness :
  has_points (mkCloud [(0, 0, 0); (1 + 5 / 10 ^ 1, - (2), 3)]%R []) = true
  /\ exists content,
       example_fs "two.xyz" = Some content
       /\ if endswith "two.xyz" ".xyz"
          then (2 <= length (points (mkCloud [(0, 0, 0); (1 + 5 / 10 ^ 1, - (2), 3)]%R [])))%nat
               /\ normals (mkCloud [(0, 0, 0); (1 + 5 / 10 ^ 1, - (2), 3)]%R []) = []
          else endswith "two.xyz" ".pcd" = true
               /\ mkCloud [(0, 0, 0); (1 + 5 / 10 ^ 1, - (2), 3)]%R []
                  = (fun _ => mkCloud [] []) content.
Proof.
  apply (load_returns_points decimal_float (fun _ => mkCloud [] []) example_fs "two.xyz").
  reflexivity.
Defined.

(** The directory [points.xyz]: the exception of [open] is the one the
    loader raises. *)
Lemma load_raises_only_witness :
  let e := OtherError "IsADirectoryError" "[Errno 21] Is a directory: 'points.xyz'" in
  (LoaderOS.example_os "points.xyz" = LoaderOS.Absent
   /\ e = FileNotFoundError ("File " ++ "points.xyz" ++ " does not exist!"))
  \/ (LoaderOS.example_os "points.xyz" <> LoaderOS.Absent
      /\ ((exists msg, e = ValueError msg)
          \/ (endswith "points.xyz" ".xyz" = true
              /\ (e = cast_error \/ LoaderOS.example_os "points.xyz" = LoaderOS.Unopenable e)))).
Proof.
  apply (load_raises_only decimal_float (fun _ => mkCloud [] [])
           LoaderOS.example_os "points.xyz").
  reflexivity.
Defined.

Lemma load_xyz_rows_witness :
  load_point_cloud decimal_float (fun _ => mkCloud [] []) example_fs "two.xyz"
  = Return (mkCloud [(0, 0, 0); (1 + 5 / 10 ^ 1, - (2), 3)]%R []).
Proof.
  apply (load_xyz_rows decimal_float (fun _ => mkCloud [] []) example_fs "two.xyz"
           [("0", "0", "0"); ("1.5", "-2", "3")]).
  - reflexivity.
  - reflexivity.
  - repeat constructor.
  - simpl. lia.
Defined.

End LoaderOutcomeExamples.

(** ** Centring and scaling: outcomes and invariances *)

Section NormalizeAlgebra.
Import Preprocessor.

Lemma normalize_Some_inv (ps ps' : list vec3) :
  normalize ps = Return (Some ps') ->
  exists scale,
    0 < scale
    /\ np_max (map vnorm (subtract_center ps (mean_axis0 ps))) = Return scale
    /\ ps' = divide_scale (subtract_center ps (mean_axis0 ps)) scale
    /\ ps <> [].
Proof.
  unfold normalize.
  destruct (np_max _) as [scale|e] eqn:Hmax; [|discriminate].
  cbn [mbind result_bind].
  destruct (Req_dec_T scale 0) as [|Hnz]; [discriminate|]. intros [= <-].
  exists scale. pose proof (np_max_nonneg_norms _ _ Hmax).
  split; [lra|]. split; [reflexivity|]. split; [reflexivity|].
  intros ->. discriminate.
Qed.

Lemma foldl_Rmax_In (x : R) (l : list R) : In (foldl Rmax x l) (x :: l).
Proof.
  revert x. induction l as [|y l IH]; intros x; simpl; [now left|].
  destruct (IH (Rmax x y)) as [H|H]; [|now right; right].
  rewrite <- H. unfold Rmax. destruct (Rle_dec x y); [right|]; now left.
Qed.

Lemma np_max_In (l : list R) (m : R) : np_max l = Return m -> In m l.
Proof.
  destruct l as [|x l]; simpl; [discriminate|]. intros [= <-]. apply foldl_Rmax_In.
Qed.

Lemma vsum_all_equal (p : vec3) (ps : list vec3) :
  (forall q, In q ps -> q = p) -> vsum ps = vscale (INR (length ps)) p.
Proof.
  induction ps as [|q ps IH]; intros Hall.
  - simpl. vec3_eq.
  - change (vsum (q :: ps)) with (vadd q (vsum ps)).
    rewrite IH by (intros r Hr; apply Hall; now right).
    change (length (q :: ps)) with (S (length ps)). rewrite S_INR.
    rewrite (Hall q ltac:(now left)).
    generalize (INR (length ps)). intros n. destruct p as [[x y] z]. vec3_eq.
Qed.

Lemma np_max_zeros (l : list R) :
  l <> [] -> (forall x, In x l -> x = 0) -> np_max l = Return 0.
Proof.
  destruct l as [|x l]; [congruence|]. intros _ Hall. simpl. f_equal.
  pose proof (foldl_Rmax_In x l) as Hin. now apply Hall.
Qed.

Lemma vec3_eq_dec (p q : vec3) : p = q \/ p <> q.
Proof.
  destruct p as [[x y] z], q as [[a b] c].
  destruct (Req_dec x a) as [->|]; [|right; congruence].
  destruct (Req_dec y b) as [->|]; [|right; congruence].
  destruct (Req_dec z c) as [->|]; [|right; congruence].
  now left.
Qed.

Lemma all_equal_or_differs (p : vec3) (ps : list vec3) :
  (forall q, In q ps -> q = p) \/ (exists q, In q ps /\ q <> p).
Proof.
  induction ps as [|r ps [IH|(q & Hq & Hne)]].
  - left. intros q [].
  - destruct (vec3_eq_dec r p) as [->|Hne].
    + left. intros q [<-|Hq]; [reflexivity|now apply IH].
    + right. exists r. split; [now left|exact Hne].
  - right. exists q. split; [now right|exact Hne].
Qed.

(** In exact arithmetic the outcome is decided by the input alone: an
    exception exactly for the cloud without points, nan exactly for a
    cloud whose points all coincide, and normalized points in every
    other case. *)
Lemma normalize_cases (ps : list vec3) :
  ((exists e, normalize ps = Raise e) <-> ps = [])
  /\ (normalize ps = Return None
      <-> ps <> [] /\ forall p q, In p ps -> In q ps -> p = q)
  /\ ((exists ps', normalize ps = Return (Some ps'))
      <-> exists p q, In p ps /\ In q ps /\ p <> q).
Proof.
  assert (ps <> [] -> (forall p q, In p ps -> In q ps -> p = q) ->
          normalize ps = Return None) as Hnan.
  { intros Hne Hall. unfold normalize.
    destruct ps as [|p0 ps0] eqn:Eps; [congruence|]. rewrite <- Eps in *.
    assert (In p0 ps) as Hp0 by (rewrite Eps; now left).
    assert (mean_axis0 ps = p0) as Hmean.
    { unfold mean_axis0. rewrite (vsum_all_equal p0) by (intros q Hq; now apply Hall).
      assert (INR (length ps) <> 0) as Hn by (apply not_0_INR; rewrite Eps; discriminate).
      generalize dependent (INR (length ps)). intros n Hn.
      destruct p0 as [[x y] z]. unfold vdiv, vscale, vx, vy, vz; simpl.
      f_equal; [f_equal|]; field; exact Hn. }
    rewrite Hmean.
    rewrite (np_max_zeros (map vnorm (subtract_center ps p0))).
    - cbn [mbind result_bind]. destruct (Req_dec_T 0 0); [reflexivity|congruence].
    - rewrite Eps. discriminate.
    - intros x Hx. apply in_map_iff in Hx. destruct Hx as (c & <- & Hc).
      apply in_map_iff in Hc. destruct Hc as (q & <- & Hq).
      rewrite (Hall q p0 Hq Hp0). destruct p0 as [[a b] c].
      unfold vnorm, vsub, vx, vy, vz; simpl.
      replace ((a - a) * (a - a) + (b - b) * (b - b) + (c - c) * (c - c)) with 0 by ring.
      apply sqrt_0. }
  split; [|split].
  - split.
    + intros [e He]. unfold normalize in He.
      destruct (np_max _) as [scale|e'] eqn:Hmax.
      * cbn [mbind result_bind] in He. destruct (Req_dec_T scale 0); discriminate.
      * destruct ps; [reflexivity|discriminate].
    + intros ->. eexists. reflexivity.
  - split.
    + intros Hn. unfold normalize in Hn.
      destruct (np_max _) as [scale|e] eqn:Hmax; [|discriminate].
      cbn [mbind result_bind] in Hn.
      destruct (Req_dec_T scale 0) as [->|]; [|discriminate].
      split; [intros ->; discriminate|].
      intros p q Hp Hq. eapply scale_zero_coincide; eauto.
    + intros [Hne Hall]. now apply Hnan.
  - split.
    + intros [ps' Hn]. apply normalize_Some_inv in Hn.
      destruct Hn as (scale & Hpos & Hmax & _ & Hne).
      destruct ps as [|p0 ps0] eqn:Eps; [congruence|]. rewrite <- Eps in *.
      assert (In p0 ps) as Hp0 by (rewrite Eps; now left).
      destruct (all_equal_or_differs p0 ps) as [Hall|(q & Hq & Hne')].
      * exfalso.
        assert (normalize ps = Return None) as Hnone.
        { apply Hnan; [exact Hne|]. intros p q Hp Hq.
          now rewrite (Hall p Hp), (Hall q Hq). }
        unfold normalize in Hnone. rewrite Hmax in Hnone.
        cbn [mbind result_bind] in Hnone.
        destruct (Req_dec_T scale 0); [lra|discriminate].
      * exists q, p0. auto.
    + intros (p & q & Hp & Hq & Hpq).
      unfold normalize.
      destruct (np_max _) as [scale|e] eqn:Hmax.
      * cbn [mbind result_bind].
        destruct (Req_dec_T scale 0) as [->|]; [|eauto].
        exfalso. apply Hpq. eapply scale_zero_coincide; eauto.
      * destruct ps; [contradiction|discriminate].
Qed.

(** X8. The outcomes of the centring and scaling: it raises exactly on
    the cloud without points, and what it raises is the [ValueError] of
    [np.max]; on a cloud of one point it produces nan; on a
    well-conditioned cloud it returns as many points as it was
    given. *)
Theorem normalize_outcome (ps : list vec3) :
  ((exists e, normalize ps = Raise e) <-> ps = [])
  /\ (forall e, normalize ps = Raise e -> exists msg, e = ValueError msg)
  /\ (forall p, normalize [p] = Return None)
  /\ (well_conditioned ps ->
      exists ps', normalize ps = Return (Some ps') /\ length ps' = length ps).
Proof.
  destruct (normalize_cases ps) as (Hraise & _ & _).
  split; [exact Hraise|]. split; [|split].
  - intros e He. assert (ps = []) as -> by (apply Hraise; eauto).
    unfold normalize in He. cbn [subtract_center map np_max mbind result_bind] in He.
    injection He as <-. eauto.
  - intros p. apply (normalize_cases [p]). split; [discriminate|].
    intros a b [<-|[]] [<-|[]]. reflexivity.
  - intros Hwc. destruct (well_conditioned_differ ps Hwc) as (p & q & Hp & Hq & Hpq).
    destruct (normalize_exact ps p q Hp Hq Hpq) as (scale & ps' & _ & Hn & _ & Hlen & _).
    eauto.
Qed.

(** X9. On a well-conditioned cloud the normalized points lie in the
    closed unit ball, and at least one of them lies on the unit
    sphere. *)
Theorem normalize_unit_ball (ps ps' : list vec3) :
  well_conditioned ps ->
  normalize ps = Return (Some ps') ->
  Forall (fun p => vnorm p <= 1) ps' /\ Exists (fun p => vnorm p = 1) ps'.
Proof.
  intros _ Hn. apply normalize_Some_inv in Hn.
  destruct Hn as (scale & Hpos & Hmax & -> & _).
  pose proof (np_max_divide_scale _ _ Hpos Hmax) as H1.
  split.
  - apply Forall_forall. intros p Hp. apply list_elem_of_In in Hp.
    eapply np_max_upper; [exact H1|]. now apply in_map.
  - apply np_max_In, in_map_iff in H1. destruct H1 as (p & Hp & Hin).
    apply Exists_exists. exists p. split; [now apply list_elem_of_In|exact Hp].
Qed.

(** *** Invariances *)

Lemma vsum_translate (t : vec3) (ps : list vec3) :
  vsum (map (vadd t) ps) = vadd (vscale (INR (length ps)) t) (vsum ps).
Proof.
  induction ps as [|p ps IH].
  - simpl. vec3_eq.
  - change (vsum (map (vadd t) (p :: ps))) with (vadd (vadd t p) (vsum (map (vadd t) ps))).
    rewrite IH. change (length (p :: ps)) with (S (length ps)). rewrite S_INR.
    change (vsum (p :: ps)) with (vadd p (vsum ps)).
    generalize (INR (length ps)) (vsum ps). intros n s.
    destruct t as [[a b] c], p as [[x y] z]. vec3_eq.
Qed.

Lemma subtract_center_translate (t : vec3) (ps : list vec3) :
  subtract_center (map (vadd t) ps) (mean_axis0 (map (vadd t) ps))
  = subtract_center ps (mean_axis0 ps).
Proof.
  destruct ps as [|p0 ps0] eqn:Eps; [reflexivity|]. rewrite <- Eps.
  assert (INR (length ps) <> 0) as Hn by (apply not_0_INR; rewrite Eps; discriminate).
  unfold subtract_center. rewrite map_map. apply map_ext. intros p.
  unfold mean_axis0. rewrite vsum_translate, length_map.
  generalize dependent (INR (length ps)). intros n Hn. generalize (vsum ps). intros s.
  destruct t as [[a b] c], p as [[x y] z], s as [[sx sy] sz].
  unfold vsub, vadd, vdiv, vscale, vx, vy, vz; simpl.
  f_equal; [f_equal|]; field; exact Hn.
Qed.

(** X10. [normalize] does not see a translation of its input: a
    well-conditioned cloud and the same cloud moved by a vector, if
    that is well-conditioned too, have the same normalized points. *)
Theorem normalize_translation_invariant (t : vec3) (ps : list vec3) :
  well_conditioned ps -> well_conditioned (map (vadd t) ps) ->
  normalize (map (vadd t) ps) = normalize ps.
Proof.
  intros _ _. unfold normalize. now rewrite subtract_center_translate.
Qed.

Lemma vsum_vscale (s : R) (ps : list vec3) :
  vsum (map (vscale s) ps) = vscale s (vsum ps).
Proof.
  induction ps as [|p ps IH].
  - simpl. vec3_eq.
  - change (vsum (map (vscale s) (p :: ps)))
      with (vadd (vscale s p) (vsum (map (vscale s) ps))).
    rewrite IH. change (vsum (p :: ps)) with (vadd p (vsum ps)).
    generalize (vsum ps). intros v. destruct p as [[x y] z], v as [[a b] c].
    unfold vadd, vscale, vx, vy, vz; simpl. f_equal; [f_equal|]; ring.
Qed.

Lemma subtract_center_vscale (s : R) (ps : list vec3) :
  subtract_center (map (vscale s) ps) (mean_axis0 (map (vscale s) ps))
  = map (vscale s) (subtract_center ps (mean_axis0 ps)).
Proof.
  unfold subtract_center. rewrite !map_map. apply map_ext. intros p.
  unfold mean_axis0. rewrite vsum_vscale, length_map.
  generalize (INR (length ps)) (vsum ps). intros n v.
  destruct p as [[x y] z], v as [[a b] c].
  unfold vsub, vdiv, vscale, vx, vy, vz; simpl.
  f_equal; [f_equal|]; unfold Rdiv; ring.
Qed.

Lemma foldl_Rmax_scale (s x : R) (l : list R) :
  0 <= s -> foldl Rmax (s * x) (map (Rmult s) l) = s * foldl Rmax x l.
Proof.
  intros Hs. revert x. induction l as [|y l IH]; intros x; simpl; [reflexivity|].
  rewrite <- IH. f_equal. now apply RmaxRmult.
Qed.

(** X11. [normalize] does not see a uniform positive scaling of its
    input either: a well-conditioned cloud and the same cloud scaled by
    [s > 0], if that is well-conditioned too, have the same normalized
    points. *)
Theorem normalize_scale_invariant (s : R) (ps : list vec3) :
  0 < s -> well_conditioned ps -> well_conditioned (map (vscale s) ps) ->
  normalize (map (vscale s) ps) = normalize ps.
Proof.
  intros Hs _ _. unfold normalize. rewrite subtract_center_vscale.
  set (cs := subtract_center ps (mean_axis0 ps)).
  assert (map vnorm (map (vscale s) cs) = map (Rmult s) (map vnorm cs)) as ->.
  { rewrite !map_map. apply map_ext. intros p. apply vnorm_vscale. lra. }
  destruct (map vnorm cs) as [|x l] eqn:Hl; [reflexivity|].
  cbn [map np_max mbind result_bind]. rewrite foldl_Rmax_scale by lra.
  set (m := foldl Rmax x l).
  destruct (Req_dec_T (s * m) 0) as [Hz|Hnz], (Req_dec_T m 0) as [Hz'|Hnz'];
    try reflexivity; try (exfalso; nra).
  do 2 f_equal. unfold divide_scale. rewrite map_map. apply map_ext. intros p.
  destruct p as [[a b] c]. unfold vdiv, vscale, vx, vy, vz; simpl.
  f_equal; [f_equal|]; field; lra.
Qed.

(** X12. [normalize] is idempotent on well-conditioned clouds:
    normalizing the normalized points of such a cloud returns them
    again. *)
Theorem normalize_idempotent (ps ps' : list vec3) :
  well_conditioned ps ->
  normalize ps = Return (Some ps') -> normalize ps' = Return (Some ps').
Proof.
  intros _ Hn. apply normalize_Some_inv in Hn.
  destruct Hn as (scale & Hpos & Hmax & Heq & Hne).
  assert (mean_axis0 ps' = vzero) as Hmean.
  { subst ps'. unfold mean_axis0 at 1.
    rewrite vsum_divide_scale, mean_subtract_center by exact Hne.
    unfold vdiv, vzero, vx, vy, vz; simpl.
    f_equal; [f_equal|]; unfold Rdiv; rewrite !Rmult_0_l; reflexivity. }
  assert (np_max (map vnorm ps') = Return 1) as H1
      by (subst ps'; now apply np_max_divide_scale).
  unfold normalize. rewrite Hmean.
  assert (subtract_center ps' vzero = ps') as ->.
  { unfold subtract_center. rewrite <- (map_id ps') at 2. apply map_ext.
    intros [[a b] c]. unfold vsub, vzero, vx, vy, vz; simpl.
    f_equal; [f_equal|]; ring. }
  rewrite H1. cbn [mbind result_bind].
  destruct (Req_dec_T 1 0) as [|_]; [lra|]. do 2 f_equal.
  unfold divide_scale. rewrite <- (map_id ps') at 2. apply map_ext.
  intros [[a b] c]. unfold vdiv, vx, vy, vz; simpl.
  f_equal; [f_equal|]; field.
Qed.

Lemma normalize_unit_ball_witness :
  Forall (fun p => vnorm p <= 1) [(-1, 0, 0); (1, 0, 0)]
  /\ Exists (fun p => vnorm p = 1) [(-1, 0, 0); (1, 0, 0)].
Proof.
  apply (normalize_unit_ball Examples.two_points).
  - apply two_points_well_conditioned.
  - exact normalize_two_points.
Defined.

Lemma normalize_translation_invariant_witness :
  normalize (map (vadd (1, 1, 1)) Examples.two_points)
  = normalize Examples.two_points.
Proof.
  apply (normalize_translation_invariant (1, 1, 1) Examples.two_points);
    apply two_points_well_conditioned.
Defined.

Lemma normalize_scale_invariant_witness :
  normalize (map (vscale 3) Examples.two_points) = normalize Examples.two_points.
Proof.
  apply (normalize_scale_invariant 3 Examples.two_points);
    [lra|apply two_points_well_conditioned..].
Defined.

Lemma normalize_idempotent_witness :
  normalize [(-1, 0, 0); (1, 0, 0)] = Return (Some [(-1, 0, 0); (1, 0, 0)]).
Proof.
  apply (normalize_idempotent Examples.two_points).
  - apply two_points_well_conditioned.
  - exact normalize_two_points.
Defined.

End NormalizeAlgebra.

(** ** The in-place stages: every outcome and what stays untouched *)

Section InPlaceOutcomes.
Import Store Preprocessor NormalEstimator.

Variable voxel_down_sample : cloud -> R -> cloud.
Variable estimate_normals : list vec3 -> R -> nat -> result (list vec3).
Variable orient_normals_consistent_tangent_plane :
  list vec3 -> list vec3 -> nat -> result (list vec3).



(** X14. [orient_normals] touches nothing but the normals of its cloud:
    however the call ends, the heap holds the same number of objects,
    every other object is as it was, and the cloud passed in has the
    points it had. *)
Theorem orient_normals_frame (h : list cloud) (pcd k : nat) :
  (pcd < length h)%nat ->
  let o := orient_normals estimate_normals
                          orient_normals_consistent_tangent_plane h pcd k in
  length (fst o) = length h
  /\ points (deref (fst o) pcd) = points (deref h pcd)
  /\ forall r, r <> pcd -> deref (fst o) r = deref h r.
Proof.
  intros Hr o. subst o. unfold orient_normals.
  destruct (estimate_normals _ _ _) as [ns|e]; [|cbn [fst]; auto].
  rewrite deref_set_normals_eq by exact Hr. cbn [points normals].
  destruct (orient_normals_consistent_tangent_plane _ _ _) as [ns'|e]; cbn [fst].
  - rewrite !length_set_normals.
    rewrite deref_set_normals_eq by (now rewrite length_set_normals).
    rewrite deref_set_normals_eq by exact Hr. cbn [points].
    split; [reflexivity|]. split; [reflexivity|].
    intros r Hne. now rewrite !deref_set_normals_ne by congruence.
  - rewrite length_set_normals, deref_set_normals_eq by exact Hr. cbn [points].
    split; [reflexivity|]. split; [reflexivity|].
    intros r Hne. now rewrite deref_set_normals_ne by congruence.
Qed.

(** X15. An exception of the orientation pass leaves its trace: when the
    estimation has returned normals and the orientation raises, the call
    raises that exception and the cloud keeps the normals as estimated,
    not yet oriented; when the estimation itself raises, the normals of
    the cloud are as before the call. *)
Theorem orient_normals_raise_keeps_estimate
        (h : list cloud) (pcd k : nat) (e : exn) :
  (pcd < length h)%nat ->
  (estimate_normals (points (deref h pcd)) (1/10) k = Raise e ->
   orient_normals estimate_normals orient_normals_consistent_tangent_plane h pcd k
   = (h, Raise e))
  /\ (forall ns,
        estimate_normals (points (deref h pcd)) (1/10) k = Return ns ->
        orient_normals_consistent_tangent_plane (points (deref h pcd)) ns k = Raise e ->
        exists h',
          orient_normals estimate_normals orient_normals_consistent_tangent_plane
                         h pcd k = (h', Raise e)
          /\ normals (deref h' pcd) = ns).
Proof.
  intros Hr. unfold orient_normals. split.
  - intros ->. reflexivity.
  - intros ns -> Ho. rewrite deref_set_normals_eq by exact Hr.
    cbn [points normals]. rewrite Ho. eexists. split; [reflexivity|].
    now rewrite deref_set_normals_eq by exact Hr.
Qed.

End InPlaceOutcomes.

Section InPlaceOutcomeExamples.
Import Store Preprocessor NormalEstimator Examples Runs.


Lemma orient_normals_frame_witness :
  let o := orient_normals z_normals keep_normals two_heap 0 30 in
  length (fst o) = length two_heap
  /\ points (deref (fst o) 0) = points (deref two_heap 0)
  /\ forall r, r <> 0%nat -> deref (fst o) r = deref two_heap r.
Proof.
  apply (orient_normals_frame z_normals keep_normals two_heap 0 30). simpl. lia.
Defined.

Lemma orient_normals_raise_keeps_estimate_witness :
  orient_normals raising_estimate keep_normals two_heap 0 30
  = (two_heap, Raise (RuntimeError "estimate_normals failed"))
  /\ exists h',
       orient_normals z_normals raising_orientation two_heap 0 30
       = (h', Raise (RuntimeError "orientation failed"))
       /\ normals (deref h' 0) = [(0, 0, 1); (0, 0, 1)].
Proof.
  split.
  - apply (orient_normals_raise_keeps_estimate raising_estimate keep_normals
             two_heap 0 30 (RuntimeError "estimate_normals failed")).
    + simpl. lia.
    + reflexivity.
  - apply (orient_normals_raise_keeps_estimate z_normals raising_orientation
             two_heap 0 30 (RuntimeError "orientation failed")
             ltac:(simpl; lia)).
    + reflexivity.
    + reflexivity.
Defined.

End InPlaceOutcomeExamples.

(** ** The radii handed to the ball-pivoting algorithm *)

Section AbsoluteRadii.
Import Reconstruction.

(** X16. On a cloud of at least two points and relative radii in
    range, the average nearest-neighbour distance is a positive number
    and so is every absolute radius: the library receives one number
    per relative radius, none of them nan or zero. *)
Theorem absolute_radii_positive (ps : list vec3) (radii : list R) :
  (2 <= length ps)%nat -> in_range ps radii ->
  exists avg,
    0 < avg
    /\ np_mean (compute_nearest_neighbor_distance ps) = Some avg
    /\ scale_radii (np_mean (compute_nearest_neighbor_distance ps)) radii
       = map (fun r => Some (r * avg)) radii
    /\ Forall (fun r => 0 < r * avg) radii.
Proof.
  intros Hlen Hin.
  destruct (np_mean_in_range _ _ Hlen Hin) as (avg & Hlo & Havg).
  pose proof (inv_pow2_pos 500) as Hpos.
  exists avg. split; [lra|]. split; [exact Havg|]. split.
  - rewrite Havg. reflexivity.
  - destruct Hin as (_ & _ & Hr). eapply Forall_impl; [exact Hr|].
    intros r [Hr1 _]. simpl. apply Rmult_lt_0_compat; lra.
Qed.

(** X17. On a cloud whose points all coincide, the cloud of one point
    among them, every nearest-neighbour distance is 0 and every
    absolute radius is 0, whatever the relative radii. *)
Theorem absolute_radii_zero (ps : list vec3) (radii : list R) :
  ps <> [] -> (forall p q, In p ps -> In q ps -> p = q) ->
  Forall (fun d => d = 0) (compute_nearest_neighbor_distance ps)
  /\ scale_radii (np_mean (compute_nearest_neighbor_distance ps)) radii
     = map (fun _ => Some 0) radii.
Proof.
  intros Hne Hall.
  assert (Forall (fun d => d = 0) (compute_nearest_neighbor_distance ps)) as Hd.
  { unfold compute_nearest_neighbor_distance. apply Forall_imap. intros i p Hi.
    destruct (nearest_cases p (delete i ps)) as [[_ H0]|(q & Hq & ->)]; [exact H0|].
    assert (In q ps) as Hq'.
    { rewrite delete_take_drop in Hq. apply in_app_or in Hq.
      rewrite <- (take_drop i ps). apply in_or_app. destruct Hq as [Hq|Hq]; [now left|].
      right. apply list_elem_of_In. apply list_elem_of_In in Hq.
      rewrite <- (take_drop 1 (drop i ps)), drop_drop.
      apply elem_of_app. right. now rewrite Nat.add_comm. }
    assert (In p ps) as Hp by (apply list_elem_of_In; eapply list_elem_of_lookup_2; eauto).
    rewrite (Hall q p Hq' Hp). apply dist_same. }
  split; [exact Hd|].
  assert (compute_nearest_neighbor_distance ps <> []) as Hnil.
  { intros Hnil. apply (f_equal length) in Hnil.
    unfold compute_nearest_neighbor_distance in Hnil. rewrite length_imap in Hnil.
    destruct ps; [congruence|discriminate]. }
  rewrite np_mean_not_nil by exact Hnil. rewrite (foldr_Rplus_zero _ Hd).
  unfold scale_radii. apply map_ext. intros r. simpl. f_equal.
  unfold Rdiv. ring.
Qed.

Lemma absolute_radii_positive_witness :
  exists avg,
    0 < avg
    /\ np_mean (compute_nearest_neighbor_distance Examples.two_points) = Some avg
    /\ scale_radii (np_mean (compute_nearest_neighbor_distance Examples.two_points))
                   [1; 2]
       = map (fun r => Some (r * avg)) [1; 2]
    /\ Forall (fun r => 0 < r * avg) [1; 2].
Proof.
  apply (absolute_radii_positive Examples.two_points [1; 2]).
  - simpl. lia.
  - apply two_points_in_range.
Defined.

Lemma absolute_radii_zero_witness :
  Forall (fun d => d = 0) (compute_nearest_neighbor_distance [(1, 2, 3)])
  /\ scale_radii (np_mean (compute_nearest_neighbor_distance [(1, 2, 3)])) [1; 2]
     = map (fun _ => Some 0) [1; 2].
Proof.
  apply (absolute_radii_zero [(1, 2, 3)] [1; 2]).
  - discriminate.
  - intros p q [<-|[]] [<-|[]]. reflexivity.
Defined.

End AbsoluteRadii.

(** ** The hand-off to the viewer *)

Section PyVistaFacts.
Import PyVista.

Lemma faces_pv_flat (faces : list (nat * nat * nat)) :
  faces_pv faces
  = concat (map (fun '(a, b, c) => [3%Z; Z.of_nat a; Z.of_nat b; Z.of_nat c]) faces).
Proof.
  unfold faces_pv, flatten, set_columns123, set_column0, zeros4.
  induction faces as [|[[a b] c] faces IH]; [reflexivity|].
  cbn [length repeat map zip_with concat drop take app]. now rewrite IH.
Qed.

(** X18. The cell array that [o3d_to_pyvista] builds for a mesh holds
    four entries per triangle, the count 3 and the three vertex indices,
    and reading it back cell by cell gives exactly the triangles of the
    mesh, in their order. *)
Theorem faces_pv_round_trip (faces : list (nat * nat * nat)) :
  length (faces_pv faces) = (4 * length faces)%nat
  /\ read_triangles (faces_pv faces) = Some faces
  /\ forall i a b c,
       nth_error faces i = Some (a, b, c) ->
       nth_error (faces_pv faces) (4 * i) = Some 3%Z
       /\ nth_error (faces_pv faces) (4 * i + 1) = Some (Z.of_nat a)
       /\ nth_error (faces_pv faces) (4 * i + 2) = Some (Z.of_nat b)
       /\ nth_error (faces_pv faces) (4 * i + 3) = Some (Z.of_nat c).
Proof.
  rewrite faces_pv_flat. split; [|split].
  - induction faces as [|[[a b] c] faces IH]; [reflexivity|].
    cbn [map concat app length]. rewrite IH. lia.
  - induction faces as [|[[a b] c] faces IH]; [reflexivity|].
    cbn [map concat app read_triangles]. rewrite IH.
    replace (Z.eqb 3 3 && Z.leb 0 (Z.of_nat a) && Z.leb 0 (Z.of_nat b)
             && Z.leb 0 (Z.of_nat c))%bool with true.
    + cbn [mbind option_bind]. now rewrite !Nat2Z.id.
    + symmetry. rewrite !andb_true_iff. repeat split; try reflexivity;
        apply Z.leb_le; lia.
  - induction faces as [|[[a' b'] c'] faces IH]; intros i a b c Hi.
    + destruct i; discriminate.
    + destruct i as [|i].
      * injection Hi as -> -> ->. repeat split; reflexivity.
      * cbn [nth_error] in Hi. specialize (IH i a b c Hi).
        cbn [map concat app].
        replace (4 * S i)%nat with (S (S (S (S (4 * i))))) by lia.
        cbn [nth_error Nat.add]. exact IH.
Qed.

(** Looking an array up in the dictionary built by one or two
    assignments. *)
Ltac find_array :=
  repeat first [ rewrite lookup_insert_eq
               | rewrite lookup_insert_ne by discriminate
               | rewrite lookup_empty ];
  reflexivity.

Ltac attached_lengths :=
  let name := fresh "name" in
  let array := fresh "array" in
  let H := fresh "H" in
  intros name array H;
  repeat match type of H with
         | context [ <[_ := _]> _ !! _ ] => rewrite lookup_insert in H; case_decide
         end;
  try (rewrite lookup_empty in H; discriminate);
  injection H as <-; auto.

(** X19. [o3d_to_pyvista] never fails on the length of an array: it
    returns for every cloud and every mesh, the points of the result
    are the points given, and every array it attaches has one row per
    point.  Normals are attached exactly when the geometry has them,
    colours exactly when the cloud has them, multiplied by 255. *)
Theorem o3d_to_pyvista_returns (g : geometry) :
  exists pd,
    o3d_to_pyvista g = Return pd
    /\ (forall name array,
          point_data pd !! name = Some array -> length array = length (pv_points pd))
    /\ match g with
       | PointCloudGeometry pcd colors =>
           pv_points pd = points pcd /\ pv_faces pd = []
           /\ point_data pd !! "Normals"
              = (if has_normals pcd then Some (normals pcd) else None)
           /\ point_data pd !! "Colors"
              = (if has_colors pcd colors then Some (map (vscale 255) colors) else None)
       | TriangleMeshGeometry m =>
           pv_points pd = vertices m /\ pv_faces pd = faces_pv (triangles m)
           /\ point_data pd !! "Normals"
              = (if has_vertex_normals m then Some (vertex_normals m) else None)
       end.
Proof.
  destruct g as [pcd colors|m]; unfold o3d_to_pyvista.
  - assert (has_normals pcd = true -> length (normals pcd) = length (points pcd)) as Hn.
    { unfold has_normals. intros [_ H]%andb_prop. now apply Nat.eqb_eq. }
    assert (has_colors pcd colors = true ->
            length (map (vscale 255) colors) = length (points pcd)) as Hc.
    { unfold has_colors. intros [_ H]%andb_prop. rewrite length_map.
      now apply Nat.eqb_eq. }
    destruct (has_normals pcd) eqn:En, (has_colors pcd colors) eqn:Ec;
      unfold set_point_data; cbn [pv_points point_data pv_faces mbind result_bind];
      rewrite ?(Hn eq_refl), ?Nat.eqb_refl;
      cbn [pv_points point_data pv_faces mbind result_bind];
      rewrite ?(Hc eq_refl), ?Nat.eqb_refl;
      (eexists; split; [reflexivity|]; cbn [pv_points point_data pv_faces];
       split; [attached_lengths|repeat split; find_array]).
  - assert (has_vertex_normals m = true ->
            length (vertex_normals m) = length (vertices m)) as Hn.
    { unfold has_vertex_normals. intros [_ H]%andb_prop. now apply Nat.eqb_eq. }
    destruct (has_vertex_normals m) eqn:En; unfold set_point_data;
      cbn [pv_points point_data pv_faces];
      rewrite ?(Hn eq_refl), ?Nat.eqb_refl;
      (eexists; split; [reflexivity|]; cbn [pv_points point_data pv_faces];
       split; [attached_lengths|repeat split; find_array]).
Qed.

End PyVistaFacts.

(** ** The command-line pipeline *)

Section CreatorFacts.
Import Creator.

Variable float_of_string : string -> option R.
Variable read_point_cloud : string -> cloud.
Variable estimate_normals : list vec3 -> R -> nat -> result (list vec3).
Variable orient_normals_consistent_tangent_plane :
  list vec3 -> list vec3 -> nat -> result (list vec3).
Variable ball_pivoting : cloud -> list (option R) -> result mesh.
Variable poisson : cloud -> nat -> result mesh.
Variable vertex_normals_of : mesh -> list vec3.
Variable setup_window : string -> PyVista.geometry -> result unit.
Variable run_window : string -> PyVista.geometry -> result unit.

Local Abbreviation run_main :=
  (main float_of_string read_point_cloud estimate_normals
        orient_normals_consistent_tangent_plane ball_pivoting poisson
        vertex_normals_of setup_window run_window).
Local Abbreviation load :=
  (Loader.load_point_cloud float_of_string read_point_cloud).
Local Abbreviation stage_normals :=
  (orient_normals estimate_normals orient_normals_consistent_tangent_plane).
Local Abbreviation stage_poisson := (poisson_reconstruction poisson vertex_normals_of).
Local Abbreviation stage_ball_pivoting :=
  (ball_pivoting_reconstruction ball_pivoting vertex_normals_of).
Local Abbreviation window_of_cloud := (show_cloud setup_window run_window).
Local Abbreviation window_of_mesh := (show_mesh setup_window run_window).

Lemma Forall_seq_prog {A B} (P : event -> Prop) (m : prog A) (k : A -> prog B) :
  Forall P (fst m) ->
  (forall a, snd m = Return a -> Forall P (fst (k a))) ->
  Forall P (fst (seq_prog m k)).
Proof.
  destruct m as [evs [a|e]]; cbn [fst snd seq_prog]; intros Hm Hk; [|exact Hm].
  specialize (Hk a eq_refl). destruct (k a) as [evs' r]. cbn [fst] in *.
  apply Forall_app. now split.
Qed.

Lemma snd_seq_prog_raise {A B} (m : prog A) (k : A -> prog B) (e : exn) :
  snd (seq_prog m k) = Raise e ->
  snd m = Raise e \/ exists a, snd m = Return a /\ snd (k a) = Raise e.
Proof.
  destruct m as [evs [a|e']]; cbn [fst snd seq_prog].
  - destruct (k a) as [evs' r] eqn:Hk. cbn [snd]. intros ->. right.
    exists a. now rewrite Hk.
  - intros [= ->]. now left.
Qed.

Lemma snd_load_point_cloud (fs : Loader.filesystem) (path : string) :
  snd (load_point_cloud float_of_string read_point_cloud fs path) = load fs path.
Proof.
  unfold load_point_cloud, lift, print. cbn [seq_prog].
  now destruct (load fs path).
Qed.

(** X20. [main] catches every exception of the loader: when loading the
    hard-wired file raises, for a missing file among other causes, the
    run prints three lines, the last one with the exception, shows no
    window, writes no file and returns normally. *)
Theorem main_catches_load_error (fs : Loader.filesystem) (e : exn) :
  load fs file_path = Raise e ->
  run_main fs
  = ([Print [Str "Starting with file: "; Str file_path];
      Print [Str "Attempting to load file: "; Str file_path];
      Print [Str "Error loading point cloud: "; Exc e]],
     Return tt).
Proof.
  intros Hl. unfold main, load_point_cloud, lift, print.
  cbn [seq_prog]. rewrite Hl. reflexivity.
Qed.

(** X21. Whatever the file system and the library do, [main] writes a
    mesh only when it has triangles, and only to [poisson_mesh.ply] or
    [ball_pivot_mesh.ply]: a reconstruction without triangles is
    reported on the console and never written. *)
Theorem main_writes_triangles_only (fs : Loader.filesystem) :
  Forall writes_triangles_only (fst (run_main fs)).
Proof.
  assert (forall msg, Forall writes_triangles_only (fst (print msg))) as Hprint
      by (intros msg; repeat constructor).
  assert (forall A (a : A), Forall writes_triangles_only (fst (ret a))) as Hret
      by (intros A a; constructor).
  assert (forall A (r : result A), Forall writes_triangles_only (fst (lift r))) as Hlift
      by (intros A r; constructor).
  assert (forall g name,
             Forall writes_triangles_only
                    (fst (visualize_geometry setup_window run_window g name)))
    as Hshow.
  { intros g name. unfold visualize_geometry.
    repeat (apply Forall_seq_prog; [auto|intros]). repeat constructor. }
  unfold main. apply Forall_seq_prog; [apply Hprint|]. intros _ _.
  assert (Forall writes_triangles_only (fst (load_point_cloud float_of_string
            read_point_cloud fs file_path))) as Hload.
  { unfold load_point_cloud. repeat (apply Forall_seq_prog; [auto|intros]). auto. }
  destruct (load_point_cloud _ _ fs file_path) as [evs [pcd|e]]; cbn [fst] in *.
  2:{ apply Forall_app. split; [exact Hload|repeat constructor]. }
  apply Forall_seq_prog; [exact Hload|]. intros _ _.
  unfold after_loading, show_cloud, show_mesh.
  apply Forall_seq_prog; [auto|intros _ _].
  apply Forall_seq_prog; [auto|intros _ _].
  apply Forall_seq_prog.
  { unfold orient_normals. destruct (NormalEstimator.orient_normals _ _ _ _ _) as [h [r|e]];
      repeat constructor. }
  intros pcd' _.
  apply Forall_seq_prog; [auto|intros _ _].
  apply Forall_seq_prog; [auto|intros _ _].
  apply Forall_seq_prog.
  { unfold poisson_reconstruction. repeat (apply Forall_seq_prog; [auto|intros]). auto. }
  intros poisson_mesh _.
  apply Forall_seq_prog.
  { destruct (has_triangles poisson_mesh) eqn:Ht; [|auto].
    apply Forall_seq_prog; [|auto].
    cbn [fst]. constructor; [split; [exact Ht|now left]|repeat constructor]. }
  intros _ _.
  apply Forall_seq_prog.
  { unfold ball_pivoting_reconstruction. repeat (apply Forall_seq_prog; [auto|intros]). auto. }
  intros ball_pivot_mesh _.
  destruct (has_triangles ball_pivot_mesh) eqn:Ht; [|auto].
  apply Forall_seq_prog; [|auto].
  cbn [fst]. constructor; [split; [exact Ht|now right]|repeat constructor].
Qed.

(** X22. An exception that escapes [main] was raised after a successful
    load, and it is the exception of one of the calls [main] makes from
    there on, in their order: the window of the raw cloud, the normal
    stage, the window of the cloud with normals, the Poisson
    reconstruction, the window of the Poisson mesh when that has
    triangles, the ball-pivoting reconstruction, or the window of the
    ball-pivoting mesh when that has triangles.  [main] raises nothing
    of its own and nothing of the loader. *)
Theorem main_raises_only_after_loading (fs : Loader.filesystem) (e : exn) :
  snd (run_main fs) = Raise e ->
  exists pcd,
    load fs file_path = Return pcd
    /\ (snd (window_of_cloud pcd "Raw Point Cloud") = Raise e
        \/ snd (stage_normals pcd) = Raise e
        \/ exists pcd',
             snd (stage_normals pcd) = Return pcd'
             /\ (snd (window_of_cloud pcd' "Point Cloud with Normals") = Raise e
                 \/ snd (stage_poisson pcd' 8) = Raise e
                 \/ exists poisson_mesh,
                      snd (stage_poisson pcd' 8) = Return poisson_mesh
                      /\ (has_triangles poisson_mesh = true
                          /\ snd (window_of_mesh poisson_mesh "Poisson Mesh") = Raise e
                          \/ snd (stage_ball_pivoting pcd' default_radii) = Raise e
                          \/ exists ball_pivot_mesh,
                               snd (stage_ball_pivoting pcd' default_radii)
                               = Return ball_pivot_mesh
                               /\ has_triangles ball_pivot_mesh = true
                               /\ snd (window_of_mesh ball_pivot_mesh
                                                      "Ball Pivoting Mesh")
                                  = Raise e))).
Proof.
  unfold main. intros H.
  apply snd_seq_prog_raise in H. destruct H as [H|(_ & _ & H)]; [discriminate|].
  pose proof (snd_load_point_cloud fs file_path) as Hs.
  destruct (load_point_cloud _ _ fs file_path) as [evs [pcd|e0]]; cbn [snd] in Hs;
    [|discriminate].
  exists pcd. split; [now symmetry|].
  apply snd_seq_prog_raise in H. destruct H as [H|(_ & _ & H)]; [discriminate|].
  unfold after_loading in H.
  apply snd_seq_prog_raise in H. destruct H as [H|(_ & _ & H)]; [discriminate|].
  apply snd_seq_prog_raise in H. destruct H as [H|(_ & _ & H)]; [now left|].
  right.
  apply snd_seq_prog_raise in H. destruct H as [H|(pcd' & Hn & H)]; [now left|].
  right. exists pcd'. split; [exact Hn|].
  apply snd_seq_prog_raise in H. destruct H as [H|(_ & _ & H)]; [discriminate|].
  apply snd_seq_prog_raise in H. destruct H as [H|(_ & _ & H)]; [now left|].
  right.
  apply snd_seq_prog_raise in H. destruct H as [H|(poisson_mesh & Hp & H)]; [now left|].
  right. exists poisson_mesh. split; [exact Hp|].
  apply snd_seq_prog_raise in H. destruct H as [H|(_ & _ & H)].
  { destruct (has_triangles poisson_mesh); [|discriminate].
    apply snd_seq_prog_raise in H. destruct H as [H|(_ & _ & H)]; [discriminate|].
    left. now split. }
  right.
  apply snd_seq_prog_raise in H. destruct H as [H|(ball_pivot_mesh & Hb & H)]; [now left|].
  right. exists ball_pivot_mesh. split; [exact Hb|].
  destruct (has_triangles ball_pivot_mesh); [|discriminate].
  apply snd_seq_prog_raise in H. destruct H as [H|(_ & _ & H)]; [discriminate|].
  now split.
Qed.

End CreatorFacts.

Section CreatorExamples.
Import Creator Runs.

Lemma main_catches_load_error_witness :
  main Loader.decimal_float empty_reader Examples.z_normals Examples.keep_normals
       Examples.seed_only no_triangles no_vertex_normals window_closed window_closed
       Loader.example_fs
  = ([Print [Str "Starting with file: "; Str file_path];
      Print [Str "Attempting to load file: "; Str file_path];
      Print [Str "Error loading point cloud: ";
             Exc (FileNotFoundError
                    "File /Users/srujanraj/Downloads/sphere.pcd does not exist!")]],
     Return tt).
Proof.
  apply (main_catches_load_error Loader.decimal_float empty_reader Examples.z_normals
           Examples.keep_normals Examples.seed_only no_triangles no_vertex_normals
           window_closed window_closed Loader.example_fs).
  reflexivity.
Defined.

(** Without a display the first window already raises, before any
    stage has run. *)
Lemma main_raises_only_after_loading_witness :
  let e := OtherError "AttributeError"
                      "'NoneType' object has no attribute 'mesh_show_back_face'" in
  exists pcd,
    Loader.load_point_cloud Loader.decimal_float two_points_reader sphere_fs file_path
    = Return pcd
    /\ (snd (show_cloud no_display window_closed pcd "Raw Point Cloud") = Raise e
        \/ snd (orient_normals Examples.z_normals Examples.keep_normals pcd) = Raise e
        \/ exists pcd',
             snd (orient_normals Examples.z_normals Examples.keep_normals pcd)
             = Return pcd'
             /\ (snd (show_cloud no_display window_closed pcd'
                                 "Point Cloud with Normals") = Raise e
                 \/ snd (poisson_reconstruction no_triangles no_vertex_normals pcd' 8)
                    = Raise e
                 \/ exists poisson_mesh,
                      snd (poisson_reconstruction no_triangles no_vertex_normals pcd' 8)
                      = Return poisson_mesh
                      /\ (has_triangles poisson_mesh = true
                          /\ snd (show_mesh no_display window_closed poisson_mesh
                                            "Poisson Mesh") = Raise e
                          \/ snd (ball_pivoting_reconstruction Examples.seed_only
                                    no_vertex_normals pcd' default_radii) = Raise e
                          \/ exists ball_pivot_mesh,
                               snd (ball_pivoting_reconstruction Examples.seed_only
                                      no_vertex_normals pcd' default_radii)
                               = Return ball_pivot_mesh
                               /\ has_triangles ball_pivot_mesh = true
                               /\ snd (show_mesh no_display window_closed ball_pivot_mesh
                                                 "Ball Pivoting Mesh") = Raise e))).
Proof.
  apply (main_raises_only_after_loading Loader.decimal_float two_points_reader
           Examples.z_normals Examples.keep_normals Examples.seed_only no_triangles
           no_vertex_normals no_display window_closed sphere_fs).
  reflexivity.
Defined.

End CreatorExamples.

(** ** The window *)

(** Running a method of the window, step by step, and by cases on what
    the library calls and the controls give. *)
Ltac run_gui :=
  cbv beta iota zeta delta
      [Gui.process_stages Gui.orient_point_cloud Gui.try_except
       mbind Gui.gui_bind mret Gui.gui_ret
       Gui.emit Gui.raise_gui Gui.read Gui.write Gui.set_point_cloud
       Gui.set_poisson_mesh Gui.set_ball_pivot_mesh Gui.enable_save
       Gui.show_info Gui.show_error Gui.the_point_cloud
       Gui.visualize_input Gui.visualize_normals Gui.visualize_poisson
       Gui.visualize_ball_pivot
       Gui.events_of Gui.window_of Gui.outcome_of fst snd app
       Gui.point_cloud Gui.poisson_mesh Gui.ball_pivot_mesh Gui.save_enabled].

Ltac case_innermost x :=
  lazymatch x with
  | context [match ?y with _ => _ end] => case_innermost y
  | _ => destruct x eqn:?
  end.

Ltac split_gui :=
  repeat (run_gui;
          lazymatch goal with
          | |- context [match ?x with _ => _ end] => case_innermost x
          end);
  run_gui.

(** Membership of an event in an explicit list of events. *)
Ltac event_in := cbn [In]; tauto.
Ltac event_not_in H :=
  cbn [In] in H;
  repeat match type of H with
         | _ \/ _ => destruct H as [H|H]
         end;
  first [discriminate H | contradiction].

Section GuiFacts.
Import Gui.

Variable draws : nat -> R.
Variable float_of_string : string -> option R.
Variable read_point_cloud : string -> cloud.
Variable estimate_normals : list vec3 -> R -> nat -> result (list vec3).
Variable orient_normals_consistent_tangent_plane :
  list vec3 -> list vec3 -> nat -> result (list vec3).
Variable ball_pivoting : cloud -> list (option R) -> result mesh.
Variable poisson : cloud -> nat -> result mesh.
Variable vertex_normals_of : mesh -> list vec3.
Variable fs : Loader.filesystem.

Local Abbreviation process :=
  (process_point_cloud draws float_of_string read_point_cloud estimate_normals
     orient_normals_consistent_tangent_plane ball_pivoting poisson
     vertex_normals_of fs).

Local Abbreviation complete := (StatusMessage [Creator.Str "Processing complete"]).

(** X23. No exception escapes [process_point_cloud].  A run that reaches
    its end reports "Processing complete" and enables the save button; a
    run that does not leaves the button as it was.  A failure of the
    ball-pivoting step, the reading of its radii included, is shown in a
    message box and the run still completes; a failure reported as
    "Processing error" ends the run before completion. *)
Theorem process_point_cloud_ends (c : controls) (w : window) :
  outcome_of (process c w) = Return tt
  /\ (In complete (events_of (process c w)) ->
      save_enabled (window_of (process c w)) = true)
  /\ (~ In complete (events_of (process c w)) ->
      save_enabled (window_of (process c w)) = save_enabled w)
  /\ (forall e,
        In (MessageBoxCritical [Creator.Str "Ball Pivoting failed: "; Creator.Exc e])
           (events_of (process c w)) ->
        In complete (events_of (process c w)))
  /\ (forall e,
        In (MessageBoxCritical [Creator.Str "Processing error: "; Creator.Exc e])
           (events_of (process c w)) ->
        ~ In complete (events_of (process c w))).
Proof.
  unfold process_point_cloud. destruct w as [pc pm bm se].
  split_gui.
  all: split; [reflexivity|].
  all: split; [intros H; first [reflexivity | event_not_in H]|].
  all: split; [intros H; first [reflexivity | exfalso; apply H; event_in]|].
  all: split; [intros e' H; first [event_in | event_not_in H]|].
  all: intros e' H Hc; first [event_not_in H | event_not_in Hc].
Qed.


(** X24. A step that is not requested leaves the mesh of an earlier run
    in the window: with the Poisson box unticked the Poisson mesh is the
    one held before, also when a new cloud was generated or loaded, and
    likewise for the ball-pivoting mesh. *)
Theorem process_point_cloud_keeps_unrequested_meshes (c : controls) (w : window) :
  (poisson_checked c = false ->
   poisson_mesh (window_of (process c w)) = poisson_mesh w)
  /\ (ball_pivot_checked c = false ->
      ball_pivot_mesh (window_of (process c w)) = ball_pivot_mesh w).
Proof.
  unfold process_point_cloud, process_stages. destruct w as [pc pm bm se].
  split; intros ->; split_gui; reflexivity.
Qed.

(** X25. When the upload source is selected and no cloud is obtained, no
    file chosen or the loader raising, [process_point_cloud] shows the
    error and returns with the window as it was: the cloud and the meshes
    of an earlier run stay, the save button is not touched, and nothing
    is visualised. *)
Theorem process_point_cloud_without_cloud (c : controls) (w : window) :
  source c <> "Generate Sphere" ->
  source c <> "Generate Pyramid" ->
  (file_tooltip c = "" \/
   exists e, Loader.load_point_cloud float_of_string read_point_cloud fs
               (file_tooltip c) = Raise e) ->
  window_of (process c w) = w
  /\ outcome_of (process c w) = Return tt
  /\ exists message,
       events_of (process c w) =
         [StatusMessage [Creator.Str "Processing..."];
          MessageBoxCritical message;
          StatusMessage [Creator.Str "Error occurred"]].
Proof.
  intros Hs Hp Hfile.
  apply String.eqb_neq in Hs. apply String.eqb_neq in Hp.
  unfold process_point_cloud. rewrite Hs, Hp.
  destruct (String.eqb (file_tooltip c) "") eqn:Hempty.
  - run_gui. split; [reflexivity|]. split; [reflexivity|]. eauto.
  - destruct Hfile as [Hfile|[e He]].
    + apply String.eqb_neq in Hempty. contradiction.
    + run_gui. rewrite He. run_gui.
      split; [reflexivity|]. split; [reflexivity|]. eauto.
Qed.

(** X26. [save_results] changes nothing in the window.  Without a cloud
    it only shows an error, and with the directory dialog cancelled it
    does nothing.  Otherwise the cloud held is written first, and every
    mesh written is one the window holds and has triangles; a mesh
    without triangles is never written. *)
Theorem save_results_writes (save_dir : string) (w : window) :
  window_of (save_results save_dir w) = w
  /\ outcome_of (save_results save_dir w) = Return tt
  /\ (point_cloud w = None \/ save_dir = "" ->
      forall ev, In ev (events_of (save_results save_dir w)) ->
                 match ev with
                 | WritePointCloud _ _ _ | WriteTriangleMesh _ _ _ => False
                 | _ => True
                 end)
  /\ (forall pcd, point_cloud w = Some pcd -> save_dir <> "" ->
      exists evs, events_of (save_results save_dir w) =
                    WritePointCloud save_dir "point_cloud.pcd" pcd :: evs)
  /\ (forall dir name m,
        In (WriteTriangleMesh dir name m) (events_of (save_results save_dir w)) ->
        has_triangles m = true
        /\ dir = save_dir
        /\ (name = "poisson_mesh.obj" /\ poisson_mesh w = Some m
            \/ name = "ball_pivot_mesh.obj" /\ ball_pivot_mesh w = Some m)).
Proof.
  unfold save_results. destruct w as [pc pm bm se].
  cbv beta iota delta [point_cloud poisson_mesh ball_pivot_mesh].
  destruct pc as [pcd|].
  - destruct (String.eqb save_dir "") eqn:Hdir.
    + apply String.eqb_eq in Hdir. run_gui.
      split; [reflexivity|]. split; [reflexivity|].
      split; [intros _ ev []|].
      split; [intros pcd' _ Hne; contradiction|].
      intros dir name m [].
    + apply String.eqb_neq in Hdir.
      destruct pm as [m1|]; [destruct (has_triangles m1) eqn:H1|];
        (destruct bm as [m2|]; [destruct (has_triangles m2) eqn:H2|]);
        split_gui.
      all: split; [reflexivity|]. 
      all: split; [reflexivity|].
      all: split; [intros [Hc|Hc]; [discriminate Hc|contradiction]|].
      all: split; [intros pcd' Hpcd _; injection Hpcd as <-; eauto|].
      all: intros dir name m Hin; cbn [In] in Hin;
        repeat match type of Hin with
               | _ \/ _ => destruct Hin as [Hin|Hin]
               end;
        try discriminate Hin; try contradiction;
        injection Hin as <- <- <-; auto.
  - run_gui. split; [reflexivity|]. split; [reflexivity|].
    split; [|split].
    + intros _ ev Hin. cbn [In] in Hin.
      destruct Hin as [<-|[<-|[]]]; exact I.
    + intros pcd Hpcd. discriminate Hpcd.
    + intros dir name m Hin. cbn [In] in Hin.
      destruct Hin as [Hin|[Hin|[]]]; discriminate Hin.
Qed.

(** *** The radii of the ball-pivoting step *)

Lemma split_on_not_nil (d : ascii) (s : string) : Loader.split_on d s <> [].
Proof.
  destruct s as [|c s]; simpl; [discriminate|].
  destruct (Ascii.eqb c d); [discriminate|].
  destruct (Loader.split_on d s); discriminate.
Qed.

Lemma length_split_on (d : ascii) (s : string) :
  length (Loader.split_on d s) = S (count_char d s).
Proof.
  induction s as [|c s IH]; simpl; [reflexivity|].
  destruct (Ascii.eqb c d); simpl; [now rewrite IH|].
  destruct (Loader.split_on d s) as [|w ws] eqn:Hs; [now destruct (split_on_not_nil d s)|].
  exact IH.
Qed.

Lemma split_on_trailing (d : ascii) (s : string) :
  Loader.split_on d (s ++ String d "") = (Loader.split_on d s ++ [""])%list.
Proof.
  induction s as [|c s IH]; simpl.
  - now rewrite Ascii.eqb_refl.
  - destruct (Ascii.eqb c d); [now rewrite IH|].
    rewrite IH. destruct (Loader.split_on d s) as [|w ws] eqn:Hs; [|reflexivity].
    now destruct (split_on_not_nil d s).
Qed.

Lemma floats_Return (words : list string) (rs : list R) :
  floats float_of_string words = Return rs ->
  Forall2 (fun w r => float_of_string (strip w) = Some r) words rs.
Proof.
  revert rs. induction words as [|w ws IH]; intros rs; cbn [floats].
  - intros [= <-]. constructor.
  - destruct (float_of_string (strip w)) as [x|] eqn:Hw; [|discriminate].
    destruct (floats float_of_string ws) as [xs|e]; cbn [mbind result_bind];
      [|discriminate].
    intros [= <-]. constructor; [exact Hw|now apply IH].
Qed.

Lemma floats_Raise (words : list string) (e : exn) :
  floats float_of_string words = Raise e ->
  exists w, In w words /\ float_of_string (strip w) = None
            /\ e = ValueError ("could not convert string to float: " ++ strip w).
Proof.
  induction words as [|w ws IH]; cbn [floats]; [discriminate|].
  destruct (float_of_string (strip w)) as [x|] eqn:Hw.
  - destruct (floats float_of_string ws) as [xs|e']; cbn [mbind result_bind];
      [discriminate|].
    intros [= <-]. destruct (IH eq_refl) as (w' & Hin & Hnone & He).
    exists w'. split; [now right|now split].
  - intros [= <-]. exists w. split; [now left|now split].
Qed.

Lemma floats_blank_last (words : list string) (w : string) :
  float_of_string (strip w) = None ->
  exists msg, floats float_of_string (words ++ [w]) = Raise (ValueError msg).
Proof.
  intros Hw. induction words as [|w' ws (msg & IH)]; cbn [app floats].
  - rewrite Hw. eauto.
  - destruct (float_of_string (strip w')); [|eauto].
    rewrite IH. cbn [mbind result_bind]. eauto.
Qed.

(** X27. The radii read from the text field, by its fields between
    commas: when the reading returns, there is one radius per field, one
    more than there are commas, so the list is never empty, and each is
    what [float] makes of the stripped field; when it raises, it is the
    [ValueError] of a field that [float] rejects. *)
Theorem parse_radii_fields (text : string) :
  (forall rs, parse_radii float_of_string text = Return rs ->
     length rs = S (count_char "," text)
     /\ Forall2 (fun w r => float_of_string (strip w) = Some r)
                (Loader.split_on "," text) rs)
  /\ (forall e, parse_radii float_of_string text = Raise e ->
        exists w, In w (Loader.split_on "," text)
                  /\ float_of_string (strip w) = None
                  /\ e = ValueError ("could not convert string to float: " ++ strip w)).
Proof.
  unfold parse_radii. split.
  - intros rs H. apply floats_Return in H. split; [|exact H].
    apply Forall2_length in H. now rewrite <- H, length_split_on.
  - apply floats_Raise.
Qed.

(** X28. As [float] rejects the empty string, an empty text field and a
    text that ends in a comma make the reading of the radii raise
    [ValueError]. *)
Theorem parse_radii_blank_field (text : string) :
  float_of_string "" = None ->
  parse_radii float_of_string "" = Raise (ValueError "could not convert string to float: ")
  /\ exists msg, parse_radii float_of_string (text ++ ",") = Raise (ValueError msg).
Proof.
  intros Hblank. unfold parse_radii. split.
  - cbn [Loader.split_on floats]. change (strip "") with "". now rewrite Hblank.
  - rewrite split_on_trailing. now apply floats_blank_last.
Qed.

(** X29. With the ball-pivoting box ticked and a text of radii that
    cannot be read, the run is not aborted: whenever it completes, the
    failure was shown in a message box, the ball-pivoting view was not
    refreshed, and the window holds the ball-pivoting mesh it held
    before the run, if any. *)
Theorem process_point_cloud_bad_radii (c : controls) (w : window) (e : exn) :
  ball_pivot_checked c = true ->
  parse_radii float_of_string (ball_radii_text c) = Raise e ->
  ball_pivot_mesh (window_of (process c w)) = ball_pivot_mesh w
  /\ (forall m radii, ~ In (VisualizeBallPivot m radii) (events_of (process c w)))
  /\ (In complete (events_of (process c w)) ->
      In (MessageBoxCritical [Creator.Str "Ball Pivoting failed: "; Creator.Exc e])
         (events_of (process c w))).
Proof.
  intros Hb Hr. unfold process_point_cloud, process_stages.
  rewrite Hb, Hr. destruct w as [pc pm bm se].
  split_gui.
  all: split; [reflexivity|].
  all: split; [intros m' radii H; event_not_in H|].
  all: intros H; first [event_in | event_not_in H].
Qed.

End GuiFacts.

Section GuiExamples.
Import Gui Runs.

Local Abbreviation example_process :=
  (process_point_cloud zero_draws Loader.decimal_float empty_reader
     Examples.z_normals Examples.keep_normals Examples.seed_only no_triangles
     no_vertex_normals Loader.example_fs).

Lemma process_point_cloud_ends_witness :
  save_enabled (window_of (example_process upload_two fresh_window)) = true.
Proof.
  destruct (process_point_cloud_ends zero_draws Loader.decimal_float empty_reader
              Examples.z_normals Examples.keep_normals Examples.seed_only
              no_triangles no_vertex_normals Loader.example_fs
              upload_two fresh_window) as (_ & Hc & _).
  apply Hc. do 3 right. left. reflexivity.
Defined.

Lemma process_point_cloud_keeps_unrequested_meshes_witness :
  poisson_mesh (window_of (example_process upload_two used_window))
  = Some one_triangle
  /\ ball_pivot_mesh (window_of (example_process upload_two used_window))
     = Some no_triangle.
Proof.
  destruct (process_point_cloud_keeps_unrequested_meshes zero_draws
              Loader.decimal_float empty_reader
              Examples.z_normals Examples.keep_normals Examples.seed_only
              no_triangles no_vertex_normals Loader.example_fs
              upload_two used_window) as [Hp Hb].
  split; [exact (Hp eq_refl)|exact (Hb eq_refl)].
Defined.

Lemma process_point_cloud_without_cloud_witness :
  window_of (example_process upload_nothing used_window) = used_window
  /\ outcome_of (example_process upload_nothing used_window) = Return tt
  /\ exists message,
       events_of (example_process upload_nothing used_window) =
         [StatusMessage [Creator.Str "Processing..."];
          MessageBoxCritical message;
          StatusMessage [Creator.Str "Error occurred"]].
Proof.
  apply (process_point_cloud_without_cloud zero_draws Loader.decimal_float
           empty_reader Examples.z_normals Examples.keep_normals
           Examples.seed_only no_triangles no_vertex_normals Loader.example_fs
           upload_nothing used_window).
  - intros H. discriminate H.
  - intros H. discriminate H.
  - left. reflexivity.
Defined.

Lemma save_results_writes_witness :
  exists evs,
    events_of (save_results "out" used_window)
    = WritePointCloud "out" "point_cloud.pcd" (mkCloud Examples.two_points []) :: evs.
Proof.
  destruct (save_results_writes "out" used_window) as (_ & _ & _ & Hfirst & _).
  apply Hfirst; [reflexivity|discriminate].
Defined.

Lemma parse_radii_blank_field_witness :
  parse_radii Loader.decimal_float ""
  = Raise (ValueError "could not convert string to float: ")
  /\ exists msg,
       parse_radii Loader.decimal_float ("1.0,2.0" ++ ",") = Raise (ValueError msg).
Proof.
  apply (parse_radii_blank_field Loader.decimal_float "1.0,2.0"). reflexivity.
Defined.

Lemma process_point_cloud_bad_radii_witness :
  let c := mkControls "Upload File" 1000 "two.xyz" false 30 false 8 true "" in
  ball_pivot_mesh (window_of (example_process c used_window))
  = ball_pivot_mesh used_window
  /\ (forall m radii,
        ~ In (VisualizeBallPivot m radii) (events_of (example_process c used_window)))
  /\ (In (StatusMessage [Creator.Str "Processing complete"])
         (events_of (example_process c used_window)) ->
      In (MessageBoxCritical
            [Creator.Str "Ball Pivoting failed: ";
             Creator.Exc (ValueError "could not convert string to float: ")])
         (events_of (example_process c used_window))).
Proof.
  apply (process_point_cloud_bad_radii zero_draws Loader.decimal_float
           empty_reader Examples.z_normals Examples.keep_normals
           Examples.seed_only no_triangles no_vertex_normals Loader.example_fs
           (mkControls "Upload File" 1000 "two.xyz" false 30 false 8 true "")
           used_window).
  - reflexivity.
  - reflexivity.
Defined.

End GuiExamples.
